(** * Verification of spack's build environment module

    A shallow embedding of [lib/spack/spack/build_environment.py]:
    the static-to-shared library conversion, the RPATH / link / include
    directory synthesis, the dependency environment composer, the forked
    build runner and the error reporting classes. *)

From Stdlib Require Import List String Ascii Bool ZArith Lia Permutation DecimalString.
Import ListNotations.
Open Scope string_scope.
Open Scope list_scope.

(** String concatenation, kept apart from list append. *)
Infix "+++" := String.append (right associativity, at level 60).

(** ** Python strings and truth values *)

(** [str.rfind(c)]: index of the last occurrence of [c], or -1. *)
Fixpoint rfind_from (c : ascii) (s : string) (i acc : Z) : Z :=
  match s with
  | EmptyString => acc
  | String a s' => rfind_from c s' (i + 1)%Z (if Ascii.eqb a c then i else acc)
  end.

Definition rfind (s : string) (c : ascii) : Z := rfind_from c s 0%Z (-1)%Z.

(** [s[n:]] and [s[:n]] for a non-negative [n]. *)
Fixpoint str_drop (n : nat) (s : string) : string :=
  match n, s with
  | O, _ => s
  | S _, EmptyString => EmptyString
  | S n', String _ s' => str_drop n' s'
  end.

Fixpoint str_take (n : nat) (s : string) : string :=
  match n, s with
  | O, _ => EmptyString
  | S _, EmptyString => EmptyString
  | S n', String a s' => String a (str_take n' s')
  end.

(** [sub in s] on strings. *)
Definition str_in (sub s : string) : bool :=
  match String.index 0 sub s with
  | Some _ => true
  | None => false
  end.

Definition startswith (s pre : string) : bool := String.prefix pre s.

Fixpoint endswith_char (s : string) (c : ascii) : bool :=
  match s with
  | EmptyString => false
  | String a EmptyString => Ascii.eqb a c
  | String _ s' => endswith_char s' c
  end.

(** A value that is either [None] or a [str]. *)
Definition pystr := option string.

(** Truth value of a [None]-or-string value: [None] and [''] are false. *)
Definition truthy (v : pystr) : bool :=
  match v with
  | Some s => negb (s =? "")
  | None => false
  end.

(** ['{0}'.format(v)]. *)
Definition fmt (v : pystr) : string :=
  match v with
  | Some s => s
  | None => "None"
  end.

Definition pystr_eqb (a b : pystr) : bool :=
  match a, b with
  | Some x, Some y => x =? y
  | None, None => true
  | _, _ => false
  end.

(** ** [os.path] on POSIX *)

Module os_path.

Definition sep : ascii := "/"%char.
Definition extsep : ascii := "."%char.

(** [os.path.join(a, b)] *)
Definition join (a b : string) : string :=
  if startswith b "/" then b
  else if (a =? "") || endswith_char a sep then a +++ b
  else a +++ "/" +++ b.

Definition join3 (a b c : string) : string := join (join a b) c.

(** [os.path.basename(p)]: [p[p.rfind('/') + 1:]] *)
Definition basename (p : string) : string :=
  str_drop (Z.to_nat (rfind p sep + 1)) p.

(** The scanning loop of [genericpath._splitext]: is there a character
    other than the extension separator in [p[k : k + n]]? *)
Fixpoint has_non_dot (p : string) (k : nat) (n : nat) : bool :=
  match n with
  | O => false
  | S n' =>
      match String.get k p with
      | Some a => if Ascii.eqb a extsep then has_non_dot p (S k) n' else true
      | None => true
      end
  end.

(** [os.path.splitext(p)] *)
Definition splitext (p : string) : string * string :=
  let sepIndex := rfind p sep in
  let dotIndex := rfind p extsep in
  if (sepIndex <? dotIndex)%Z
     && has_non_dot p (Z.to_nat (sepIndex + 1))
                    (Z.to_nat (dotIndex - (sepIndex + 1)))
  then (str_take (Z.to_nat dotIndex) p, str_drop (Z.to_nat dotIndex) p)
  else (p, "").

End os_path.

(** ** Static to shared library conversion *)

(** Platform-specific library suffix, from [sys.platform]. *)
Definition dso_suffix (sys_platform : string) : string :=
  if sys_platform =? "darwin" then "dylib" else "so".

(** Keyword arguments of [_static_to_shared_library].  A key that is
    absent is [None]; [compat_version] distinguishes an absent key from
    an explicit value because its default is [version]. *)
Record static_to_shared_kwargs := {
  kw_compiler_output : pystr;
  kw_arguments : list string;
  kw_version : pystr;
  kw_compat_version : option pystr
}.

(** What the conversion does to the outside world, in order. *)
Inductive effect :=
| Symlink (src dst : string)      (* os.symlink(src, dst) *)
| RunCompiler (args : list string) (output : pystr).  (* the compiler call *)

Definition opt_list {A} (b : bool) (x : A) : list A := if b then [x] else [].

Section StaticToShared.

Variable sys_platform : string.

Definition kwargs_compat_version (kw : static_to_shared_kwargs) : pystr :=
  match kw_compat_version kw with
  | Some v => v
  | None => kw_version kw
  end.

(** [shared_lib] after the [if not shared_lib] default. *)
Definition shared_lib_base (static_lib : string) (shared_lib : pystr) : string :=
  if truthy shared_lib then fmt shared_lib
  else fst (os_path.splitext static_lib) +++ "." +++ dso_suffix sys_platform.

(** The platform dependent part of the compiler arguments. *)
Definition platform_args (arch static_lib shared_lib : string)
           (version compat_version : pystr) : list string :=
  if str_in "linux" arch || str_in "cray" arch then
    let soname := os_path.basename shared_lib in
    let soname := if truthy compat_version
                  then soname +++ "." +++ fmt compat_version else soname in
    [ "-shared";
      "-Wl,-soname," +++ soname;
      "-Wl,--whole-archive";
      static_lib;
      "-Wl,--no-whole-archive" ]
  else if str_in "darwin" arch then
    let install_name := shared_lib in
    let install_name := if truthy compat_version
                        then install_name +++ "." +++ fmt compat_version
                        else install_name in
    [ "-dynamiclib"; "-install_name"; install_name;
      "-Wl,-force_load," +++ static_lib ]
    ++ (if truthy compat_version
        then ["-compatibility_version"; fmt compat_version] else [])
    ++ (if truthy version then ["-current_version"; fmt version] else [])
  else [].

(** The output file name: the base name with its version suffix. *)
Definition versioned_lib (base : string) (version compat_version : pystr) : string :=
  if truthy version then base +++ "." +++ fmt version
  else if truthy compat_version then base +++ "." +++ fmt compat_version
  else base.

Definition compiler_args (arch static_lib : string) (shared_lib : pystr)
           (kw : static_to_shared_kwargs) : list string :=
  let version := kw_version kw in
  let compat_version := kwargs_compat_version kw in
  let base := shared_lib_base static_lib shared_lib in
  platform_args arch static_lib base version compat_version
  ++ (if (0 <? List.length (kw_arguments kw))%nat then kw_arguments kw else [])
  ++ ["-o"; versioned_lib base version compat_version].

Definition symlinks (static_lib : string) (shared_lib : pystr)
           (kw : static_to_shared_kwargs) : list effect :=
  let version := kw_version kw in
  let compat_version := kwargs_compat_version kw in
  let base := shared_lib_base static_lib shared_lib in
  let shared_lib_link :=
    os_path.basename (versioned_lib base version compat_version) in
  opt_list (truthy version || truthy compat_version)
           (Symlink shared_lib_link base)
  ++ opt_list (truthy compat_version
               && negb (pystr_eqb compat_version version))
              (Symlink shared_lib_link (base +++ "." +++ fmt compat_version)).

(** [_static_to_shared_library(arch, compiler, static_lib, shared_lib,
    **kwargs)]: the symlinks it creates followed by the compiler run
    whose result it returns. *)
Definition _static_to_shared_library (arch static_lib : string)
           (shared_lib : pystr) (kw : static_to_shared_kwargs) : list effect :=
  symlinks static_lib shared_lib kw
  ++ [RunCompiler (compiler_args arch static_lib shared_lib kw)
                  (kw_compiler_output kw)].

End StaticToShared.

(** ** Error classes *)

(** A Python class as the runner sees it: its qualified name and the
    qualified names of the classes in its method resolution order (the
    class itself included). *)
Definition qualname := (string * string)%type.

Record exc_class := {
  cls_module : string;              (* __module__ *)
  cls_name : string;                (* __name__ *)
  cls_mro : list qualname
}.

Definition qualname_eqb (a b : qualname) : bool :=
  (fst a =? fst b) && (snd a =? snd b).

Definition qualname_in (q : qualname) (l : list qualname) : bool :=
  existsb (qualname_eqb q) l.

Definition StopPhase_name : qualname := ("spack.build_environment", "StopPhase").
Definition InstallError_name : qualname := ("spack.build_environment", "InstallError").
Definition ChildError_name : qualname := ("spack.build_environment", "ChildError").
Definition TestFailure_name : qualname := ("spack.install_test", "TestFailure").

(** [issubclass(c, base)] *)
Definition issubclass (c : exc_class) (base : qualname) : bool :=
  qualname_in base (cls_mro c).

(** [c is base] *)
Definition class_is (c : exc_class) (base : qualname) : bool :=
  qualname_eqb (cls_module c, cls_name c) base.

(** [ChildError]: the fields set by its constructor, the [message] and
    [_long_message] it inherits from [SpackError], and the [pkg]
    attribute that [fork] attaches ([None] while the attribute is
    absent). *)
Record ChildError := {
  ce_message : string;
  ce__long_message : pystr;
  ce_pkg : option string;
  ce_module : string;
  ce_name : string;
  ce_traceback : string;
  ce_context : list string;
  ce_build_log : pystr;
  ce_test_log : pystr
}.

(** [ChildError.__init__]; [super().__init__(msg)] leaves the long
    message unset. *)
Definition ChildError_init (msg module classname traceback_string : string)
           (context : list string) (build_log test_log : pystr) : ChildError :=
  {| ce_message := msg;
     ce__long_message := None;
     ce_pkg := None;
     ce_module := module;
     ce_name := classname;
     ce_traceback := traceback_string;
     ce_context := context;
     ce_build_log := build_log;
     ce_test_log := test_log |}.

Definition ChildError_args : Type :=
  string * string * string * string * list string * pystr * pystr.

(** [_make_child_error(msg, module, name, traceback, context, build_log,
    test_log)] *)
Definition _make_child_error (args : ChildError_args) : ChildError :=
  let '(msg, module, name, traceback, context, build_log, test_log) := args in
  ChildError_init msg module name traceback context build_log test_log.

(** [ChildError.__reduce__] *)
Definition ChildError_reduce (self : ChildError)
  : (ChildError_args -> ChildError) * ChildError_args :=
  (_make_child_error,
   (ce_message self, ce_module self, ce_name self, ce_traceback self,
    ce_context self, ce_build_log self, ce_test_log self)).

(** List of errors considered build errors. *)
Definition build_errors : list qualname :=
  [("spack.util.executable", "ProcessError")].

(** [StopPhase]: a [SpackError] with nothing of its own; [long_message]
    is the inherited property that reads the stored long message. *)
Record StopPhase := {
  sp_message : string;
  sp_long_message : pystr;
  sp_pkg : option string
}.

(** [StopPhase(msg, long_msg)] *)
Definition StopPhase_init (msg : string) (long_msg : pystr) : StopPhase :=
  {| sp_message := msg; sp_long_message := long_msg; sp_pkg := None |}.

Definition _make_stop_phase (args : string * pystr) : StopPhase :=
  let '(msg, long_msg) := args in StopPhase_init msg long_msg.

(** [StopPhase.__reduce__] *)
Definition StopPhase_reduce (self : StopPhase)
  : (string * pystr -> StopPhase) * (string * pystr) :=
  (_make_stop_phase, (sp_message self, sp_long_message self)).

(** Unpickling applies the reconstructor to its arguments. *)
Definition reconstruct {A B} (r : (A -> B) * A) : B := fst r (snd r).

(** ** Log summaries and the long message *)

(** What is written to the [StringIO] buffer, in order. *)
Inductive piece {event : Type} :=
| Text (s : string)
| LogHeader (n : nat) (noun log_type : string)
                         (* "\n%s found in %s log:\n" % (plural(n, noun), log_type) *)
| LogContext (events : list event).  (* make_log_context(events) *)
Arguments piece : clear implicits.

Definition nl : string := String (ascii_of_nat 10) EmptyString.

Section LongMessage.

(** Events found by the log parser, and the helpers that are imported
    from [spack.util.log_parse], [spack.util.string] and [os.path]. *)
Variable event : Type.
Variable parse_log_events : string -> list event * list event.
Variable make_log_context : list event -> string.
Variable plural : nat -> string -> string.
Variable path_exists : string -> bool.

Definition render (p : piece event) : string :=
  match p with
  | Text s => s
  | LogHeader n noun log_type =>
      nl +++ plural n noun +++ " found in " +++ log_type +++ " log:" +++ nl
  | LogContext evs => make_log_context evs
  end.

(** [out.getvalue()] *)
Definition getvalue (out : list (piece event)) : string :=
  String.concat "" (map render out).

(** [l[-n:]] for a positive [n]. *)
Definition last_n {A} (n : nat) (l : list A) : list A :=
  skipn (List.length l - n) l.

(** [if last and n > last]: the events kept and their count. *)
Definition clip (last : option nat) (evs : list event) : list event * nat :=
  let n := List.length evs in
  match last with
  | Some k => if negb (k =? 0)%nat && (k <? n)%nat
              then (last_n k evs, k) else (evs, n)
  | None => (evs, n)
  end.

(** [write_log_summary(out, log_type, log, last)]: the pieces it
    appends to [out]. *)
Definition write_log_summary (log_type log : string) (last : option nat)
  : list (piece event) :=
  let '(errors, warnings) := parse_log_events log in
  let nerr := List.length errors in
  let nwar := List.length warnings in
  if (0 <? nerr)%nat then
    let '(errors, nerr) := clip last errors in
    [LogHeader nerr "error" log_type; LogContext errors]
  else if (0 <? nwar)%nat then
    let '(warnings, nwar) := clip last warnings in
    [LogHeader nwar "warning" log_type; LogContext warnings]
  else [].

(** [self.build_log and os.path.exists(self.build_log)] *)
Definition log_available (log : pystr) : bool :=
  truthy log && path_exists (fmt log).

(** [ChildError.long_message]: the pieces written; the property's value
    is [getvalue] of them. *)
Definition long_message_pieces (self : ChildError) : list (piece event) :=
  let out := [Text (if truthy (ce__long_message self)
                    then fmt (ce__long_message self) else "")] in
  let out :=
    if qualname_in (ce_module self, ce_name self) build_errors then
      let out :=
        if log_available (ce_build_log self)
        then out ++ write_log_summary "build" (fmt (ce_build_log self)) None
        else out in
      if log_available (ce_test_log self)
      then out ++ write_log_summary "test" (fmt (ce_test_log self)) None
      else out
    else
      match ce_context self with
      | [] => out
      | _ => out ++ [Text nl; Text (String.concat nl (ce_context self)); Text nl]
      end in
  let out := if negb (getvalue out =? "") then out ++ [Text nl] else out in
  let out :=
    if log_available (ce_build_log self)
    then out ++ [Text ("See build log for details:" +++ nl);
                 Text ("  " +++ fmt (ce_build_log self) +++ nl)]
    else out in
  if log_available (ce_test_log self)
  then out ++ [Text ("See test log for details:" +++ nl);
               Text ("  " +++ fmt (ce_test_log self) +++ nl)]
  else out.

Definition long_message (self : ChildError) : string :=
  getvalue (long_message_pieces self).

(** A piece of a log excerpt: its heading or the rendered events. *)
Definition is_log_excerpt (p : piece event) : bool :=
  match p with
  | Text _ => false
  | LogHeader _ _ _ | LogContext _ => true
  end.

End LongMessage.

Arguments render {event}.
Arguments getvalue {event}.
Arguments clip {event}.
Arguments write_log_summary {event}.
Arguments long_message_pieces {event}.
Arguments long_message {event}.
Arguments is_log_excerpt {event}.

(** ** Context of a failure inside a package *)

(** An entry of [traceback.extract_tb]. *)
Record frame := {
  filename : string;
  lineno : Z;
  function : string;
  text : string
}.

(** [l[a:b]] with Python's treatment of negative and large indices. *)
Definition norm_index (len i : Z) : Z :=
  if (i <? 0)%Z then Z.max 0 (len + i) else Z.min i len.

Definition slice {A} (l : list A) (a b : Z) : list A :=
  let len := Z.of_nat (List.length l) in
  let a' := norm_index len a in
  let b' := norm_index len b in
  firstn (Z.to_nat (b' - a')) (skipn (Z.to_nat a') l).

(** [str.isspace] on ASCII characters and [str.rstrip()]. *)
Definition is_space (c : ascii) : bool :=
  let n := nat_of_ascii c in
  ((9 <=? n) && (n <=? 13) || (28 <=? n) && (n <=? 32))%nat.

Fixpoint rstrip (s : string) : string :=
  match s with
  | EmptyString => EmptyString
  | String a s' =>
      match rstrip s' with
      | EmptyString => if is_space a then EmptyString else String a EmptyString
      | t => String a t
      end
  end.

(** ['{:d}'.format(z)] and ['{:-6d}'.format(z)] *)
Definition format_d (z : Z) : string :=
  DecimalString.NilEmpty.string_of_int (Z.to_int z).

Fixpoint spaces (n : nat) : string :=
  match n with
  | O => EmptyString
  | S n' => String " "%char (spaces n')
  end.

Definition format_6d (z : Z) : string :=
  let d := format_d z in spaces (6 - String.length d) +++ d.

Section PackageContext.

(** From [spack.paths], the file system and [llnl.util.tty.color];
    [readlines filename] is what [open(filename, 'r')] and
    [f.readlines()] give, [None] when they raise. *)
Variable is_package_file : string -> bool.
Variable readlines : string -> option (list string).
Variable colorize : string -> string.
Variable cescape : string -> string.

(** The test of the frame loop: a frame of package code that is not
    one of the test helper methods. *)
Definition in_package_code (f : frame) : bool :=
  (str_in "package.py" (filename f)
   || str_in "spack/build_systems" (filename f))
  && negb ((function f =? "run_test") || (function f =? "_run_test_helper")).

(** The [for ... break] loop: the loop variables when it ends, [cur]
    being their binding before the remaining frames are visited. *)
Fixpoint scan_frames (cur : option frame) (l : list frame) : option frame :=
  match l with
  | [] => cur
  | f :: l' => if in_package_code f then Some f else scan_frames (Some f) l'
  end.

Fixpoint mark_lines (adjust start lineno : Z) (i : Z) (l : list string)
  : list string :=
  match l with
  | [] => []
  | line :: l' =>
      let i' := (i + adjust)%Z in
      let is_error := (start + i' =? lineno)%Z in
      let mark := if is_error then ">> " else "   " in
      let marked := "  " +++ mark +++ format_6d (start + i') +++ rstrip line in
      let marked := if is_error
                    then colorize ("@R{" +++ cescape marked +++ "}")
                    else marked in
      marked :: mark_lines adjust start lineno (i + 1)%Z l'
  end.

(** [get_package_context(traceback, context)]; [None] when it raises:
    the traceback is empty and the loop binds no frame, or the file of
    the frame cannot be read. *)
Definition get_package_context (traceback : list frame) (context : Z)
  : option (list string) :=
  match scan_frames None (rev traceback) with
  | None => None
  | Some f =>
      let adjust := if is_package_file (filename f) then 1%Z else 0%Z in
      let lineno := (lineno f - adjust)%Z in
      let head := filename f +++ ":" +++ format_d lineno +++ ", in "
                  +++ function f +++ ":" in
      match readlines (filename f) with
      | None => None
      | Some sourcelines =>
          let start := Z.max 0 (lineno - context - 1) in
          let sourcelines := slice sourcelines start (lineno + context + 1) in
          Some (head :: mark_lines adjust start lineno 0 sourcelines)
      end
  end.

End PackageContext.

(** ** The environment modification ledger *)

(** Modelled from the spec: [EnvironmentModifications] lives in
    [spack.util.environment]; the ledger is an ordered sequence of
    operations, each carrying a variable name and its value(s). *)
Inductive env_op :=
| SetEnv (var value : string)             (* env.set *)
| UnsetEnv (var : string)                 (* env.unset *)
| SetPath (var : string) (elements : list string)   (* env.set_path *)
| PrependPath (var path : string)         (* env.prepend_path *)
| AppendPath (var path : string)          (* env.append_path *)
| RemovePath (var path : string).         (* env.remove_path *)

Definition ledger := list env_op.

(** The process environment. *)
Definition environ := string -> option string.

Definition environ_set (e : environ) (var : string) (v : option string) : environ :=
  fun x => if x =? var then v else e x.

(** [value.split(':')] of a path variable. *)
Fixpoint split_colon_aux (cur : string) (s : string) : list string :=
  match s with
  | EmptyString => [cur]
  | String a s' =>
      if Ascii.eqb a ":"%char then cur :: split_colon_aux "" s'
      else split_colon_aux (cur +++ String a EmptyString) s'
  end.

Definition path_elements (v : option string) : list string :=
  match v with
  | None => []
  | Some s => if s =? "" then [] else split_colon_aux "" s
  end.

(** Modelled from the spec: later operations on a variable win for
    [Set]/[Unset]; path operations accumulate in insertion order. *)
Definition apply_op (e : environ) (op : env_op) : environ :=
  match op with
  | SetEnv var value => environ_set e var (Some value)
  | UnsetEnv var => environ_set e var None
  | SetPath var elements => environ_set e var (Some (String.concat ":" elements))
  | PrependPath var path =>
      environ_set e var (Some (String.concat ":" (path :: path_elements (e var))))
  | AppendPath var path =>
      environ_set e var (Some (String.concat ":" (path_elements (e var) ++ [path])))
  | RemovePath var path =>
      environ_set e var
        (Some (String.concat ":"
                 (filter (fun x => negb (x =? path)) (path_elements (e var)))))
  end.

Definition apply_modifications (l : ledger) (e : environ) : environ :=
  fold_left apply_op l e.

(** ** The dependency DAG *)

Inductive deptype := build | link | run | test.

Definition deptype_eqb (a b : deptype) : bool :=
  match a, b with
  | build, build | link, link | run, run | test, test => true
  | _, _ => false
  end.

(** A concrete spec: its package name, its install prefix and its
    dependency edges with their types.  A node that is shared in the DAG
    appears under each of its dependents; nodes are identified by their
    name. *)
#[warnings="-register-all"]
Inductive Spec : Type := mkSpec {
  name : string;
  prefix : string;
  _dependencies : list (list deptype * Spec)
}.

Definition spec_eqb (a b : Spec) : bool := name a =? name b.

Definition str_mem (x : string) (l : list string) : bool :=
  existsb (String.eqb x) l.

(** Does an edge carry one of the wanted types? *)
Definition edge_selected (wanted edge : list deptype) : bool :=
  existsb (fun d => existsb (deptype_eqb d) wanted) edge.

Inductive traversal_order := pre | post.

(** Modelled from the spec: [Spec.traverse] lives in [spack.spec]; a
    depth-first walk over the edges of the selected types that visits
    each node once, yielding a node before ([pre]) or after ([post])
    its dependencies.  [yield_me] is false only for an excluded root. *)
Fixpoint traverse_nodes (order : traversal_order) (wanted : list deptype)
         (yield_me : bool) (s : Spec) (visited : list string)
  : list Spec * list string :=
  match s with
  | mkSpec n _ edges =>
      if str_mem n visited then ([], visited)
      else
        let me := opt_list yield_me s in
        let '(below, visited) :=
          (fix children (es : list (list deptype * Spec)) (visited : list string)
             : list Spec * list string :=
             match es with
             | [] => ([], visited)
             | (dt, child) :: es' =>
                 if edge_selected wanted dt then
                   let '(out1, visited) :=
                     traverse_nodes order wanted true child visited in
                   let '(out2, visited) := children es' visited in
                   (out1 ++ out2, visited)
                 else children es' visited
             end) edges (n :: visited) in
        (match order with
         | pre => me ++ below
         | post => below ++ me
         end, visited)
  end.

(** [spec.traverse(order=..., root=..., deptype=...)] *)
Definition traverse (order : traversal_order) (root : bool)
           (wanted : list deptype) (s : Spec) : list Spec :=
  fst (traverse_nodes order wanted root s []).

(** Modelled from the spec: [spec.dependencies(deptype=...)], the direct
    dependencies over edges of the selected types. *)
Definition dependencies (wanted : list deptype) (s : Spec) : list Spec :=
  map snd (filter (fun e => edge_selected wanted (fst e)) (_dependencies s)).

(** ** Package objects *)

Record Compiler := {
  compiler_name : string;
  compiler_environment : ledger;   (* spack.schema.environment.parse(compiler.environment) *)
  extra_rpaths : list string
}.

Record PackageBase := {
  spec : Spec;
  transitive_rpaths : bool;
  compiler : Compiler;
  log_path : option string;        (* None: no log_path attribute *)
  test_suite_stage : option string;
                                   (* pkg.test_suite.stage; None: it raises *)
  test_log_name : string           (* TestSuite.test_log_name(pkg.spec) *)
}.

(** [get_rpath_deps(pkg)] *)
Definition get_rpath_deps (pkg : PackageBase) : list Spec :=
  if transitive_rpaths pkg
  then traverse pre false [link] (spec pkg)
  else dependencies [link] (spec pkg).

(** ** Directory lists for the compiler wrapper *)

(** Modelled from the spec: [dedupe] lives in [llnl.util.lang]; it
    yields each element the first time it is seen, [seen] holding the
    elements met so far. *)
Fixpoint dedupe_from (seen : list string) (l : list string) : list string :=
  match l with
  | [] => []
  | x :: l' =>
      if str_mem x seen then dedupe_from seen l'
      else x :: dedupe_from (x :: seen) l'
  end.

Definition dedupe (l : list string) : list string := dedupe_from [] l.

(** Modelled from the spec: the canonical system paths, as the comment
    in [set_build_environment_variables] lists them. *)
Definition system_paths : list string := ["/"; "/usr"; "/usr/local"].

(** Names of the variables read by the compiler wrappers. *)
Definition SPACK_ENV_PATH := "SPACK_ENV_PATH".
Definition SPACK_INCLUDE_DIRS := "SPACK_INCLUDE_DIRS".
Definition SPACK_LINK_DIRS := "SPACK_LINK_DIRS".
Definition SPACK_RPATH_DIRS := "SPACK_RPATH_DIRS".
Definition SPACK_DEBUG := "SPACK_DEBUG".
Definition SPACK_SHORT_SPEC := "SPACK_SHORT_SPEC".
Definition SPACK_DEBUG_LOG_ID := "SPACK_DEBUG_LOG_ID".
Definition SPACK_DEBUG_LOG_DIR := "SPACK_DEBUG_LOG_DIR".
Definition SPACK_CCACHE_BINARY := "SPACK_CCACHE_BINARY".

Section BuildEnvironment.

(** The system path test of [spack.util.environment]. *)
Variable is_system_path : string -> bool.

(** The file system, the DAG queries, configuration and paths that the
    synthesizer reads. *)
Variable isdir : string -> bool.
Variable py_set : list Spec -> list Spec.   (* iteration order of set(l) *)
Variable getitem : Spec -> string -> Spec.  (* spec[name] *)
Variable libs_directories : Spec -> option (list string).
                                   (* None: NoLibrariesError *)
Variable headers_directories : Spec -> option (list string).
                                   (* None: NoHeadersError *)
Variable build_env_path : string.           (* spack.paths.build_env_path *)
Variable spack_working_dir : string.        (* spack.main.spack_working_dir *)
Variable config_debug : bool.               (* config:debug *)
Variable config_ccache : bool.              (* config:ccache *)
Variable ccache_truth : bool.               (* truth value of Executable('ccache') *)
Variable short_spec : Spec -> string.
Variable format_name_hash : Spec -> string. (* spec.format('{name}-{hash:7}') *)

(** Modelled from the spec: [filter_system_paths] keeps the paths that
    are not system paths. *)
Definition filter_system_paths (paths : list string) : list string :=
  filter (fun p => negb (is_system_path p)) paths.

Definition or_empty (o : option (list string)) : list string :=
  match o with Some l => l | None => [] end.

(** [dep_link_dirs] of one pass of the dependency loop. *)
Definition dep_link_dirs (pkg : PackageBase) (dep : Spec) : list string :=
  let query := getitem (spec pkg) (name dep) in
  or_empty (libs_directories query)
  ++ filter isdir [os_path.join (prefix dep) "lib";
                   os_path.join (prefix dep) "lib64"].

(** The three lists being built: link, include and rpath dirs. *)
Definition dir_lists : Type := list string * list string * list string.

(** One pass of [for dep in link_deps]. *)
Definition dependency_pass (pkg : PackageBase) (rpath_deps : list Spec)
           (acc : dir_lists) (dep : Spec) : dir_lists :=
  let '(link_dirs, include_dirs, rpath_dirs) := acc in
  if is_system_path (prefix dep) then acc
  else
    let query := getitem (spec pkg) (name dep) in
    let dep_link_dirs := dep_link_dirs pkg dep in
    (link_dirs ++ dep_link_dirs,
     include_dirs ++ or_empty (headers_directories query),
     if existsb (spec_eqb dep) rpath_deps
     then rpath_dirs ++ dep_link_dirs else rpath_dirs).

(** What one dependency adds to each of the three lists. *)
Definition link_contribution (pkg : PackageBase) (dep : Spec) : list string :=
  if is_system_path (prefix dep) then []
  else dep_link_dirs pkg dep.

Definition include_contribution (pkg : PackageBase) (dep : Spec) : list string :=
  if is_system_path (prefix dep) then []
  else or_empty (headers_directories (getitem (spec pkg) (name dep))).

Definition rpath_contribution (pkg : PackageBase) (rpath_deps : list Spec)
           (dep : Spec) : list string :=
  if is_system_path (prefix dep) then []
  else if existsb (spec_eqb dep) rpath_deps
       then dep_link_dirs pkg dep else [].

Definition build_deps (pkg : PackageBase) : list Spec :=
  py_set (dependencies [build; test] (spec pkg)).

Definition link_deps (pkg : PackageBase) : list Spec :=
  py_set (traverse pre false [link] (spec pkg)).

Definition build_link_deps (pkg : PackageBase) : list Spec :=
  py_set (build_deps pkg ++ link_deps pkg).

(** The package's own library directories. *)
Definition own_rpath_dirs (pkg : PackageBase) : list string :=
  map (os_path.join (prefix (spec pkg))) ["lib"; "lib64"].

(** The lists when the dependency loop ends. *)
Definition candidate_dirs (pkg : PackageBase) : dir_lists :=
  fold_left (dependency_pass pkg (get_rpath_deps pkg)) (link_deps pkg)
            ([], [], own_rpath_dirs pkg).

Definition link_dirs (pkg : PackageBase) : list string :=
  dedupe (filter_system_paths (fst (fst (candidate_dirs pkg)))).

Definition include_dirs (pkg : PackageBase) : list string :=
  dedupe (filter_system_paths (snd (fst (candidate_dirs pkg)))).

Definition rpath_dirs (pkg : PackageBase) : list string :=
  dedupe (filter_system_paths (snd (candidate_dirs pkg))).

(** Prefixes of the build dependencies and of the run-time
    dependencies of the direct build-time dependencies. *)
Definition build_prefixes (pkg : PackageBase) : list string :=
  filter_system_paths
    (map prefix (build_deps pkg)
     ++ flat_map (fun build_dep => map prefix (traverse pre true [run] build_dep))
                 (build_deps pkg)).

Definition build_link_prefixes (pkg : PackageBase) : list string :=
  filter_system_paths (map prefix (build_link_deps pkg)).

(** The wrapper directories and their case-insensitive shims. *)
Definition env_paths (pkg : PackageBase) : list string :=
  flat_map (fun item =>
              item :: filter isdir [os_path.join item "case-insensitive"])
           [build_env_path;
            os_path.join build_env_path (compiler_name (compiler pkg))].

(** [set_build_environment_variables(pkg, env, dirty)]: the ledger
    after the call and the [RuntimeError] that ended it, if any. *)
Definition set_build_environment_variables (pkg : PackageBase) (env : ledger)
           (dirty : bool) : ledger * option string :=
  let env := env ++ [ SetEnv SPACK_LINK_DIRS (String.concat ":" (link_dirs pkg));
                      SetEnv SPACK_INCLUDE_DIRS (String.concat ":" (include_dirs pkg));
                      SetEnv SPACK_RPATH_DIRS (String.concat ":" (rpath_dirs pkg)) ] in
  let env := env ++ [SetPath "CMAKE_PREFIX_PATH" (build_link_prefixes pkg)] in
  let env := env ++ compiler_environment (compiler pkg) in
  let env :=
    match extra_rpaths (compiler pkg) with
    | [] => env
    | rpaths => env ++ [SetEnv "SPACK_COMPILER_EXTRA_RPATHS"
                               (String.concat ":" rpaths)]
    end in
  let env :=
    env ++ map (PrependPath "PATH")
               (flat_map (fun p => filter isdir [os_path.join p "bin";
                                                 os_path.join p "bin64"])
                         (build_prefixes pkg)) in
  let env := env ++ map (PrependPath "PATH") (env_paths pkg) in
  let env := env ++ [SetPath SPACK_ENV_PATH (env_paths pkg)] in
  let env := if config_debug then env ++ [SetEnv SPACK_DEBUG "TRUE"] else env in
  let env := env ++ [ SetEnv SPACK_SHORT_SPEC (short_spec (spec pkg));
                      SetEnv SPACK_DEBUG_LOG_ID (format_name_hash (spec pkg));
                      SetEnv SPACK_DEBUG_LOG_DIR spack_working_dir ] in
  if config_ccache && negb ccache_truth
  then (env, Some "No ccache binary found in PATH")
  else
    let env := if config_ccache
               then env ++ [SetEnv SPACK_CCACHE_BINARY "ccache"] else env in
    (env ++ map (PrependPath "PKG_CONFIG_PATH")
                (flat_map (fun p =>
                             filter isdir
                               [os_path.join3 p "lib" "pkgconfig";
                                os_path.join3 p "lib64" "pkgconfig";
                                os_path.join3 p "share" "pkgconfig"])
                          (build_link_prefixes pkg)),
     None).

End BuildEnvironment.

(** Modelled from the spec: a path is a system path when it is one of
    the canonical system paths. *)
Definition is_system_path (path : string) : bool := str_mem path system_paths.

(** ** Environment contributed by the dependencies *)

(** What the composer does to the module scopes and hooks, in order. *)
Inductive composer_event :=
| SetModuleVariables (dpkg : Spec)
      (* set_module_variables_for_package(dpkg) *)
| SetupDependentPackage (dpkg module_of dependent : Spec)
      (* dpkg.setup_dependent_package(pkg.module, spec) *)
| CallHook (method : string) (dpkg dependent : Spec).
      (* getattr(dpkg, method)(env, spec) *)

(** Maps the context to deptype and method to be called. *)
Definition deptype_and_method (context : string)
  : option (list deptype * string) :=
  if context =? "build"
  then Some ([build; link; test], "setup_dependent_build_environment")
  else if context =? "run"
  then Some ([link; run], "setup_dependent_run_environment")
  else if context =? "test"
  then Some ([link; run; test], "setup_dependent_run_environment")
  else None.

Section Composer.

(** The hooks of the packages: what a dependency appends to the
    ledger of a dependent. *)
Variable setup_dependent_build_environment : Spec -> Spec -> ledger.
Variable setup_dependent_run_environment : Spec -> Spec -> ledger.

(** [getattr(dpkg, method)(env, spec)]: the operations added to [env]. *)
Definition call_hook (method : string) (dpkg dependent : Spec) : ledger :=
  if method =? "setup_dependent_build_environment"
  then setup_dependent_build_environment dpkg dependent
  else setup_dependent_run_environment dpkg dependent.

(** One pass of [for dspec in spec.traverse(...)]. *)
Definition compose_pass (spec : Spec) (method : string)
           (st : list composer_event * ledger) (dspec : Spec)
  : list composer_event * ledger :=
  let '(events, env) := st in
  (events ++ [ SetModuleVariables dspec;
               SetupDependentPackage dspec spec spec;
               CallHook method dspec spec ],
   env ++ call_hook method dspec spec).

(** [modifications_from_dependencies(spec, context)]: what it did and
    the ledger it returns; [None] is the [KeyError] of an unknown
    context. *)
Definition modifications_from_dependencies (spec : Spec) (context : string)
  : option (list composer_event * ledger) :=
  match deptype_and_method context with
  | None => None
  | Some (deptype, method) =>
      Some (fold_left (compose_pass spec method)
                      (traverse post false deptype spec) ([], []))
  end.

End Composer.

(** ** The forked build runner *)

(** An exception object: its class, [str(exc)] ([None] when its
    [__str__] raises), the [message] and [long_message] of a
    [SpackError], and the [pkg] attribute ([None] while absent). *)
Record exception := {
  exc_type : exc_class;
  exc_str : option string;
  exc_message : string;
  exc_long_message : pystr;
  exc_pkg : option string
}.

(** An exception caught in the child: [sys.exc_info()], the entries of
    [traceback.extract_tb(tb)] (the first one is the frame of
    [child_process] itself) and [traceback.format_exc()]. *)
Record raised := {
  r_exc : exception;
  r_tb_first : frame;
  r_tb_rest : list frame;
  r_format_exc : string
}.

(** Objects that travel through the pipe, by the classes [fork] tests. *)
Inductive value :=
| VStopPhase (sp : StopPhase)      (* an instance of StopPhase *)
| VChildError (ce : ChildError)    (* an instance of ChildError *)
| VInstallError (e : exception)    (* any other instance of InstallError *)
| VOther (repr : string).          (* anything else *)

Definition isinstance_StopPhase (v : value) : bool :=
  match v with VStopPhase _ => true | _ => false end.

Definition isinstance_InstallError (v : value) : bool :=
  match v with VChildError _ | VInstallError _ => true | _ => false end.

Definition isinstance_ChildError (v : value) : bool :=
  match v with VChildError _ => true | _ => false end.

(** [child_result.pkg = pkg] *)
Definition set_pkg (v : value) (pkg : string) : value :=
  match v with
  | VStopPhase sp =>
      VStopPhase {| sp_message := sp_message sp;
                    sp_long_message := sp_long_message sp;
                    sp_pkg := Some pkg |}
  | VChildError ce =>
      VChildError {| ce_message := ce_message ce;
                     ce__long_message := ce__long_message ce;
                     ce_pkg := Some pkg;
                     ce_module := ce_module ce;
                     ce_name := ce_name ce;
                     ce_traceback := ce_traceback ce;
                     ce_context := ce_context ce;
                     ce_build_log := ce_build_log ce;
                     ce_test_log := ce_test_log ce |}
  | VInstallError e =>
      VInstallError {| exc_type := exc_type e; exc_str := exc_str e;
                       exc_message := exc_message e;
                       exc_long_message := exc_long_message e;
                       exc_pkg := Some pkg |}
  | VOther r => VOther r
  end.

Definition exception_set_pkg (e : exception) (pkg : string) : exception :=
  {| exc_type := exc_type e; exc_str := exc_str e;
     exc_message := exc_message e; exc_long_message := exc_long_message e;
     exc_pkg := Some pkg |}.

(** What [parent_pipe.recv()] rebuilds from what [child_pipe.send]
    pickled: the two classes with a [__reduce__] go through it. *)
Definition pipe_transfer (v : value) : value :=
  match v with
  | VStopPhase sp => VStopPhase (reconstruct (StopPhase_reduce sp))
  | VChildError ce => VChildError (reconstruct (ChildError_reduce ce))
  | other => other
  end.

(** What the body of the [try] block does after the setup: [Returns v]
    when [function()] returned [v] and [child_pipe.send] took it,
    [Raises r] when either of them raised. *)
Inductive action_result :=
| Returns (v : value)
| Raises (r : raised).

(** How the spawn goes in the parent. *)
Record spawn := {
  stdin_isatty : bool;      (* sys.stdin.isatty() and hasattr(sys.stdin, 'fileno') *)
  dup_error : option exception;    (* raised by os.fdopen(os.dup(...)) *)
  start_error : option exception   (* raised by Process(...) or p.start() *)
}.

(** What the parent does that the claims speak of, in order. *)
Inductive parent_event :=
| CloseInputStream
| Recv
| Join
| PrintContext (ce : ChildError).

Inductive outcome :=
| Returned (v : value)               (* return child_result *)
| RaisedResult (v : value)           (* raise child_result *)
| RaisedSpawnError (e : exception)   (* the spawn error leaves fork *)
| RaisedEOFError.                    (* nothing was sent: recv gets no object, and
                                        ends in EOFError if it ends at all *)

Section Fork.

Variable is_package_file : string -> bool.
Variable readlines : string -> option (list string).
Variable colorize : string -> string.
Variable cescape : string -> string.

(** [setup_package(pkg, dirty, context)] as the child sees it: it
    returns or it raises. *)
Variable setup_package : PackageBase -> bool -> string -> option raised.

(** The test log of the handler: [Some None] outside the test context,
    the path under the stage of the test suite in it, and [None] when
    reading [pkg.test_suite.stage] raises. *)
Definition handler_test_log (pkg : PackageBase) (context : string)
  : option pystr :=
  if context =? "test"
  then match test_suite_stage pkg with
       | Some stage => Some (Some (os_path.join stage (test_log_name pkg)))
       | None => None
       end
  else Some None.

(** The [except BaseException] handler: the [ChildError] it builds, or
    [None] when the handler itself raises, which it does when
    [get_package_context] raises, when the stage of the test suite
    cannot be read in the test context, or when [str(exc)] raises. *)
Definition wrap_exception (pkg : PackageBase) (context : string) (r : raised)
  : option ChildError :=
  let exc_type := exc_type (r_exc r) in
  let tb_string := r_format_exc r in
  let package_context :=
    if negb (class_is exc_type TestFailure_name)
    then get_package_context is_package_file readlines colorize cescape
           (r_tb_first r :: r_tb_rest r) 3
    else Some [] in
  let build_log :=
    if context =? "build" then log_path pkg else None in
  match package_context, handler_test_log pkg context, exc_str (r_exc r) with
  | Some package_context, Some test_log, Some text =>
      let msg := cls_name exc_type +++ ": " +++ text in
      Some (ChildError_init msg (cls_module exc_type) (cls_name exc_type)
              tb_string package_context build_log test_log)
  | _, _, _ => None
  end.

(** The body of the [try] block of the child: the setup unless the
    build is fake, then the build action and the send of its result. *)
Definition try_body (pkg : PackageBase) (function : unit -> action_result)
           (dirty fake : bool) (context : string) : action_result :=
  if negb fake then
    match setup_package pkg dirty context with
    | Some r => Raises r
    | None => function tt
    end
  else function tt.

(** [child_process]: the object it sends; [None] when the handler of
    [except BaseException] raises and the pipe is closed by the
    [finally] clause with nothing sent. *)
Definition child_process (pkg : PackageBase) (function : unit -> action_result)
           (dirty fake : bool) (context : string) : option value :=
  match try_body pkg function dirty fake context with
  | Returns return_value => Some return_value
  | Raises r =>
      let e := r_exc r in
      if issubclass (exc_type e) StopPhase_name then
        Some (VStopPhase {| sp_message := exc_message e;
                            sp_long_message := exc_long_message e;
                            sp_pkg := exc_pkg e |})
      else
        match wrap_exception pkg context r with
        | Some ce => Some (VChildError ce)
        | None => None
        end
  end.

(** The spawn error, if the [try] block of the parent raises. *)
Definition spawn_error (s : spawn) : option exception :=
  if stdin_isatty s then
    match dup_error s with
    | Some e => Some e
    | None => start_error s
    end
  else start_error s.

(** Is [input_stream] set when the [finally] clause runs? *)
Definition input_stream_open (s : spawn) : bool :=
  stdin_isatty s && match dup_error s with Some _ => false | None => true end.

(** What the parent does with the object it received. *)
Definition dispatch (pkg : PackageBase) (child_result : value)
  : list parent_event * outcome :=
  if isinstance_StopPhase child_result then ([], RaisedResult child_result)
  else
    let child_result :=
      if isinstance_InstallError child_result
      then set_pkg child_result (name (spec pkg)) else child_result in
    match child_result with
    | VChildError ce => ([PrintContext ce], RaisedResult child_result)
    | _ => ([], Returned child_result)
    end.

(** [fork(pkg, function, dirty, fake, context)] *)
Definition fork (pkg : PackageBase) (function : unit -> action_result)
           (dirty fake : bool) (context : string) (s : spawn)
  : list parent_event * outcome :=
  let closing := opt_list (input_stream_open s) CloseInputStream in
  match spawn_error s with
  | Some e =>
      if issubclass (exc_type e) InstallError_name
      then (closing, RaisedSpawnError (exception_set_pkg e (name (spec pkg))))
      else (closing, RaisedSpawnError e)
  | None =>
      match child_process pkg function dirty fake context with
      | None => (closing ++ [Recv], RaisedEOFError)
      | Some sent =>
          let child_result := pipe_transfer sent in
          let '(events, result) := dispatch pkg child_result in
          (closing ++ [Recv; Join] ++ events, result)
      end
  end.

End Fork.

(** ** Vocabulary of the properties *)

(** [out] lists the elements of [cand] that pass [keep], each once, in
    the order in which they are first seen. *)
Definition first_seen_order (keep : string -> bool) (cand out : list string) : Prop :=
  NoDup out
  /\ (forall d, In d out <-> In d cand /\ keep d = true)
  /\ (forall o1 x o2, out = o1 ++ x :: o2 ->
      exists l1 l2, cand = l1 ++ x :: l2 /\ ~ In x l1
                    /\ forall z, In z o1 <-> In z l1 /\ keep z = true).

Fixpoint last_char (s : string) : option ascii :=
  match s with
  | EmptyString => None
  | String a EmptyString => Some a
  | String _ s' => last_char s'
  end.

(** The chain [A -> B -> C] of three packages. *)
Definition chain_C (c pc : string) : Spec :=
  {| name := c; prefix := pc; _dependencies := [] |}.

Definition chain_B (b pb : string) (dtBC : list deptype) (c pc : string) : Spec :=
  {| name := b; prefix := pb; _dependencies := [(dtBC, chain_C c pc)] |}.

Definition chain_A (a pa : string) (dtAB : list deptype) (b pb : string)
           (dtBC : list deptype) (c pc : string) : Spec :=
  {| name := a; prefix := pa;
     _dependencies := [(dtAB, chain_B b pb dtBC c pc)] |}.

(** The variable an operation acts on. *)
Definition op_var (op : env_op) : string :=
  match op with
  | SetEnv var _ | UnsetEnv var | SetPath var _
  | PrependPath var _ | AppendPath var _ | RemovePath var _ => var
  end.

(** What the composer does for one dependency, in order. *)
Definition visit (root : Spec) (method : string) (dspec : Spec)
  : list composer_event :=
  [ SetModuleVariables dspec;
    SetupDependentPackage dspec root root;
    CallHook method dspec root ].

(** ** Sample inputs *)

Definition sample_kwargs : static_to_shared_kwargs :=
  {| kw_compiler_output := None; kw_arguments := ["-lm"];
     kw_version := Some "1.2"; kw_compat_version := Some (Some "1") |}.

Definition sample_process_error : ChildError :=
  ChildError_init "ProcessError: Command exited with status 2"
    "spack.util.executable" "ProcessError" "Traceback" ["package.py:12"]
    (Some "/stage/spack-build-out.txt") None.

Definition sample_python_error : ChildError :=
  ChildError_init "KeyError: 'x'" "builtins" "KeyError" "Traceback"
    ["package.py:12, in install:"] (Some "/stage/spack-build-out.txt") None.

Definition sample_parse (log : string) : list string * list string :=
  (["error: undefined reference"], ["warning: unused variable"]).

Definition KeyError_class : exc_class :=
  {| cls_module := "builtins"; cls_name := "KeyError";
     cls_mro := [("builtins", "KeyError"); ("builtins", "LookupError");
                 ("builtins", "Exception"); ("builtins", "BaseException")] |}.

Definition sample_spec : Spec :=
  {| name := "zlib"; prefix := "/opt/spack/zlib-1.2.11"; _dependencies := [] |}.

Definition sample_pkg : PackageBase :=
  {| spec := sample_spec; transitive_rpaths := true;
     compiler := {| compiler_name := "gcc"; compiler_environment := [];
                    extra_rpaths := [] |};
     log_path := Some "/stage/spack-build-out.txt";
     test_suite_stage := Some "/stage/test"; test_log_name := "zlib-test-out.txt" |}.

Definition sample_raise (_ : unit) : action_result :=
  Raises {| r_exc := {| exc_type := KeyError_class; exc_str := Some "'x'";
                        exc_message := ""; exc_long_message := None;
                        exc_pkg := None |};
            r_tb_first := {| filename := "lib/spack/spack/build_environment.py";
                             lineno := 867; function := "child_process";
                             text := "return_value = function()" |};
            r_tb_rest := [];
            r_format_exc := "Traceback (most recent call last): ..." |}.

Definition plain_spawn : spawn :=
  {| stdin_isatty := false; dup_error := None; start_error := None |}.

Definition OSError_class : exc_class :=
  {| cls_module := "builtins"; cls_name := "OSError";
     cls_mro := [("builtins", "OSError"); ("builtins", "Exception");
                 ("builtins", "BaseException")] |}.

(** [os.fork] failing for lack of resources. *)
Definition fork_unavailable : exception :=
  {| exc_type := OSError_class;
     exc_str := Some "[Errno 11] Resource temporarily unavailable";
     exc_message := ""; exc_long_message := None; exc_pkg := None |}.

Definition failing_spawn : spawn :=
  {| stdin_isatty := false; dup_error := None;
     start_error := Some fork_unavailable |}.

Definition InstallError_class : exc_class :=
  {| cls_module := "spack.build_environment"; cls_name := "InstallError";
     cls_mro := [InstallError_name; ("spack.error", "SpackError");
                 ("builtins", "Exception"); ("builtins", "BaseException")] |}.

Definition install_failure : exception :=
  {| exc_type := InstallError_class; exc_str := Some "cannot start the build";
     exc_message := "cannot start the build"; exc_long_message := None;
     exc_pkg := None |}.

Definition sample_C : Spec := chain_C "libc" "/opt/c".
Definition sample_B : Spec := chain_B "libb" "/opt/b" [link] "libc" "/opt/c".
Definition sample_A : Spec :=
  chain_A "app" "/opt/a" [build; link] "libb" "/opt/b" [link] "libc" "/opt/c".

Definition sample_app (transitive : bool) : PackageBase :=
  {| spec := sample_A; transitive_rpaths := transitive;
     compiler := {| compiler_name := "gcc"; compiler_environment := [];
                    extra_rpaths := [] |};
     log_path := None; test_suite_stage := None; test_log_name := "" |}.

Definition sample_libs (query : Spec) : option (list string) :=
  if name query =? "libb" then Some ["/opt/b/lib"; "/opt/shared/lib"; "/usr"]
  else if name query =? "libc" then Some ["/opt/shared/lib"]
  else None.

Definition sample_headers (query : Spec) : option (list string) :=
  if name query =? "libb" then Some ["/opt/b/include"; "/usr/local"] else None.

Definition sample_isdir (path : string) : bool :=
  str_mem path ["/opt/b/lib"; "/opt/c/lib"].

Definition sample_getitem (root : Spec) (n : string) : Spec :=
  match find (fun d => name d =? n) (traverse pre true [build; link; run; test] root) with
  | Some d => d
  | None => root
  end.

Definition sample_set (l : list Spec) : list Spec := l.

Definition sample_build_hook (dpkg dependent : Spec) : ledger :=
  if name dpkg =? "libb"
  then [SetEnv "X" "from-b"; PrependPath "PATH" "/opt/b/bin"]
  else if name dpkg =? "libc" then [SetEnv "X" "from-c"]
  else [].

Definition sample_run_hook (dpkg dependent : Spec) : ledger := [].

Definition sample_raised : raised :=
  {| r_exc := {| exc_type := KeyError_class; exc_str := Some "'x'";
                 exc_message := ""; exc_long_message := None;
                 exc_pkg := None |};
     r_tb_first := {| filename := "lib/spack/spack/build_environment.py";
                      lineno := 867; function := "child_process";
                      text := "return_value = function()" |};
     r_tb_rest := [ {| filename := "/repo/packages/zlib/package.py";
                       lineno := 40; function := "install";
                       text := "make()" |};
                    {| filename := "lib/spack/spack/util/executable.py";
                       lineno := 200; function := "__call__";
                       text := "raise ProcessError(...)" |} ];
     r_format_exc := "Traceback (most recent call last): ..." |}.

(** The first line of the context of a frame. *)
Definition context_head (is_package_file : string -> bool) (f : frame) : string :=
  let adjust := if is_package_file (filename f) then 1%Z else 0%Z in
  filename f +++ ":" +++ format_d (lineno f - adjust) +++ ", in "
  +++ function f +++ ":".

(** A string without the path separator of environment variables. *)
Fixpoint colon_free (s : string) : bool :=
  match s with
  | EmptyString => true
  | String a s' => negb (Ascii.eqb a ":"%char) && colon_free s'
  end.

Definition sample_parse_many (log : string) : list string * list string :=
  (["error 1"; "error 2"; "error 3"], ["warning 1"]).

(** ** [MakeExecutable] *)

(** Values of keyword arguments. *)
Inductive kwvalue :=
| KNone
| KBool (b : bool)
| KStr (s : string)
| KDict (items : list (string * string)).

Definition kw_truthy (v : kwvalue) : bool :=
  match v with
  | KNone => false
  | KBool b => b
  | KStr s => negb (s =? "")
  | KDict items => match items with [] => false | _ => true end
  end.

(** A keyword dictionary, in insertion order. *)
Definition kwargs := list (string * kwvalue).

Fixpoint dict_get (d : kwargs) (key : string) : option kwvalue :=
  match d with
  | [] => None
  | (k, v) :: d' => if k =? key then Some v else dict_get d' key
  end.

Fixpoint dict_remove (d : kwargs) (key : string) : kwargs :=
  match d with
  | [] => []
  | (k, v) :: d' => if k =? key then d' else (k, v) :: dict_remove d' key
  end.

(** [d[key] = v] *)
Fixpoint dict_set (d : kwargs) (key : string) (v : kwvalue) : kwargs :=
  match d with
  | [] => [(key, v)]
  | (k, x) :: d' =>
      if k =? key then (k, v) :: d' else (k, x) :: dict_set d' key v
  end.

(** [d.pop(key, default)]: the value and the dictionary left. *)
Definition dict_pop (d : kwargs) (key : string) (default : kwvalue)
  : kwvalue * kwargs :=
  match dict_get d key with
  | Some v => (v, dict_remove d key)
  | None => (default, d)
  end.

(** [MakeExecutable.__call__] with positional and keyword arguments, for an executable made
    with [jobs]: the arguments and keywords handed to
    [Executable.__call__].  [disable] is
    [env_flag(SPACK_NO_PARALLEL_MAKE)]. *)
Definition MakeExecutable_call (jobs : Z) (disable : bool)
           (args : list string) (kw : kwargs) : list string * kwargs :=
  let '(parallel, kw) :=
    if negb disable
    then let '(v, kw) := dict_pop kw "parallel" (KBool (1 <? jobs)%Z) in
         (kw_truthy v, kw)
    else (false, kw) in
  if parallel then
    let args := ("-j" +++ format_d jobs) :: args in
    let '(jobs_env, kw) := dict_pop kw "jobs_env" KNone in
    let kw :=
      match jobs_env with
      | KStr name =>
          if kw_truthy jobs_env
          then dict_set kw "extra_env" (KDict [(name, format_d jobs)])
          else kw
      | _ => kw
      end in
    (args, kw)
  else (args, kw).

(** ** [clean_environment] *)

(** Variables that can affect how packages find libraries. *)
Definition library_path_vars : list string :=
  [ "LD_LIBRARY_PATH"; "LIBRARY_PATH"; "CPATH"; "LD_RUN_PATH";
    "DYLD_LIBRARY_PATH"; "DYLD_FALLBACK_LIBRARY_PATH" ].

Definition build_system_vars : list string :=
  [ "CC"; "CFLAGS"; "CPP"; "CPPFLAGS";
    "CXX"; "CCC"; "CXXFLAGS"; "CXXCPP";
    "F77"; "FFLAGS"; "FLIBS";
    "FC"; "FCFLAGS"; "FCLIBS";
    "LDFLAGS"; "LIBS" ].

Definition mpi_vars : list string :=
  [ "MPICC"; "MPICXX"; "MPIFC"; "MPIF77"; "MPIF90" ].

Definition is_digit (c : ascii) : bool :=
  let n := nat_of_ascii c in ((48 <=? n) && (n <=? 57))%nat.

(** [re.match(r'cnl\d+', os)]: the name starts with [cnl] and a digit. *)
Definition using_cnl (os : string) : bool :=
  match os with
  | String "c" (String "n" (String "l" (String d _))) => is_digit d
  | _ => false
  end.

(** The ledger that [clean_environment] builds, for the platform and
    operating system of the host, the names in [os.environ], the
    configured [build_language] and the directories of [PATH]. *)
Definition clean_environment_ledger (platform os : string)
           (environ_keys : list string) (build_lang : pystr)
           (path : list string) : ledger :=
  map UnsetEnv library_path_vars
  ++ (if (platform =? "cray") && negb (using_cnl os)
      then UnsetEnv "CRAY_LD_LIBRARY_PATH"
           :: map UnsetEnv (filter (str_in "PKGCONF") environ_keys)
      else [])
  ++ map UnsetEnv build_system_vars
  ++ map UnsetEnv mpi_vars
  ++ (if truthy build_lang then [SetEnv "LC_ALL" (fmt build_lang)] else [])
  ++ map (RemovePath "PATH") (filter (str_in "/macports/") path).

(** [clean_environment()]: the ledger is applied at once. *)
Definition clean_environment (platform os : string)
           (environ_keys : list string) (build_lang : pystr)
           (path : list string) (e : environ) : environ :=
  apply_modifications
    (clean_environment_ledger platform os environ_keys build_lang path) e.

(** ** [get_rpaths] *)

Section GetRpaths.

Variable is_system_path : string -> bool.
Variable isdir : string -> bool.
Variable path_from_modules : list string -> string.
                              (* spack.util.module_cmd.path_from_modules *)

(** [get_rpaths(pkg)]; [modules] is [pkg.compiler.modules],
    [prefix.lib] is the [lib] directory under the prefix and
    [path_from_modules] is taken to find a path. *)
Definition get_rpaths (pkg : PackageBase) (modules : list string) : list string :=
  let rpaths := [ os_path.join (prefix (spec pkg)) "lib";
                  os_path.join (prefix (spec pkg)) "lib64" ] in
  let deps := get_rpath_deps pkg in
  let rpaths :=
    rpaths ++ filter isdir (map (fun d => os_path.join (prefix d) "lib") deps) in
  let rpaths :=
    rpaths ++ filter isdir (map (fun d => os_path.join (prefix d) "lib64") deps) in
  let rpaths :=
    match modules with
    | _ :: second :: _ => rpaths ++ [path_from_modules [second]]
    | _ => rpaths
    end in
  dedupe (filter_system_paths is_system_path rpaths).

End GetRpaths.

(** ** Modules of the package classes *)

(** A class with its module, its name and its base classes. *)
#[warnings="-register-all"]
Inductive pyclass : Type :=
| PyClass (cmodule cname : string) (bases : list pyclass).

Definition class_module (c : pyclass) : string :=
  match c with PyClass m _ _ => m end.

Definition class_bases (c : pyclass) : list pyclass :=
  match c with PyClass _ _ bases => bases end.

Definition class_qualname (c : pyclass) : qualname :=
  match c with PyClass m n _ => (m, n) end.

(** [issubclass(c, target)], classes being identified by their
    qualified name. *)
Fixpoint py_issubclass (c : pyclass) (target : qualname) : bool :=
  match c with
  | PyClass m n bases =>
      qualname_eqb (m, n) target
      || existsb (fun b => py_issubclass b target) bases
  end.

Definition PackageBase_name : qualname := ("spack.package", "PackageBase").

(** [parent_class_modules(cls)]: the names of the modules found;
    [package_base] is the class [spack.package.PackageBase] and [loaded]
    tells whether [sys.modules] has a module. *)
Fixpoint parent_class_modules (package_base : pyclass) (loaded : string -> bool)
         (cls : pyclass) : list string :=
  match cls with
  | PyClass m n bases =>
      if negb (py_issubclass cls PackageBase_name)
         || py_issubclass package_base (m, n)
      then []
      else (if loaded m then [m] else [])
           ++ flat_map (parent_class_modules package_base loaded) bases
  end.

(** [c] is [a] or inherits from it. *)
Inductive inherits_from : pyclass -> pyclass -> Prop :=
| inherits_self (c : pyclass) : inherits_from c c
| inherits_base (c b a : pyclass) :
    In b (class_bases c) -> inherits_from b a -> inherits_from c a.

(** A class below [PackageBase]: a subclass of it that is neither
    [PackageBase] nor one of its own base classes. *)
Definition proper_package_class (package_base c : pyclass) : bool :=
  py_issubclass c PackageBase_name
  && negb (py_issubclass package_base (class_qualname c)).

Definition sample_PackageBase : pyclass :=
  PyClass "spack.package" "PackageBase" [PyClass "builtins" "object" []].

Definition sample_Package : pyclass :=
  PyClass "spack.package" "Package" [sample_PackageBase].

Definition sample_AutotoolsPackage : pyclass :=
  PyClass "spack.build_systems.autotools" "AutotoolsPackage" [sample_PackageBase].

Definition sample_Zlib : pyclass :=
  PyClass "spack.pkg.builtin.zlib" "Zlib" [sample_Package].

Definition sample_MyZlib : pyclass :=
  PyClass "spack.pkg.mystuff.zlib" "Zlib" [sample_Zlib].

(** ** Module variables *)

(** What is bound to a name of a package module. *)
Inductive modval :=
| MBool (b : bool)
| MInt (z : Z)
| MStr (s : string)
| MStrList (l : list string)
| MMakeExecutable (exe : string) (jobs : Z)   (* MakeExecutable(exe, jobs) *)
| MExecutable (exe : string)                  (* Executable(exe) *)
| MFunction (qualified_name : string)         (* a function of os, shutil or llnl *)
| MEnviron                                    (* os.environ *)
| MStaticToShared (package : string).         (* the static_to_shared_library closure *)

(** The namespace of a module, in the order of first assignment. *)
Definition module_scope := list (string * modval).

Fixpoint getattr (m : module_scope) (attr : string) (default : modval) : modval :=
  match m with
  | [] => default
  | (k, v) :: m' => if k =? attr then v else getattr m' attr default
  end.

Fixpoint setattr (m : module_scope) (attr : string) (v : modval) : module_scope :=
  match m with
  | [] => [(attr, v)]
  | (k, x) :: m' =>
      if k =? attr then (k, v) :: m' else (k, x) :: setattr m' attr v
  end.

Definition modval_truthy (v : modval) : bool :=
  match v with
  | MBool b => b
  | MInt z => negb (z =? 0)%Z
  | MStr s => negb (s =? "")
  | MStrList l => match l with [] => false | _ => true end
  | _ => true
  end.

Definition marker : string := "_set_run_already_called".

(** What [_set_variables_for_single_module] reads of a package besides
    its [PackageBase] fields. *)
Record ModulePackage := {
  mp_base : PackageBase;
  mp_parallel : bool;                    (* pkg.parallel *)
  mp_link_paths : string -> string       (* pkg.compiler.link_paths[...] *)
}.

Section ModuleVariables.

Variable build_jobs : option Z.          (* config:build_jobs, if configured *)
Variable cpu_count : Z.                  (* multiprocessing.cpu_count() *)
Variable build_env_path : string.        (* spack.paths.build_env_path *)
Variable std_cmake_args : PackageBase -> list string.
Variable std_meson_args : PackageBase -> list string.
Variable sys_platform : string.          (* sys.platform *)

(** The number of jobs given to the [make]-like executables. *)
Definition make_jobs (pkg : ModulePackage) : Z :=
  let jobs := if mp_parallel pkg
              then match build_jobs with Some j => j | None => 16%Z end
              else 1%Z in
  Z.min jobs cpu_count.

(** The assignments of [_set_variables_for_single_module], in order. *)
Definition module_assignments (pkg : ModulePackage) : list (string * modval) :=
  let jobs := make_jobs pkg in
  let link_dir := build_env_path in
  [ ("make_jobs", MInt jobs);
    ("make", MMakeExecutable "make" jobs);
    ("gmake", MMakeExecutable "gmake" jobs);
    ("scons", MMakeExecutable "scons" jobs);
    ("ninja", MMakeExecutable "ninja" jobs);
    ("env", MEnviron);
    ("configure", MExecutable "./configure");
    ("meson", MExecutable "meson");
    ("cmake", MExecutable "cmake");
    ("ctest", MMakeExecutable "ctest" jobs);
    ("std_cmake_args", MStrList (std_cmake_args (mp_base pkg)));
    ("std_meson_args", MStrList (std_meson_args (mp_base pkg)));
    ("spack_cc", MStr (os_path.join link_dir (mp_link_paths pkg "cc")));
    ("spack_cxx", MStr (os_path.join link_dir (mp_link_paths pkg "cxx")));
    ("spack_f77", MStr (os_path.join link_dir (mp_link_paths pkg "f77")));
    ("spack_fc", MStr (os_path.join link_dir (mp_link_paths pkg "fc")));
    ("pwd", MFunction "os.getcwd");
    ("cd", MFunction "os.chdir");
    ("mkdir", MFunction "os.mkdir");
    ("makedirs", MFunction "os.makedirs");
    ("remove", MFunction "os.remove");
    ("removedirs", MFunction "os.removedirs");
    ("symlink", MFunction "os.symlink");
    ("mkdirp", MFunction "llnl.util.filesystem.mkdirp");
    ("install", MFunction "llnl.util.filesystem.install");
    ("install_tree", MFunction "llnl.util.filesystem.install_tree");
    ("rmtree", MFunction "shutil.rmtree");
    ("move", MFunction "shutil.move");
    ("prefix", MStr (prefix (spec (mp_base pkg))));
    ("dso_suffix", MStr (dso_suffix sys_platform));
    ("static_to_shared_library", MStaticToShared (name (spec (mp_base pkg))));
    (marker, MBool true) ].

(** [_set_variables_for_single_module(pkg, module)] *)
Definition _set_variables_for_single_module (pkg : ModulePackage)
           (module : module_scope) : module_scope :=
  if modval_truthy (getattr module marker (MBool false)) then module
  else fold_left (fun m kv => setattr m (fst kv) (snd kv))
                 (module_assignments pkg) module.

(** The modules of [sys.modules], by name. *)
Definition module_store := string -> module_scope.

Definition store_update (store : module_store) (module_name : string)
           (m : module_scope) : module_store :=
  fun n => if n =? module_name then m else store n.

(** [set_module_variables_for_package(pkg)] for a package of class
    [cls]: every module of [parent_class_modules] is updated in place. *)
Definition set_module_variables_for_package (package_base : pyclass)
           (loaded : string -> bool) (pkg : ModulePackage) (cls : pyclass)
           (store : module_store) : module_store :=
  fold_left (fun st module_name =>
               store_update st module_name
                 (_set_variables_for_single_module pkg (st module_name)))
            (parent_class_modules package_base loaded cls) store.

End ModuleVariables.

Definition sample_module_pkg : ModulePackage :=
  {| mp_base := sample_pkg; mp_parallel := true;
     mp_link_paths := fun lang => "gcc/" +++ lang |}.

Definition sample_serial_pkg : ModulePackage :=
  {| mp_base := sample_pkg; mp_parallel := false;
     mp_link_paths := fun lang => "clang/" +++ lang |}.

(** ** Compiler variables *)

(** [str.upper()] on ASCII letters. *)
Definition upper_char (c : ascii) : ascii :=
  let n := nat_of_ascii c in
  if (97 <=? n)%nat && (n <=? 122)%nat then ascii_of_nat (n - 32) else c.

Fixpoint upper (s : string) : string :=
  match s with
  | EmptyString => EmptyString
  | String c s' => String (upper_char c) (upper s')
  end.

(** What [set_compiler_environment_variables] reads of [pkg.compiler]. *)
Record CompilerSettings := {
  cs_cc : pystr;                              (* compiler.cc *)
  cs_cxx : pystr;
  cs_f77 : pystr;
  cs_fc : pystr;
  cs_link_paths : list (string * string);     (* compiler.link_paths *)
  cs_cc_rpath_arg : string;
  cs_cxx_rpath_arg : string;
  cs_f77_rpath_arg : string;
  cs_fc_rpath_arg : string;
  cs_linker_arg : string;
  cs_enable_new_dtags : string;
  cs_disable_new_dtags : string
}.

Fixpoint link_paths_get (d : list (string * string)) (key : string)
  : option string :=
  match d with
  | [] => None
  | (k, v) :: d' => if k =? key then Some v else link_paths_get d' key
  end.

(** [key in compiler.link_paths] *)
Definition link_paths_has (d : list (string * string)) (key : string) : bool :=
  match link_paths_get d key with Some _ => true | None => false end.

(** [compiler.link_paths[key]], for a key that is present. *)
Definition link_paths_item (d : list (string * string)) (key : string) : string :=
  match link_paths_get d key with Some v => v | None => "" end.

(** The three lists a flag handler returns, each possibly [None]. *)
Definition handled_flags : Type :=
  option (list string) * option (list string) * option (list string).

(** What the function leaves behind: the ledger, and the dictionary
    given to [pkg.flags_to_build_system_args]. *)
Record compiler_result := {
  cr_env : ledger;
  cr_build_system_flags : list (string * list string)
}.

Section CompilerEnvironment.

Variable concrete : bool.                        (* pkg.spec.concrete *)
Variable verify_executables : bool.              (* it returns, raising nothing *)
Variable link_dir : string.                      (* spack.paths.build_env_path *)
Variable shared_linking : pystr.                 (* config:shared_linking *)
Variable optimization_flags : option string.     (* of the target, for the compiler *)
Variable valid_compiler_flags : list string.     (* FlagMap.valid_compiler_flags() *)
Variable flag_handler : string -> option handled_flags.
                                   (* handler(pkg, flag, flags of the spec) *)
Variable flags_to_build_system_args : list (string * list string) -> bool.
Variable compiler_spec : string.                 (* str(spec.compiler) *)
Variable system_dirs : list string.
Variable setup_custom_environment : ledger -> option ledger.

(** The four calls above are made unguarded: [None] stands for a call
    that raises ([false] for [flags_to_build_system_args]), and what
    they raise leaves [set_compiler_environment_variables].  Reading
    the attributes of the package, of its compiler and of its spec, the
    configuration and [str(spec.compiler)] are taken to return. *)

(** What the handler returned for a flag. *)
Definition handled (flag : string) : handled_flags :=
  match flag_handler flag with
  | Some lists => lists
  | None => (None, None, None)
  end.

Definition handler_returns (flag : string) : bool :=
  match flag_handler flag with Some _ => true | None => false end.

(** The wrapper variables of one language. *)
Definition wrapper_ops (compiler : CompilerSettings) (path : pystr)
           (spack_var var lang : string) : ledger :=
  match path with
  | Some p =>
      if truthy path
      then [ SetEnv spack_var p;
             SetEnv var (os_path.join link_dir
                           (link_paths_item (cs_link_paths compiler) lang)) ]
      else []
  | None => []
  end.

(** The RPATH or RUNPATH choice. *)
Definition dtags_ops (compiler : CompilerSettings) : ledger :=
  if pystr_eqb shared_linking (Some "rpath")
  then [ SetEnv "SPACK_DTAGS_TO_STRIP" (cs_enable_new_dtags compiler);
         SetEnv "SPACK_DTAGS_TO_ADD" (cs_disable_new_dtags compiler) ]
  else [ SetEnv "SPACK_DTAGS_TO_STRIP" (cs_disable_new_dtags compiler);
         SetEnv "SPACK_DTAGS_TO_ADD" (cs_enable_new_dtags compiler) ].

Definition inject_flags (flag : string) : list string :=
  or_empty (fst (fst (handled flag))).

Definition env_flags (flag : string) : list string :=
  or_empty (snd (fst (handled flag))).

Definition build_system_flags (flag : string) : list string :=
  or_empty (snd (handled flag)).

Definition nonempty (l : list string) : bool :=
  match l with [] => false | _ => true end.

(** The body of the second loop over the flags. *)
Definition flag_ops (flag : string) : ledger :=
  (if nonempty (inject_flags flag)
   then [SetEnv ("SPACK_" +++ upper flag) (String.concat " " (inject_flags flag))]
   else [])
  ++ (if nonempty (env_flags flag)
      then [SetEnv (upper flag) (String.concat " " (env_flags flag))]
      else []).

(** What is written before the compiler's own hook runs, the target's
    flags being [target_args]. *)
Definition compiler_ops (target_args : string) (compiler : CompilerSettings)
  : ledger :=
  wrapper_ops compiler (cs_cc compiler) "SPACK_CC" "CC" "cc"
  ++ wrapper_ops compiler (cs_cxx compiler) "SPACK_CXX" "CXX" "cxx"
  ++ wrapper_ops compiler (cs_f77 compiler) "SPACK_F77" "F77" "f77"
  ++ wrapper_ops compiler (cs_fc compiler) "SPACK_FC" "FC" "fc"
  ++ [ SetEnv "SPACK_CC_RPATH_ARG" (cs_cc_rpath_arg compiler);
       SetEnv "SPACK_CXX_RPATH_ARG" (cs_cxx_rpath_arg compiler);
       SetEnv "SPACK_F77_RPATH_ARG" (cs_f77_rpath_arg compiler);
       SetEnv "SPACK_FC_RPATH_ARG" (cs_fc_rpath_arg compiler);
       SetEnv "SPACK_LINKER_ARG" (cs_linker_arg compiler) ]
  ++ dtags_ops compiler
  ++ [ SetEnv "SPACK_TARGET_ARGS" target_args ]
  ++ flat_map flag_ops valid_compiler_flags
  ++ [ SetEnv "SPACK_COMPILER_SPEC" compiler_spec;
       SetEnv "SPACK_SYSTEM_DIRS" (String.concat ":" system_dirs) ].

(** [set_compiler_environment_variables(pkg, env)]; [None] when an
    assertion fails or one of the calls raises.  The assertions and
    [verify_executables] come before anything is written to [env]; what
    has been written to [env] by the time a later call raises is not
    kept in the model. *)
Definition set_compiler_environment_variables (compiler : CompilerSettings)
           (env : ledger) : option compiler_result :=
  if negb concrete then None
  else if negb verify_executables then None
  else if negb (forallb (link_paths_has (cs_link_paths compiler))
                        ["cc"; "cxx"; "f77"; "fc"]) then None
  else
    match optimization_flags with
    | None => None
    | Some target_args =>
        if negb (forallb handler_returns valid_compiler_flags) then None
        else
          let build_system :=
            map (fun flag => (flag, build_system_flags flag))
                valid_compiler_flags in
          if negb (flags_to_build_system_args build_system) then None
          else
            match setup_custom_environment
                    (env ++ compiler_ops target_args compiler) with
            | None => None
            | Some env => Some {| cr_env := env;
                                  cr_build_system_flags := build_system |}
            end
    end.

End CompilerEnvironment.

(** The variables written before the loop over the flags. *)
Definition compiler_variable_names : list string :=
  [ "SPACK_CC"; "CC"; "SPACK_CXX"; "CXX"; "SPACK_F77"; "F77"; "SPACK_FC"; "FC";
    "SPACK_CC_RPATH_ARG"; "SPACK_CXX_RPATH_ARG"; "SPACK_F77_RPATH_ARG";
    "SPACK_FC_RPATH_ARG"; "SPACK_LINKER_ARG";
    "SPACK_DTAGS_TO_STRIP"; "SPACK_DTAGS_TO_ADD"; "SPACK_TARGET_ARGS" ].

(** No flag is written to one of those variables. *)
Definition flags_fresh (flags : list string) : bool :=
  forallb (fun flag =>
             negb (str_mem (upper flag) compiler_variable_names)
             && negb (str_mem ("SPACK_" +++ upper flag) compiler_variable_names))
          flags.

Definition sample_flags : list string :=
  ["cflags"; "cxxflags"; "fflags"; "ldflags"; "ldlibs"; "cppflags"].

Definition sample_compiler : CompilerSettings :=
  {| cs_cc := Some "/usr/bin/gcc"; cs_cxx := Some "/usr/bin/g++";
     cs_f77 := None; cs_fc := Some "";
     cs_link_paths := [("cc", "gcc/gcc"); ("cxx", "gcc/g++");
                       ("f77", "gcc/gfortran"); ("fc", "gcc/gfortran")];
     cs_cc_rpath_arg := "-Wl,-rpath,"; cs_cxx_rpath_arg := "-Wl,-rpath,";
     cs_f77_rpath_arg := "-Wl,-rpath,"; cs_fc_rpath_arg := "-Wl,-rpath,";
     cs_linker_arg := "-Wl,";
     cs_enable_new_dtags := "--enable-new-dtags";
     cs_disable_new_dtags := "--disable-new-dtags" |}.

Definition sample_flag_handler (flag : string) : handled_flags :=
  if flag =? "cflags" then (Some ["-O2"; "-g"], None, None)
  else if flag =? "ldflags" then (None, Some ["-L/opt/lib"], Some [])
  else (None, None, Some ["-fPIC"]).

(** The variables written after the loop over the flags. *)
Definition compiler_last_names : list string :=
  ["SPACK_COMPILER_SPEC"; "SPACK_SYSTEM_DIRS"].

(** The two variables a flag may be written to. *)
Definition flag_variables (flag : string) : list string :=
  [upper flag; "SPACK_" +++ upper flag].

(** The variables of different flags differ, and none is written after
    the loop. *)
Definition flags_apart (flags : list string) : bool :=
  forallb (fun f =>
             forallb (fun g =>
                        (f =? g)
                        || forallb (fun x => negb (str_mem x (flag_variables g)))
                                   (flag_variables f))
                     flags
             && forallb (fun x => negb (str_mem x compiler_last_names))
                        (flag_variables f))
          flags.

(** Is [op] an operation on [var]? *)
Definition targets (var : string) (op : env_op) : bool :=
  op_var op =? var.

(** ** [setup_package] *)

(** Modelled from the spec: the preservation block snapshots the given
    variables of the live environment and restores them when the block
    is left. *)
Definition preserve_environment (vars : list string)
           (body : environ -> environ) (e : environ) : environ :=
  let e' := body e in
  fun x => if str_mem x vars then e x else e' x.

(** What [setup_package] does besides changing [os.environ]. *)
Inductive setup_effect :=
| Composes (event : composer_event)   (* inside modifications_from_dependencies *)
| SetsModuleVariables.                (* set_module_variables_for_package(pkg) *)

Section SetupPackage.

(** The functions called, applied to the package. *)
Variable clean : environ -> environ.
                 (* clean_environment(), on os.environ *)
Variable compiler_variables : ledger -> option compiler_result.
                 (* set_compiler_environment_variables(pkg, env) *)
Variable build_variables : ledger -> bool -> ledger * option string.
                 (* set_build_environment_variables(pkg, env, dirty) *)
Variable setup_platform_environment : ledger -> ledger.
Variable dependency_modifications
  : string -> option (list composer_event * ledger).
                 (* modifications_from_dependencies(pkg.spec, context) *)
Variable setup_build_environment : ledger -> ledger.
                 (* the hook of the package itself *)
Variable environment_modifications_for_spec : ledger.
Variable load_module : string -> environ -> environ.
Variable module_unload : string -> environ -> environ.
                 (* module('unload', name) *)

(** What is read of the package. *)
Variable test_requires_compiler : bool.
Variable compiler_modules : list string.        (* pkg.compiler.modules *)
Variable target_module_name : pystr.
Variable traversed : list Spec.                 (* list(pkg.spec.traverse()) *)
Variable external_modules : Spec -> option (list string).
Variable implicit_rpaths : list string.         (* pkg.compiler.implicit_rpaths() *)

(** [load_external_modules(pkg)] *)
Definition load_external_modules (e : environ) : environ :=
  fold_left (fun e dep =>
               fold_left (fun e external_module => load_module external_module e)
                         (or_empty (external_modules dep)) e)
            traversed e.

(** The loop over the modules of the compiler. *)
Definition load_compiler_modules (e : environ) : environ :=
  fold_left (fun e module_name =>
               let e := if pystr_eqb (e "CRAY_CPU_TARGET") (Some "mic-knl")
                        then load_module "cce" e else e in
               load_module module_name e)
            compiler_modules e.

(** The body of the [with preserve_environment(...)] block. *)
Definition load_modules (need_compiler : bool) (e : environ) : environ :=
  let e := if need_compiler then load_compiler_modules e else e in
  let e := module_unload "cray-libsci" e in
  let e := if truthy target_module_name
           then load_module (fmt target_module_name) e else e in
  load_external_modules e.

(** [setup_package(pkg, dirty, context)] run on [os.environ]: the
    environment it leaves and what else it did, or [None] when one of
    the functions called raises.  The debug message about [CPATH] and
    the warnings of [validate] are not part of the model. *)
Definition setup_package (dirty : bool) (context : string) (os_environ : environ)
  : option (environ * list setup_effect) :=
  let env : ledger := [] in
  let os_environ := if negb dirty then clean os_environ else os_environ in
  let need_compiler :=
    (context =? "build") || ((context =? "test") && test_requires_compiler) in
  let compiler_part :=
    if need_compiler then
      match compiler_variables env with
      | None => None
      | Some r =>
          match build_variables (cr_env r) dirty with
          | (_, Some _) => None
          | (env, None) => Some env
          end
      end
    else Some env in
  match compiler_part with
  | None => None
  | Some env =>
      let env := setup_platform_environment env in
      let context_part :=
        if context =? "build" then
          match dependency_modifications context with
          | None => None
          | Some (events, modifications) =>
              let env := env ++ modifications in
              Some (setup_build_environment env,
                    map Composes events ++ [SetsModuleVariables])
          end
        else if context =? "test" then
          let env := env ++ environment_modifications_for_spec in
          Some (env ++ [PrependPath "PATH" "."], [SetsModuleVariables])
        else Some (env, []) in
      match context_part with
      | None => None
      | Some (env, effects) =>
          let os_environ :=
            preserve_environment ["CC"; "CXX"; "FC"; "F77"]
                                 (load_modules need_compiler) os_environ in
          let env :=
            match implicit_rpaths with
            | [] => env
            | _ => env ++ [SetEnv "SPACK_COMPILER_IMPLICIT_RPATHS"
                                  (String.concat ":" implicit_rpaths)]
            end in
          Some (apply_modifications env os_environ, effects)
      end
  end.

End SetupPackage.

(** [setup_package] for the sample chain, with the functions of this
    file in the place of the calls and a module system that writes the
    name of each module loaded to [CC]. *)
Definition sample_setup (dirty : bool) (context : string) (e : environ)
  : option (environ * list setup_effect) :=
  setup_package
    (clean_environment "linux" "ubuntu20.04" ["PATH"; "LD_LIBRARY_PATH"]
       (Some "C") ["/usr/bin"; "/opt/macports/bin"])
    (set_compiler_environment_variables true true "/spack/env" (Some "rpath")
       (Some "-march=x86-64") sample_flags
       (fun flag => Some (sample_flag_handler flag)) (fun _ => true)
       "gcc@9.3.0" ["/lib"; "/usr/lib"] (fun env => Some env) sample_compiler)
    (set_build_environment_variables is_system_path sample_isdir sample_set
       sample_getitem sample_libs sample_headers "/spack/env" "/work"
       false false false (fun s => name s) (fun s => name s) (sample_app true))
    (fun env => env)
    (modifications_from_dependencies sample_build_hook sample_run_hook
       (spec (sample_app true)))
    (fun env => env ++ [SetEnv "APP_HOME" "/opt/a"])
    []
    (fun m e => environ_set e "CC" (Some ("module:" +++ m)))
    (fun _ e => e)
    false ["PrgEnv-gnu"; "gcc/9.3.0"] None [] (fun _ => None) ["/usr/lib/gcc"]
    dirty context e.

Definition sample_environ : environ :=
  fun x => if x =? "PATH" then Some "/usr/bin:/opt/macports/bin"
           else if x =? "LD_LIBRARY_PATH" then Some "/opt/old/lib"
           else if x =? "CC" then Some "cc"
           else None.

(** [ChildError.__str__] *)
Definition ChildError_str {event : Type}
           (parse_log_events : string -> list event * list event)
           (make_log_context : list event -> string)
           (plural : nat -> string -> string) (path_exists : string -> bool)
           (self : ChildError) : string :=
  ce_message self
  +++ long_message parse_log_events make_log_context plural path_exists self
  +++ ce_traceback self.

(** ** The conversion bound in a package module *)

(** Keyword arguments of the [static_to_shared_library] closure: the
    [compiler] keyword ([None] when the key is absent) and the keywords
    that [_static_to_shared_library] reads. *)
Record library_kwargs := {
  lk_compiler : option pystr;
  lk_known : static_to_shared_kwargs
}.

Inductive conversion :=
| ConversionRaises              (* an exception leaves the closure *)
| Converts (compiler : modval) (effects : list effect).
                                (* Executable(compiler) ran with these effects *)

Fixpoint hasattr (m : module_scope) (attr : string) : bool :=
  match m with
  | [] => false
  | (k, _) :: m' => (k =? attr) || hasattr m' attr
  end.

(** [static_to_shared_library(static_lib, shared_lib, **kwargs)] as
    bound in module [m].  The default [m.spack_cc] of [kwargs.get] is
    evaluated first.  [kwargs] is passed on as it is, so a [compiler]
    keyword meets the positional [compiler] of
    [_static_to_shared_library] and the call raises [TypeError], unless
    [Executable] has raised before; [executable] tells whether
    [Executable] accepts a path. *)
Definition static_to_shared_library (executable : modval -> bool)
           (sys_platform arch : string)
           (m : module_scope) (static_lib : string) (shared_lib : pystr)
           (kwargs : library_kwargs) : conversion :=
  if negb (hasattr m "spack_cc") then ConversionRaises
  else
    let spack_cc := getattr m "spack_cc" (MStr "") in
    match lk_compiler kwargs with
    | Some _ => ConversionRaises
    | None =>
        if executable spack_cc
        then Converts spack_cc
                      (_static_to_shared_library sys_platform arch static_lib
                         shared_lib (lk_known kwargs))
        else ConversionRaises
    end.

(** ** Reachability in the DAG *)

(** [d] is below [s] over edges that carry one of the wanted types. *)
Inductive reachable (wanted : list deptype) : Spec -> Spec -> Prop :=
| reachable_edge (s : Spec) (dt : list deptype) (c : Spec) :
    In (dt, c) (_dependencies s) -> edge_selected wanted dt = true ->
    reachable wanted s c
| reachable_below (s : Spec) (dt : list deptype) (c d : Spec) :
    In (dt, c) (_dependencies s) -> edge_selected wanted dt = true ->
    reachable wanted c d -> reachable wanted s d.

(** The nodes of the DAG under [s] are identified by their names, as
    the nodes of a concrete spec are: a shared node is the same under
    each of its dependents. *)
Definition names_identify (wanted : list deptype) (s : Spec) : Prop :=
  forall x y,
    (x = s \/ reachable wanted s x) -> (y = s \/ reachable wanted s y) ->
    name x = name y -> x = y.

(** The loop of [traverse_nodes] over the edges of a node, [visit]
    being the walk below a child. *)
Definition children_loop (visit : Spec -> list string -> list Spec * list string)
           (wanted : list deptype)
  : list (list deptype * Spec) -> list string -> list Spec * list string :=
  fix children (es : list (list deptype * Spec)) (visited : list string)
    : list Spec * list string :=
    match es with
    | [] => ([], visited)
    | (dt, child) :: es' =>
        if edge_selected wanted dt then
          let '(out1, visited) := visit child visited in
          let '(out2, visited) := children es' visited in
          (out1 ++ out2, visited)
        else children es' visited
    end.

Fixpoint spec_size (s : Spec) : nat :=
  match s with
  | mkSpec _ _ edges =>
      S ((fix sizes (es : list (list deptype * Spec)) : nat :=
            match es with
            | [] => 0
            | (_, c) :: es' => spec_size c + sizes es'
            end) edges)
  end.

(** What a walk yields lies below its start. *)
Definition walk_sound (order : traversal_order) (wanted : list deptype)
           (s : Spec) : Prop :=
  forall yield_me visited out visited',
    traverse_nodes order wanted yield_me s visited = (out, visited') ->
    forall x, In x out -> (x = s /\ yield_me = true) \/ reachable wanted s x.

(** Every node of [U] that became visited has its children visited. *)
Definition closed_new (wanted : list deptype) (U : Spec -> Prop)
           (visited visited' : list string) : Prop :=
  forall x, U x -> In (name x) visited' -> ~ In (name x) visited ->
            forall dt c, In (dt, c) (_dependencies x) ->
                         edge_selected wanted dt = true ->
                         In (name c) visited'.

(** A walk marks its start, leaves what it marked closed and yields
    every node it marked. *)
Definition walk_complete (order : traversal_order) (wanted : list deptype)
           (U : Spec -> Prop) (s : Spec) : Prop :=
  forall yield_me visited out visited',
    U s ->
    traverse_nodes order wanted yield_me s visited = (out, visited') ->
    incl visited visited'
    /\ In (name s) visited'
    /\ closed_new wanted U visited visited'
    /\ (forall x, U x -> In (name x) visited' -> ~ In (name x) visited ->
                  (x = s -> yield_me = true) -> In x out).

(** A diamond: the application links to two libraries that share one. *)
Definition sample_zlib : Spec :=
  {| name := "zlib"; prefix := "/opt/zlib"; _dependencies := [] |}.

Definition sample_libpng : Spec :=
  {| name := "libpng"; prefix := "/opt/libpng";
     _dependencies := [([build; link], sample_zlib)] |}.

Definition sample_cmake : Spec :=
  {| name := "cmake"; prefix := "/opt/cmake";
     _dependencies := [([link], {| name := "ncurses"; prefix := "/opt/ncurses";
                                   _dependencies := [] |})] |}.

Definition sample_libxml2 : Spec :=
  {| name := "libxml2"; prefix := "/opt/libxml2";
     _dependencies := [([link], sample_zlib)] |}.

Definition sample_diamond : Spec :=
  {| name := "app"; prefix := "/opt/app";
     _dependencies := [ ([link], sample_libpng);
                        ([build], sample_cmake);
                        ([link; run], sample_libxml2) ] |}.

Definition sample_diamond_pkg (transitive : bool) : PackageBase :=
  {| spec := sample_diamond; transitive_rpaths := transitive;
     compiler := {| compiler_name := "gcc"; compiler_environment := [];
                    extra_rpaths := [] |};
     log_path := None; test_suite_stage := None; test_log_name := "" |}.

(** A build action that fails with an exception whose [__str__] raises:
    an [InstallError] raised by a package with a message that [str]
    cannot render. *)
Definition sample_unprintable : raised :=
  {| r_exc := {| exc_type := InstallError_class; exc_str := None;
                 exc_message := "configure failed";
                 exc_long_message := None; exc_pkg := None |};
     r_tb_first := {| filename := "lib/spack/spack/build_environment.py";
                      lineno := 867; function := "child_process";
                      text := "return_value = function()" |};
     r_tb_rest := [ {| filename := "/repo/packages/zlib/package.py";
                       lineno := 40; function := "install";
                       text := "raise InstallError(message)" |} ];
     r_format_exc := "Traceback (most recent call last): ..." |}.

(** The same failure with a message that [str] renders. *)
Definition sample_printable : raised :=
  {| r_exc := {| exc_type := InstallError_class;
                 exc_str := Some "configure failed";
                 exc_message := "configure failed";
                 exc_long_message := None; exc_pkg := None |};
     r_tb_first := r_tb_first sample_unprintable;
     r_tb_rest := r_tb_rest sample_unprintable;
     r_format_exc := r_format_exc sample_unprintable |}.

(** * Properties *)

Example splitext_a : os_path.splitext "/opt/x/libfoo.a" = ("/opt/x/libfoo", ".a").
Proof. reflexivity. Qed.

Example splitext_hidden : os_path.splitext "/opt/.profile" = ("/opt/.profile", "").
Proof. reflexivity. Qed.

Example basename_a : os_path.basename "/opt/x/libfoo.so.1" = "libfoo.so.1".
Proof. reflexivity. Qed.

Example static_to_shared_linux :
  _static_to_shared_library "linux" "linux-ubuntu18.04-x86_64" "/p/libfoo.a" None
    {| kw_compiler_output := None; kw_arguments := [];
       kw_version := Some "1.2"; kw_compat_version := Some (Some "1") |}
  = [ Symlink "libfoo.so.1.2" "/p/libfoo.so";
      Symlink "libfoo.so.1.2" "/p/libfoo.so.1";
      RunCompiler [ "-shared"; "-Wl,-soname,libfoo.so.1"; "-Wl,--whole-archive";
                    "/p/libfoo.a"; "-Wl,--no-whole-archive";
                    "-o"; "/p/libfoo.so.1.2" ] None ].
Proof. reflexivity. Qed.

(** ** Strings *)

Lemma append_length (s t : string) :
  String.length (s +++ t) = String.length s + String.length t.
Proof.
  induction s as [|a s IH]; simpl; [reflexivity|].
  now rewrite IH.
Qed.

Lemma append_assoc (a b c : string) : (a +++ b) +++ c = a +++ b +++ c.
Proof.
  induction a as [|x a IH]; simpl; [reflexivity|]. f_equal. exact IH.
Qed.

Lemma append_empty_r (s : string) : s +++ "" = s.
Proof. induction s as [|a s IH]; simpl; [reflexivity | now rewrite IH]. Qed.

Lemma concat_empty_app (l1 l2 : list string) :
  String.concat "" (l1 ++ l2) = String.concat "" l1 +++ String.concat "" l2.
Proof.
  induction l1 as [|x l1 IH]; simpl; [reflexivity|].
  destruct l1 as [|y l1].
  - simpl. destruct l2 as [|z l2]; simpl; [now rewrite append_empty_r|].
    reflexivity.
  - simpl in *. rewrite IH. now rewrite append_assoc.
Qed.

Lemma append_dot_neq (base x : string) : base <> base +++ "." +++ x.
Proof.
  intro H. apply (f_equal String.length) in H.
  rewrite !append_length in H. simpl in H. lia.
Qed.

Lemma prefix_append (p s : string) : String.prefix p (p +++ s) = true.
Proof.
  induction p as [|a p IH]; simpl.
  - now destruct s.
  - rewrite IH. now destruct (ascii_dec a a).
Qed.

Lemma pystr_eqb_eq (a b : pystr) : pystr_eqb a b = true <-> a = b.
Proof.
  destruct a as [x|], b as [y|]; simpl; split; intro H;
    try discriminate; try reflexivity.
  - apply String.eqb_eq in H. now subst.
  - injection H as ->. apply String.eqb_refl.
Qed.

Lemma In_opt_list {A} (b : bool) (x y : A) :
  In y (opt_list b x) <-> b = true /\ y = x.
Proof.
  destruct b; simpl; split.
  - intros [H|[]]. now split.
  - intros [_ H]. now left.
  - intros [].
  - intros [H _]. discriminate.
Qed.

(** ** Pickling of the error classes *)

(** C9: rebuilding a [ChildError] from the function and the arguments of
    its [__reduce__] gives a [ChildError] with the same message, module,
    name, traceback, context, build log and test log; rebuilding a
    [StopPhase] from its [__reduce__] gives a [StopPhase] with the same
    message and long message. *)
Theorem reduce_roundtrip :
  (forall ce : ChildError,
      let ce' := reconstruct (ChildError_reduce ce) in
      ce_message ce' = ce_message ce
      /\ ce_module ce' = ce_module ce
      /\ ce_name ce' = ce_name ce
      /\ ce_traceback ce' = ce_traceback ce
      /\ ce_context ce' = ce_context ce
      /\ ce_build_log ce' = ce_build_log ce
      /\ ce_test_log ce' = ce_test_log ce)
  /\ (forall sp : StopPhase,
         let sp' := reconstruct (StopPhase_reduce sp) in
         sp_message sp' = sp_message sp
         /\ sp_long_message sp' = sp_long_message sp).
Proof.
  split.
  - intros [msg lm pkg module name tb ctx bl tl]. cbn. repeat split.
  - intros [msg lm pkg]. cbn. split; reflexivity.
Qed.

(** ** Static to shared library conversion *)

Section StaticToSharedFacts.

Variables (sys_platform arch static_lib : string) (shared_lib : pystr)
          (kw : static_to_shared_kwargs).

Let version := kw_version kw.
Let compat_version := kwargs_compat_version kw.
Let base := shared_lib_base sys_platform static_lib shared_lib.
Let artifact := versioned_lib base version compat_version.

Lemma compiler_args_shape :
  compiler_args sys_platform arch static_lib shared_lib kw
  = platform_args arch static_lib base version compat_version
    ++ kw_arguments kw ++ ["-o"; artifact].
Proof.
  unfold compiler_args. fold version compat_version base artifact.
  destruct (kw_arguments kw); reflexivity.
Qed.

Lemma last_effect :
  last (_static_to_shared_library sys_platform arch static_lib shared_lib kw)
       (Symlink "" "")
  = RunCompiler (compiler_args sys_platform arch static_lib shared_lib kw)
                (kw_compiler_output kw).
Proof. unfold _static_to_shared_library. apply last_last. Qed.

Lemma In_symlink_effects (src dst : string) :
  In (Symlink src dst)
     (_static_to_shared_library sys_platform arch static_lib shared_lib kw)
  <-> src = os_path.basename artifact
      /\ ((truthy version || truthy compat_version = true /\ dst = base)
          \/ (truthy compat_version && negb (pystr_eqb compat_version version) = true
              /\ dst = base +++ "." +++ fmt compat_version)).
Proof.
  unfold _static_to_shared_library, symlinks.
  fold version compat_version base artifact.
  rewrite !in_app_iff, !In_opt_list. simpl. split.
  - intros [[[Hb He]|[Hb He]]|[He|[]]]; try discriminate;
      injection He as -> ->; split; auto.
  - intros [-> [[Hb ->]|[Hb ->]]]; auto.
Qed.

End StaticToSharedFacts.

(** C7: with a version or a compatibility version the output file is the
    base name suffixed with the version (with the compatibility version
    when there is no version); the unversioned name is symlinked to the
    versioned artifact; the name with the compatibility version is
    symlinked exactly when a compatibility version is given and differs
    from the version; no other symlink is made.  On a Linux or Cray
    architecture the compiler gets [-shared] and a [-Wl,-soname,]
    argument, on Darwin [-dynamiclib] and [-install_name]. *)
Theorem static_to_shared_versioned :
  forall (sys_platform arch static_lib : string) (shared_lib : pystr)
         (kw : static_to_shared_kwargs),
    let version := kw_version kw in
    let compat_version := kwargs_compat_version kw in
    let base := shared_lib_base sys_platform static_lib shared_lib in
    let effects :=
      _static_to_shared_library sys_platform arch static_lib shared_lib kw in
    exists platform artifact,
      last effects (Symlink "" "")
      = RunCompiler (platform ++ kw_arguments kw ++ ["-o"; artifact])
                    (kw_compiler_output kw)
      /\ (truthy version = true -> artifact = base +++ "." +++ fmt version)
      /\ (truthy version = false -> truthy compat_version = true ->
          artifact = base +++ "." +++ fmt compat_version)
      /\ (truthy version = true \/ truthy compat_version = true ->
          In (Symlink (os_path.basename artifact) base) effects)
      /\ (In (Symlink (os_path.basename artifact)
                      (base +++ "." +++ fmt compat_version)) effects
          <-> truthy compat_version = true /\ compat_version <> version)
      /\ (forall src dst, In (Symlink src dst) effects ->
          src = os_path.basename artifact
          /\ (dst = base \/ dst = base +++ "." +++ fmt compat_version))
      /\ (str_in "linux" arch = true \/ str_in "cray" arch = true ->
          In "-shared" platform
          /\ exists soname, In ("-Wl,-soname," +++ soname) platform)
      /\ (str_in "linux" arch = false -> str_in "cray" arch = false ->
          str_in "darwin" arch = true ->
          In "-dynamiclib" platform /\ In "-install_name" platform).
Proof.
  intros sys_platform arch static_lib shared_lib kw version compat_version
         base effects.
  exists (platform_args arch static_lib base version compat_version),
         (versioned_lib base version compat_version).
  repeat apply conj.
  - unfold effects. rewrite last_effect, compiler_args_shape. reflexivity.
  - intros Hv. unfold versioned_lib. now rewrite Hv.
  - intros Hv Hc. unfold versioned_lib. now rewrite Hv, Hc.
  - intros H. apply In_symlink_effects. split; [reflexivity|]. left.
    split; [|reflexivity]. fold version compat_version.
    destruct H as [-> | ->]; [reflexivity | apply orb_true_r].
  - intros H. apply In_symlink_effects in H. destruct H as [_ [[_ H]|[H _]]].
    + exfalso. symmetry in H. exact (append_dot_neq _ _ H).
    + fold compat_version version in H. apply andb_true_iff in H.
      destruct H as [Hc Hn]. split; [exact Hc|].
      intro E. apply pystr_eqb_eq in E. rewrite E in Hn. discriminate.
  - intros [Hc Hn]. apply In_symlink_effects. split; [reflexivity|]. right.
    split; [|reflexivity]. fold compat_version version. rewrite Hc. simpl.
    destruct (pystr_eqb compat_version version) eqn:E; [|reflexivity].
    apply pystr_eqb_eq in E. contradiction.
  - intros src dst H. apply In_symlink_effects in H.
    destruct H as [-> [[_ ->]|[_ ->]]]; split; auto.
  - intros H. unfold platform_args.
    assert (E : str_in "linux" arch || str_in "cray" arch = true)
      by (destruct H as [-> | ->]; [reflexivity | apply orb_true_r]).
    rewrite E. split; [now left|].
    eexists. right. left. reflexivity.
  - intros Hl Hc Hd. unfold platform_args. rewrite Hl, Hc, Hd. simpl.
    split; [now left | right; now left].
Qed.

Lemma static_to_shared_versioned_witness :
  exists platform artifact,
    last (_static_to_shared_library "darwin" "darwin-mojave-x86_64"
            "/p/libfoo.a" None sample_kwargs) (Symlink "" "")
    = RunCompiler (platform ++ ["-lm"] ++ ["-o"; artifact]) None
    /\ artifact = "/p/libfoo.dylib.1.2"
    /\ In (Symlink "libfoo.dylib.1.2" "/p/libfoo.dylib")
          (_static_to_shared_library "darwin" "darwin-mojave-x86_64"
             "/p/libfoo.a" None sample_kwargs)
    /\ In (Symlink "libfoo.dylib.1.2" "/p/libfoo.dylib.1")
          (_static_to_shared_library "darwin" "darwin-mojave-x86_64"
             "/p/libfoo.a" None sample_kwargs)
    /\ In "-dynamiclib" platform /\ In "-install_name" platform.
Proof.
  destruct (static_to_shared_versioned "darwin" "darwin-mojave-x86_64"
              "/p/libfoo.a" None sample_kwargs)
    as (platform & artifact & Hlast & Hv & _ & Hs1 & Hs2 & _ & _ & Hd).
  exists platform, artifact.
  pose proof (Hv eq_refl) as Ha.
  split; [exact Hlast|]. split; [exact Ha|].
  split; [rewrite Ha in Hs1; apply Hs1; now left|].
  split; [rewrite Ha in Hs2; apply Hs2; split; [reflexivity | discriminate]|].
  apply Hd; reflexivity.
Defined.

(** C10: without a version and a compatibility version no symlink is
    made, the compiler run is the only effect, and its [-o] argument is
    the [shared_lib] of the caller or, when none is given, the static
    library path with its extension replaced by [dylib] on Darwin and by
    [so] elsewhere. *)
Theorem static_to_shared_unversioned :
  forall (sys_platform arch static_lib : string) (shared_lib : pystr)
         (kw : static_to_shared_kwargs),
    truthy (kw_version kw) = false ->
    truthy (kwargs_compat_version kw) = false ->
    exists front,
      _static_to_shared_library sys_platform arch static_lib shared_lib kw
      = [RunCompiler
           (front ++
            ["-o";
             match shared_lib with
             | Some (String a s) => String a s
             | _ => fst (os_path.splitext static_lib) +++ "."
                    +++ (if sys_platform =? "darwin" then "dylib" else "so")
             end])
           (kw_compiler_output kw)].
Proof.
  intros sys_platform arch static_lib shared_lib kw Hv Hc.
  exists (platform_args arch static_lib
            (shared_lib_base sys_platform static_lib shared_lib)
            (kw_version kw) (kwargs_compat_version kw) ++ kw_arguments kw).
  unfold _static_to_shared_library, symlinks.
  rewrite compiler_args_shape, Hv, Hc. simpl.
  unfold versioned_lib. rewrite Hv, Hc, <- app_assoc.
  unfold shared_lib_base, dso_suffix.
  destruct shared_lib as [[|a s]|]; reflexivity.
Qed.

Lemma static_to_shared_unversioned_witness :
  exists front,
    _static_to_shared_library "linux" "cray-cnl7-haswell" "/p/libfoo.a" None
      {| kw_compiler_output := None; kw_arguments := [];
         kw_version := None; kw_compat_version := None |}
    = [RunCompiler (front ++ ["-o"; "/p/libfoo.so"]) None].
Proof.
  exact (static_to_shared_unversioned "linux" "cray-cnl7-haswell" "/p/libfoo.a"
           None
           {| kw_compiler_output := None; kw_arguments := [];
              kw_version := None; kw_compat_version := None |}
           eq_refl eq_refl).
Defined.

(** ** Error rendering *)

Lemma qualname_eqb_eq (a b : qualname) : qualname_eqb a b = true <-> a = b.
Proof.
  destruct a as [am an], b as [bm bn]. unfold qualname_eqb. simpl.
  rewrite andb_true_iff, !String.eqb_eq. split.
  - intros [-> ->]. reflexivity.
  - intros H. injection H as -> ->. now split.
Qed.

Lemma qualname_in_In (q : qualname) (l : list qualname) :
  qualname_in q l = true <-> In q l.
Proof.
  unfold qualname_in. rewrite existsb_exists. split.
  - intros (x & Hx & E). apply qualname_eqb_eq in E. now subst.
  - intros H. exists q. split; [exact H | now apply qualname_eqb_eq].
Qed.

Section LongMessageFacts.

Variable event : Type.
Variable parse_log_events : string -> list event * list event.
Variable make_log_context : list event -> string.
Variable plural : nat -> string -> string.
Variable path_exists : string -> bool.

Lemma clip_suffix (last : option nat) (evs : list event) :
  exists skipped, evs = skipped ++ fst (clip last evs).
Proof.
  unfold clip. destruct last as [k|]; [|now exists []].
  destruct (negb (k =? 0)%nat && (k <? List.length evs)%nat); [|now exists []].
  simpl. unfold last_n. exists (firstn (List.length evs - k) evs).
  symmetry. apply firstn_skipn.
Qed.

Lemma write_log_summary_cases (log_type log : string) (last : option nat) :
  let errors := fst (parse_log_events log) in
  let warnings := snd (parse_log_events log) in
  let w := write_log_summary parse_log_events log_type log last in
  (errors <> [] /\
   w = [LogHeader (snd (clip last errors)) "error" log_type;
        LogContext (fst (clip last errors))])
  \/ (errors = [] /\ warnings <> [] /\
      w = [LogHeader (snd (clip last warnings)) "warning" log_type;
           LogContext (fst (clip last warnings))])
  \/ (errors = [] /\ warnings = [] /\ w = []).
Proof.
  unfold write_log_summary.
  destruct (parse_log_events log) as [errors warnings]. simpl.
  destruct errors as [|e errors].
  - destruct warnings as [|x warnings].
    + right. right. auto.
    + right. left. split; [reflexivity|]. split; [discriminate|].
      simpl. now destruct (clip last (x :: warnings)).
  - left. split; [discriminate|]. simpl.
    now destruct (clip last (e :: errors)).
Qed.

Lemma no_excerpt_without_build_error (self : ChildError) :
  qualname_in (ce_module self, ce_name self) build_errors = false ->
  existsb is_log_excerpt
    (long_message_pieces parse_log_events make_log_context plural path_exists self)
  = false.
Proof.
  intros H. unfold long_message_pieces. rewrite H.
  repeat match goal with
         | |- context [if ?b then _ else _] => destruct b
         | |- context [match ?l with [] => _ | _ :: _ => _ end] => destruct l
         end;
    repeat rewrite existsb_app; reflexivity.
Qed.

Lemma context_shown (self : ChildError) :
  qualname_in (ce_module self, ce_name self) build_errors = false ->
  ce_context self <> [] ->
  In (Text (String.concat nl (ce_context self)))
     (long_message_pieces parse_log_events make_log_context plural path_exists self).
Proof.
  intros H Hc. unfold long_message_pieces. rewrite H.
  destruct (ce_context self) as [|c ctx] eqn:E; [contradiction|].
  repeat match goal with
         | |- context [if ?b then _ else _] => destruct b
         end;
    repeat rewrite in_app_iff; simpl; tauto.
Qed.

Lemma getvalue_app (out1 out2 : list (@piece event)) :
  getvalue make_log_context plural (out1 ++ out2)
  = getvalue make_log_context plural out1
    +++ getvalue make_log_context plural out2.
Proof. unfold getvalue. now rewrite map_app, concat_empty_app. Qed.

(** The pieces written for a build error: the inherited long message,
    what [write_log_summary] writes for the build log and then for the
    test log, each when that log is available, and after them only the
    separator and the pointers to the logs. *)
Lemma build_error_pieces (self : ChildError) :
  qualname_in (ce_module self, ce_name self) build_errors = true ->
  let build_excerpt :=
    if log_available path_exists (ce_build_log self)
    then write_log_summary parse_log_events "build" (fmt (ce_build_log self))
           None
    else [] in
  let test_excerpt :=
    if log_available path_exists (ce_test_log self)
    then write_log_summary parse_log_events "test" (fmt (ce_test_log self))
           None
    else [] in
  exists back,
    long_message_pieces parse_log_events make_log_context plural path_exists
      self
    = [Text (if truthy (ce__long_message self)
             then fmt (ce__long_message self) else "")]
      ++ build_excerpt ++ test_excerpt ++ back
    /\ existsb is_log_excerpt back = false.
Proof.
  intros H build_excerpt test_excerpt.
  unfold long_message_pieces. rewrite H.
  unfold build_excerpt, test_excerpt.
  destruct (log_available path_exists (ce_build_log self));
    destruct (log_available path_exists (ce_test_log self));
    match goal with
    | |- context [if negb (?g =? "") then _ else _] => destruct (negb (g =? ""))
    end;
    eexists;
    (split; [repeat rewrite <- app_assoc; cbn [app]; reflexivity|]);
    reflexivity.
Qed.

End LongMessageFacts.


Lemma clip_length {event : Type} (last : option nat) (evs : list event) :
  List.length (fst (clip last evs)) = snd (clip last evs).
Proof.
  unfold clip. destruct last as [k|]; [|reflexivity].
  destruct (negb (k =? 0)%nat) eqn:E0; simpl; [|reflexivity].
  destruct (k <? List.length evs)%nat eqn:Ek; simpl; [|reflexivity].
  apply Nat.ltb_lt in Ek. unfold last_n. rewrite length_skipn. lia.
Qed.

(** C3: the long message of a [ChildError] holds a log excerpt only when
    the module and name of the original failure are in [build_errors];
    otherwise it holds the lines of the Python source context.  For a
    failure in [build_errors] the excerpts are what [write_log_summary]
    writes for the build log and then for the test log, each when that
    log is set and exists, and nothing else in the message is a log
    excerpt.  [write_log_summary] writes an excerpt of the (last) errors
    exactly when the parsed log has an error, and an excerpt of the
    (last) warnings exactly when it has no error and has a warning. *)
Theorem child_error_rendering :
  forall (event : Type) (parse_log_events : string -> list event * list event)
         (make_log_context : list event -> string)
         (plural : nat -> string -> string) (path_exists : string -> bool),
    (forall self : ChildError,
        existsb is_log_excerpt
          (long_message_pieces parse_log_events make_log_context plural
             path_exists self) = true ->
        In (ce_module self, ce_name self) build_errors)
    /\ (forall self : ChildError,
           ~ In (ce_module self, ce_name self) build_errors ->
           ce_context self <> [] ->
           In (Text (String.concat nl (ce_context self)))
              (long_message_pieces parse_log_events make_log_context plural
                 path_exists self))
    /\ (forall (log_type log : string) (last : option nat),
           let errors := fst (parse_log_events log) in
           let warnings := snd (parse_log_events log) in
           let w := write_log_summary parse_log_events log_type log last in
           ((exists n evs,
                w = [LogHeader n "error" log_type; LogContext evs]
                /\ List.length evs = n
                /\ exists skipped, errors = skipped ++ evs)
            <-> errors <> [])
           /\ ((exists n evs,
                   w = [LogHeader n "warning" log_type; LogContext evs]
                   /\ List.length evs = n
                   /\ exists skipped, warnings = skipped ++ evs)
               <-> errors = [] /\ warnings <> []))
    /\ (forall self : ChildError,
           In (ce_module self, ce_name self) build_errors ->
           let inherited :=
             if truthy (ce__long_message self)
             then fmt (ce__long_message self) else "" in
           let build_excerpt :=
             if log_available path_exists (ce_build_log self)
             then write_log_summary parse_log_events "build"
                    (fmt (ce_build_log self)) None
             else [] in
           let test_excerpt :=
             if log_available path_exists (ce_test_log self)
             then write_log_summary parse_log_events "test"
                    (fmt (ce_test_log self)) None
             else [] in
           exists back,
             long_message_pieces parse_log_events make_log_context plural
               path_exists self
             = [Text inherited] ++ build_excerpt ++ test_excerpt ++ back
             /\ existsb is_log_excerpt back = false
             /\ long_message parse_log_events make_log_context plural
                  path_exists self
                = inherited
                  +++ getvalue make_log_context plural build_excerpt
                  +++ getvalue make_log_context plural test_excerpt
                  +++ getvalue make_log_context plural back).
Proof.
  intros event parse_log_events make_log_context plural path_exists.
  split; [|split; [|split]]; cycle 3.
  { intros self Hin inherited build_excerpt test_excerpt.
    apply qualname_in_In in Hin.
    destruct (build_error_pieces event parse_log_events make_log_context
                plural path_exists self Hin) as (back & E & B).
    fold inherited build_excerpt test_excerpt in E.
    exists back. split; [exact E|]. split; [exact B|].
    unfold long_message. rewrite E.
    rewrite !getvalue_app. unfold getvalue at 1. cbn [map render].
    cbn [String.concat]. reflexivity. }
  - intros self H.
    destruct (qualname_in (ce_module self, ce_name self) build_errors) eqn:E.
    + now apply qualname_in_In.
    + rewrite (no_excerpt_without_build_error _ parse_log_events
                 make_log_context plural path_exists self E) in H.
      discriminate.
  - intros self Hn Hc. apply context_shown; [|exact Hc].
    destruct (qualname_in (ce_module self, ce_name self) build_errors) eqn:E;
      [|reflexivity].
    apply qualname_in_In in E. contradiction.
  - intros log_type log last errors warnings w.
    destruct (write_log_summary_cases _ parse_log_events log_type log last)
      as [[He Hw]|[[He [Hwn Hw]]|[He [Hwn Hw]]]];
      fold errors warnings w in He, Hw; try fold warnings in Hwn.
    + split; split.
      * intros _. exact He.
      * intros _. eexists _, _. split; [exact Hw|].
        split; [apply clip_length | apply clip_suffix].
      * intros (n & evs & E & _). rewrite Hw in E. discriminate.
      * intros [E _]. contradiction.
    + split; split.
      * intros (n & evs & E & _). rewrite Hw in E. discriminate.
      * intros E. contradiction.
      * intros _. now split.
      * intros _. eexists _, _. split; [exact Hw|].
        split; [apply clip_length | apply clip_suffix].
    + split; split.
      * intros (n & evs & E & _). rewrite Hw in E. discriminate.
      * intros E. contradiction.
      * intros (n & evs & E & _). rewrite Hw in E. discriminate.
      * intros [_ E]. contradiction.
Qed.

Lemma child_error_rendering_witness :
  In ("spack.util.executable", "ProcessError") build_errors
  /\ In (Text "package.py:12, in install:")
        (long_message_pieces sample_parse (String.concat "")
           (fun n noun => noun) (fun _ => true) sample_python_error)
  /\ (exists n evs,
         write_log_summary sample_parse "build" "/stage/spack-build-out.txt"
           None
         = [LogHeader n "error" "build"; LogContext evs])
  /\ exists back,
      long_message_pieces sample_parse (String.concat "")
        (fun n noun => noun) (fun _ => true) sample_process_error
      = [Text ""; LogHeader 1 "error" "build";
         LogContext ["error: undefined reference"]] ++ back.
Proof.
  destruct (child_error_rendering string sample_parse (String.concat "")
              (fun n noun => noun) (fun _ => true)) as (H1 & H2 & H3 & H4).
  split; [exact (H1 sample_process_error eq_refl)|].
  split; [|split].
  - apply (H2 sample_python_error).
    + intros [H|[]]. discriminate H.
    + discriminate.
  - destruct (H3 "build" "/stage/spack-build-out.txt" None) as [[_ He] _].
    destruct He as (n & evs & E & _); [discriminate|].
    exists n, evs. exact E.
  - destruct (H4 sample_process_error) as (back & E & _); [now left|].
    exists back. exact E.
Defined.

(** ** The forked build runner *)

Section ForkFacts.

Variable is_package_file : string -> bool.
Variable readlines : string -> option (list string).
Variable colorize : string -> string.
Variable cescape : string -> string.
Variable setup_package : PackageBase -> bool -> string -> option raised.

Lemma scan_frames_bound (cur : option frame) (l : list frame) (f : frame) :
  exists g, scan_frames cur (l ++ [f]) = Some g.
Proof.
  revert cur. induction l as [|a l IH]; intros cur; simpl.
  - destruct (in_package_code f); eauto.
  - destruct (in_package_code a); eauto.
Qed.

(** On a traceback that holds a frame [get_package_context] raises
    exactly when the file of the frame it shows cannot be read. *)
Lemma get_package_context_raises (first : frame) (rest : list frame)
      (context : Z) :
  exists f,
    scan_frames None (rev (first :: rest)) = Some f
    /\ (get_package_context is_package_file readlines colorize cescape
          (first :: rest) context = None
        <-> readlines (filename f) = None).
Proof.
  unfold get_package_context. simpl rev.
  destruct (scan_frames_bound None (rev rest) first) as [g ->].
  exists g. split; [reflexivity|].
  destruct (readlines (filename g)); split; intros H;
    try reflexivity; discriminate H.
Qed.

(** The steps of the handler of the child that can raise. *)
Let handler_raises (pkg : PackageBase) (context : string) (r : raised) : Prop :=
  (class_is (exc_type (r_exc r)) TestFailure_name = false
   /\ get_package_context is_package_file readlines colorize cescape
        (r_tb_first r :: r_tb_rest r) 3 = None)
  \/ (context = "test" /\ test_suite_stage pkg = None)
  \/ exc_str (r_exc r) = None.

(** The handler builds its [ChildError] unless one of its steps
    raises. *)
Lemma wrap_exception_cases (pkg : PackageBase) (context : string) (r : raised) :
  match wrap_exception is_package_file readlines colorize cescape pkg context r
  with
  | Some ce =>
      ~ handler_raises pkg context r
      /\ ce_module ce = cls_module (exc_type (r_exc r))
      /\ ce_name ce = cls_name (exc_type (r_exc r))
      /\ (exists text,
             exc_str (r_exc r) = Some text
             /\ ce_message ce
                = cls_name (exc_type (r_exc r)) +++ ": " +++ text)
      /\ ce_traceback ce = r_format_exc r
  | None => handler_raises pkg context r
  end.
Proof.
  unfold wrap_exception, handler_raises, handler_test_log.
  destruct (class_is (exc_type (r_exc r)) TestFailure_name) eqn:T;
    cbn [negb];
    [|destruct (get_package_context is_package_file readlines colorize cescape
                  (r_tb_first r :: r_tb_rest r) 3) as [lines|] eqn:G];
    destruct (String.eqb_spec context "test") as [C|C];
    destruct (test_suite_stage pkg) as [stage|] eqn:S;
    destruct (exc_str (r_exc r)) as [text|] eqn:X.
  all: try solve [left; split; reflexivity].
  all: try solve [right; left; split; [exact C | reflexivity]].
  all: try solve [right; right; reflexivity].
  all: split;
    [ intros [[H1 H2]|[[H1 H2]|H]]; congruence
    | cbn; repeat split; eauto ].
Qed.

End ForkFacts.

(** What the child of [fork] sends and what the parent does with it.
    In the child a returned value and a [StopPhase] are sent as they
    are, and every other exception, whatever its class, enters the
    handler of [except BaseException]: the handler sends a [ChildError]
    that names that class, unless [get_package_context], the stage of
    the test suite or [str(exc)] raises in it, and then nothing is sent.
    In the parent, once the child was spawned: with nothing sent no
    object arrives; a [StopPhase] is raised without printing; a
    [ChildError] is printed and then raised; anything else is
    returned. *)
Theorem fork_dispatch :
  forall (is_package_file : string -> bool)
         (readlines : string -> option (list string))
         (colorize cescape : string -> string)
         (setup_package : PackageBase -> bool -> string -> option raised)
         (pkg : PackageBase) (function : unit -> action_result)
         (dirty fake : bool) (context : string) (s : spawn),
    let body := try_body setup_package pkg function dirty fake context in
    let sent := child_process is_package_file readlines colorize cescape
                  setup_package pkg function dirty fake context in
    let run := fork is_package_file readlines colorize cescape setup_package
                 pkg function dirty fake context s in
    let closing := opt_list (input_stream_open s) CloseInputStream in
    let handler_raises := fun r : raised =>
      (class_is (exc_type (r_exc r)) TestFailure_name = false
       /\ get_package_context is_package_file readlines colorize cescape
            (r_tb_first r :: r_tb_rest r) 3 = None)
      \/ (context = "test" /\ test_suite_stage pkg = None)
      \/ exc_str (r_exc r) = None in
    (* the child *)
    (forall v, body = Returns v -> sent = Some v)
    /\ (forall r, body = Raises r ->
        issubclass (exc_type (r_exc r)) StopPhase_name = true ->
        sent = Some (VStopPhase {| sp_message := exc_message (r_exc r);
                                   sp_long_message := exc_long_message (r_exc r);
                                   sp_pkg := exc_pkg (r_exc r) |}))
    /\ (forall r, body = Raises r ->
        issubclass (exc_type (r_exc r)) StopPhase_name = false ->
        (handler_raises r -> sent = None)
        /\ (~ handler_raises r ->
            exists ce text,
              sent = Some (VChildError ce)
              /\ exc_str (r_exc r) = Some text
              /\ ce_module ce = cls_module (exc_type (r_exc r))
              /\ ce_name ce = cls_name (exc_type (r_exc r))
              /\ ce_message ce = cls_name (exc_type (r_exc r)) +++ ": "
                                 +++ text
              /\ ce_traceback ce = r_format_exc r))
    (* the parent *)
    /\ (spawn_error s = None ->
        match sent with
        | None => run = (closing ++ [Recv], RaisedEOFError)
        | Some v =>
            let child_result := pipe_transfer v in
            (exists sp, child_result = VStopPhase sp
                        /\ run = (closing ++ [Recv; Join],
                                  RaisedResult (VStopPhase sp)))
            \/ (exists ce ce',
                   child_result = VChildError ce
                   /\ set_pkg child_result (name (spec pkg)) = VChildError ce'
                   /\ run = (closing ++ [Recv; Join; PrintContext ce'],
                             RaisedResult (VChildError ce')))
            \/ (isinstance_StopPhase child_result = false
                /\ isinstance_ChildError child_result = false
                /\ run = (closing ++ [Recv; Join],
                          Returned (if isinstance_InstallError child_result
                                    then set_pkg child_result (name (spec pkg))
                                    else child_result)))
        end).
Proof.
  intros is_package_file readlines colorize cescape setup_package pkg function
         dirty fake context s body sent run closing handler_raises.
  repeat apply conj.
  - intros v Hb. unfold sent, child_process. fold body. now rewrite Hb.
  - intros r Hb Hs. unfold sent, child_process. fold body. now rewrite Hb, Hs.
  - intros r Hb Hs.
    pose proof (wrap_exception_cases is_package_file readlines colorize
                  cescape pkg context r) as W.
    unfold sent, child_process. fold body. rewrite Hb, Hs.
    destruct (wrap_exception is_package_file readlines colorize cescape
                pkg context r) as [ce|].
    + destruct W as (N & Hm & Hn & (text & Ht & Hmsg) & Htb). split.
      * intros H. destruct (N H).
      * intros _. exists ce, text. repeat split; assumption.
    + split; [reflexivity|]. intros N. destruct (N W).
  - intros Hsp. unfold run, fork. rewrite Hsp. fold sent. fold closing.
    destruct sent as [v|]; [|reflexivity].
    destruct v as [sp|ce|e|d]; cbn.
    + left. eexists. split; reflexivity.
    + right. left. eexists _, _. repeat split.
    + right. right. repeat split.
    + right. right. repeat split.
Qed.

Lemma fork_dispatch_witness :
  exists ce,
    child_process (fun _ => false) (fun _ => Some []) id id (fun _ _ _ => None)
      sample_pkg sample_raise false false "build" = Some (VChildError ce)
    /\ ce_module ce = "builtins" /\ ce_name ce = "KeyError"
    /\ ce_message ce = "KeyError: 'x'".
Proof.
  destruct (fork_dispatch (fun _ => false) (fun _ => Some []) id id
              (fun _ _ _ => None) sample_pkg sample_raise false false "build"
              plain_spawn) as (_ & _ & H & _).
  destruct (H _ eq_refl eq_refl) as [_ H'].
  destruct H' as (ce & text & Hs & Ht & Hm & Hn & Hmsg & _).
  - intros [[_ K]|[[K _]|K]]; discriminate K.
  - exists ce. injection Ht as <-. auto.
Defined.

(** C1 fails on the code: the build action of a fake build raises an
    [InstallError] whose [__str__] raises.  The exception is not a
    [StopPhase] and enters the handler of [except BaseException], where
    [str(exc)] raises in turn; the [finally] clause closes the pipe,
    nothing is sent, and [fork] ends on its receive without a
    [ChildError].  The same failure with a message that [str] renders
    is sent as a [ChildError]. *)
Theorem fork_drops_unprintable_exception :
  let run := fun r : raised =>
    fork (fun _ => true) (fun _ => Some []) id id (fun _ _ _ => None)
         sample_pkg (fun _ => Raises r) false true "build" plain_spawn in
  issubclass (exc_type (r_exc sample_unprintable)) StopPhase_name = false
  /\ child_process (fun _ => true) (fun _ => Some []) id id
       (fun _ _ _ => None) sample_pkg (fun _ => Raises sample_unprintable)
       false true "build"
     = None
  /\ run sample_unprintable = ([Recv], RaisedEOFError)
  /\ exists ce,
      run sample_printable = ([Recv; Join; PrintContext ce],
                              RaisedResult (VChildError ce))
      /\ ce_message ce = "InstallError: configure failed"
      /\ ce_name ce = "InstallError".
Proof.
  cbn zeta. split; [reflexivity|]. split; [reflexivity|].
  split; [reflexivity|].
  eexists. split; [reflexivity|]. split; reflexivity.
Qed.

(** *** Failures of the spawn *)

(** C8, as stated, fails: a spawn that dies with an [OSError] leaves
    [fork] with that error and without a [pkg] attribute on it. *)
Lemma spawn_oserror_untagged :
  spawn_error failing_spawn = Some fork_unavailable
  /\ fork (fun _ => false) (fun _ => Some []) id id (fun _ _ _ => None)
          sample_pkg sample_raise false false "build" failing_spawn
     = ([], RaisedSpawnError fork_unavailable)
  /\ exc_pkg fork_unavailable = None.
Proof. repeat split. Qed.

(** C8, amended: when the spawn fails the parent never receives from the
    pipe and the error leaves [fork]; it carries the package in its
    [pkg] attribute when it is an [InstallError], and is otherwise the
    error as it was raised. *)
Theorem fork_spawn_failure :
  forall (is_package_file : string -> bool) (readlines : string -> option (list string))
         (colorize cescape : string -> string)
         (setup_package : PackageBase -> bool -> string -> option raised)
         (pkg : PackageBase) (function : unit -> action_result)
         (dirty fake : bool) (context : string) (s : spawn) (e : exception),
    spawn_error s = Some e ->
    let run := fork is_package_file readlines colorize cescape setup_package
                 pkg function dirty fake context s in
    ~ In Recv (fst run)
    /\ (issubclass (exc_type e) InstallError_name = true ->
        exists e', snd run = RaisedSpawnError e'
                   /\ exc_pkg e' = Some (name (spec pkg))
                   /\ exc_type e' = exc_type e /\ exc_str e' = exc_str e
                   /\ exc_message e' = exc_message e
                   /\ exc_long_message e' = exc_long_message e)
    /\ (issubclass (exc_type e) InstallError_name = false ->
        snd run = RaisedSpawnError e).
Proof.
  intros is_package_file readlines colorize cescape setup_package pkg function
         dirty fake context s e Hs run.
  unfold run, fork. rewrite Hs.
  destruct (issubclass (exc_type e) InstallError_name) eqn:E; cbn [fst snd].
  - split; [|split].
    + intros H. apply In_opt_list in H. destruct H as [_ H]. discriminate.
    + intros _. eexists. split; [reflexivity|]. cbn. auto.
    + discriminate.
  - split; [|split].
    + intros H. apply In_opt_list in H. destruct H as [_ H]. discriminate.
    + discriminate.
    + reflexivity.
Qed.

Lemma fork_spawn_failure_witness :
  exists e',
    snd (fork (fun _ => false) (fun _ => Some []) id id (fun _ _ _ => None)
           sample_pkg sample_raise false false "build"
           {| stdin_isatty := true; dup_error := None;
              start_error := Some install_failure |})
    = RaisedSpawnError e'
    /\ exc_pkg e' = Some "zlib".
Proof.
  destruct (fork_spawn_failure (fun _ => false) (fun _ => Some []) id id
              (fun _ _ _ => None) sample_pkg sample_raise false false "build"
              {| stdin_isatty := true; dup_error := None;
                 start_error := Some install_failure |}
              install_failure eq_refl) as (_ & H & _).
  destruct (H eq_refl) as (e' & He & Hp & _).
  exists e'. split; assumption.
Defined.

(** ** De-duplication in first-seen order *)

Lemma str_mem_In (x : string) (l : list string) : str_mem x l = true <-> In x l.
Proof.
  unfold str_mem. rewrite existsb_exists. split.
  - intros (y & Hy & E). apply String.eqb_eq in E. now subst.
  - intros H. exists x. split; [exact H | apply String.eqb_refl].
Qed.

Lemma str_mem_not_In (x : string) (l : list string) :
  str_mem x l = false <-> ~ In x l.
Proof.
  rewrite <- str_mem_In. destruct (str_mem x l); split; intro H;
    try discriminate; try reflexivity; try (intro; discriminate).
  exfalso. now apply H.
Qed.

Lemma In_dedupe_from (seen l : list string) (x : string) :
  In x (dedupe_from seen l) <-> In x l /\ ~ In x seen.
Proof.
  revert seen. induction l as [|a l IH]; intros seen; simpl; [tauto|].
  destruct (str_mem a seen) eqn:E.
  - apply str_mem_In in E. rewrite IH. split.
    + intros [H1 H2]. auto.
    + intros [[->|H1] H2]; [contradiction | auto].
  - apply str_mem_not_In in E. simpl. rewrite IH. simpl. split.
    + intros [->|[H1 H2]]; auto.
    + intros [[->|H1] H2]; auto.
      destruct (string_dec a x) as [->|Hne]; auto.
      right. split; [exact H1|]. intros [H|H]; auto.
Qed.

Lemma NoDup_dedupe_from (seen l : list string) : NoDup (dedupe_from seen l).
Proof.
  revert seen. induction l as [|a l IH]; intros seen; simpl; [constructor|].
  destruct (str_mem a seen); [apply IH|].
  constructor; [|apply IH].
  rewrite In_dedupe_from. simpl. tauto.
Qed.

(** Where an element stands in the output: after exactly the unseen
    elements that precede its first occurrence in the input. *)
Lemma dedupe_from_split (l seen o1 : list string) (x : string) (o2 : list string) :
  dedupe_from seen l = o1 ++ x :: o2 ->
  exists l1 l2,
    l = l1 ++ x :: l2 /\ ~ In x l1 /\ ~ In x seen
    /\ forall z, In z o1 <-> In z l1 /\ ~ In z seen.
Proof.
  revert seen o1. induction l as [|a l IH]; intros seen o1; simpl.
  - intros H. now destruct o1.
  - destruct (str_mem a seen) eqn:E.
    + apply str_mem_In in E. intros H.
      destruct (IH _ _ H) as (l1 & l2 & -> & Hx & Hs & Hz).
      exists (a :: l1), l2.
      split; [reflexivity|]. split; [|split; [exact Hs|]].
      * simpl. intros [->|H']; contradiction.
      * intros z. rewrite Hz. simpl. split; [tauto|].
        intros [[->|Hz1] Hz2]; [contradiction | tauto].
    + apply str_mem_not_In in E. intros H. destruct o1 as [|b o1].
      * simpl in H. injection H as -> _. exists [], l.
        split; [reflexivity|]. split; [simpl; tauto|]. split; [exact E|].
        intros z. simpl. tauto.
      * simpl in H. injection H as <- H.
        destruct (IH _ _ H) as (l1 & l2 & -> & Hx & Hs & Hz).
        simpl in Hs. exists (a :: l1), l2.
        split; [reflexivity|]. split; [|split; [tauto|]].
        -- simpl. intros [->|H']; tauto.
        -- intros z. simpl. rewrite Hz. simpl. split.
           ++ intros [->|Hz1]; tauto.
           ++ intros [[->|Hz1] Hz2]; [now left|].
              destruct (string_dec a z) as [->|Hne]; [now left|].
              right. tauto.
Qed.

Lemma filter_split {A} (P : A -> bool) (l a : list A) (x : A) (b : list A) :
  filter P l = a ++ x :: b ->
  exists l1 l2, l = l1 ++ x :: l2 /\ filter P l1 = a /\ P x = true.
Proof.
  revert a. induction l as [|y l IH]; intros a; simpl.
  - intros H. now destruct a.
  - destruct (P y) eqn:E.
    + destruct a as [|c a]; simpl; intros H; injection H as -> H.
      * exists [], l. auto.
      * destruct (IH _ H) as (l1 & l2 & -> & <- & Hx).
        exists (c :: l1), l2. simpl. rewrite E. auto.
    + intros H. destruct (IH _ H) as (l1 & l2 & -> & <- & Hx).
      exists (y :: l1), l2. simpl. rewrite E. auto.
Qed.

Lemma dedupe_filter_first_seen (keep : string -> bool) (cand : list string) :
  first_seen_order keep cand (dedupe (filter keep cand)).
Proof.
  unfold first_seen_order, dedupe. split; [apply NoDup_dedupe_from|]. split.
  - intros d. rewrite In_dedupe_from, filter_In. simpl. tauto.
  - intros o1 x o2 H.
    destruct (dedupe_from_split _ _ _ _ _ H) as (f1 & f2 & Hf & Hx & _ & Hz).
    destruct (filter_split _ _ _ _ _ Hf) as (l1 & l2 & -> & <- & Hk).
    exists l1, l2. split; [reflexivity|]. split.
    + intros Hin. apply Hx. apply filter_In. auto.
    + intros z. rewrite Hz, filter_In. simpl. tauto.
Qed.

(** ** The synthesized directory lists *)

Section BuildEnvironmentFacts.

Variable is_sys : string -> bool.
Variable isdir : string -> bool.
Variable py_set : list Spec -> list Spec.
Variable getitem : Spec -> string -> Spec.
Variable libs_directories : Spec -> option (list string).
Variable headers_directories : Spec -> option (list string).

Lemma dependency_loop (pkg : PackageBase) (rpath_deps deps : list Spec)
      (l i r : list string) :
  fold_left (dependency_pass is_sys isdir getitem libs_directories
               headers_directories pkg rpath_deps) deps (l, i, r)
  = (l ++ flat_map (link_contribution is_sys isdir getitem libs_directories pkg) deps,
     i ++ flat_map (include_contribution is_sys getitem headers_directories pkg) deps,
     r ++ flat_map (rpath_contribution is_sys isdir getitem libs_directories pkg rpath_deps) deps).
Proof.
  revert l i r. induction deps as [|dep deps IH]; intros l i r; simpl.
  - now rewrite !app_nil_r.
  - unfold link_contribution, include_contribution, rpath_contribution.
    destruct (is_sys (prefix dep)); simpl.
    + apply IH.
    + rewrite IH. unfold link_contribution, include_contribution,
        rpath_contribution.
      destruct (existsb (spec_eqb dep) rpath_deps);
        rewrite <- ?app_assoc, ?app_nil_r; reflexivity.
Qed.

Lemma candidate_dirs_eq (pkg : PackageBase) :
  candidate_dirs is_sys isdir py_set getitem libs_directories
    headers_directories pkg
  = (flat_map (link_contribution is_sys isdir getitem libs_directories pkg) (link_deps py_set pkg),
     flat_map (include_contribution is_sys getitem headers_directories pkg) (link_deps py_set pkg),
     own_rpath_dirs pkg
     ++ flat_map (rpath_contribution is_sys isdir getitem libs_directories pkg (get_rpath_deps pkg))
                 (link_deps py_set pkg)).
Proof. unfold candidate_dirs. now rewrite dependency_loop. Qed.

Variable build_env_path : string.
Variable spack_working_dir : string.
Variable config_debug : bool.
Variable config_ccache : bool.
Variable ccache_truth : bool.
Variable short_spec : Spec -> string.
Variable format_name_hash : Spec -> string.

(** The ledger after the call starts with the ledger before it, the
    three directory lists and [CMAKE_PREFIX_PATH]. *)
Lemma written_prefix (pkg : PackageBase) (env : ledger) (dirty : bool) :
  exists tail,
    fst (set_build_environment_variables is_sys isdir py_set getitem
           libs_directories headers_directories build_env_path
           spack_working_dir config_debug config_ccache ccache_truth
           short_spec format_name_hash pkg env dirty)
    = env
      ++ [ SetEnv SPACK_LINK_DIRS
             (String.concat ":"
                (link_dirs is_sys isdir py_set getitem libs_directories
                   headers_directories pkg));
           SetEnv SPACK_INCLUDE_DIRS
             (String.concat ":"
                (include_dirs is_sys isdir py_set getitem libs_directories
                   headers_directories pkg));
           SetEnv SPACK_RPATH_DIRS
             (String.concat ":"
                (rpath_dirs is_sys isdir py_set getitem libs_directories
                   headers_directories pkg));
           SetPath "CMAKE_PREFIX_PATH" (build_link_prefixes is_sys py_set pkg) ]
      ++ tail.
Proof.
  unfold set_build_environment_variables.
  destruct (extra_rpaths (compiler pkg)), config_debug,
    (config_ccache && negb ccache_truth), config_ccache;
    cbn [fst]; repeat rewrite <- app_assoc; simpl; eexists; reflexivity.
Qed.

End BuildEnvironmentFacts.

Section SynthesizedLists.

Variable is_sys : string -> bool.
Variable isdir : string -> bool.
Variable py_set : list Spec -> list Spec.
Variable getitem : Spec -> string -> Spec.
Variable libs_directories : Spec -> option (list string).
Variable headers_directories : Spec -> option (list string).
Variable build_env_path : string.
Variable spack_working_dir : string.
Variable config_debug : bool.
Variable config_ccache : bool.
Variable ccache_truth : bool.
Variable short_spec : Spec -> string.
Variable format_name_hash : Spec -> string.

Let candidates := candidate_dirs is_sys isdir py_set getitem libs_directories
                    headers_directories.
Let link_list := link_dirs is_sys isdir py_set getitem libs_directories
                   headers_directories.
Let include_list := include_dirs is_sys isdir py_set getitem libs_directories
                      headers_directories.
Let rpath_list := rpath_dirs is_sys isdir py_set getitem libs_directories
                    headers_directories.
Let written := fun pkg env dirty =>
  fst (set_build_environment_variables is_sys isdir py_set getitem
         libs_directories headers_directories build_env_path spack_working_dir
         config_debug config_ccache ccache_truth short_spec format_name_hash
         pkg env dirty).

(** C5: the link, include and rpath directory lists that
    [set_build_environment_variables] writes hold each directory once,
    in first-seen order of the directories gathered from the
    dependencies, and hold no system path; the prefixes written to
    [CMAKE_PREFIX_PATH] hold no system path either. *)
Theorem synthesized_dirs_deduplicated :
  forall (pkg : PackageBase) (env : ledger) (dirty : bool),
    let keep := fun d => negb (is_sys d) in
    first_seen_order keep (fst (fst (candidates pkg))) (link_list pkg)
    /\ first_seen_order keep (snd (fst (candidates pkg))) (include_list pkg)
    /\ first_seen_order keep (snd (candidates pkg)) (rpath_list pkg)
    /\ In (SetEnv SPACK_LINK_DIRS (String.concat ":" (link_list pkg)))
          (written pkg env dirty)
    /\ In (SetEnv SPACK_INCLUDE_DIRS (String.concat ":" (include_list pkg)))
          (written pkg env dirty)
    /\ In (SetEnv SPACK_RPATH_DIRS (String.concat ":" (rpath_list pkg)))
          (written pkg env dirty)
    /\ In (SetPath "CMAKE_PREFIX_PATH" (build_link_prefixes is_sys py_set pkg))
          (written pkg env dirty)
    /\ (forall p,
           In p (link_list pkg) \/ In p (include_list pkg)
           \/ In p (rpath_list pkg)
           \/ In p (build_link_prefixes is_sys py_set pkg) ->
           is_sys p = false).
Proof.
  intros pkg env dirty keep.
  assert (L : first_seen_order keep (fst (fst (candidates pkg))) (link_list pkg))
    by apply dedupe_filter_first_seen.
  assert (I : first_seen_order keep (snd (fst (candidates pkg))) (include_list pkg))
    by apply dedupe_filter_first_seen.
  assert (R : first_seen_order keep (snd (candidates pkg)) (rpath_list pkg))
    by apply dedupe_filter_first_seen.
  destruct (written_prefix is_sys isdir py_set getitem libs_directories
              headers_directories build_env_path spack_working_dir config_debug
              config_ccache ccache_truth short_spec format_name_hash pkg env
              dirty) as [tail W].
  fold (written pkg env dirty) (link_list pkg) (include_list pkg)
       (rpath_list pkg) in W.
  assert (Hw : forall op,
             In op [ SetEnv SPACK_LINK_DIRS (String.concat ":" (link_list pkg));
                     SetEnv SPACK_INCLUDE_DIRS
                       (String.concat ":" (include_list pkg));
                     SetEnv SPACK_RPATH_DIRS (String.concat ":" (rpath_list pkg));
                     SetPath "CMAKE_PREFIX_PATH"
                       (build_link_prefixes is_sys py_set pkg) ] ->
             In op (written pkg env dirty)).
  { intros op H. rewrite W. apply in_or_app. right. apply in_or_app. now left. }
  split; [exact L|]. split; [exact I|]. split; [exact R|].
  split; [apply Hw; simpl; tauto|]. split; [apply Hw; simpl; tauto|].
  split; [apply Hw; simpl; tauto|]. split; [apply Hw; simpl; tauto|].
  intros p [H|[H|[H|H]]].
  - apply L in H. destruct H as [_ H]. now apply negb_true_iff in H.
  - apply I in H. destruct H as [_ H]. now apply negb_true_iff in H.
  - apply R in H. destruct H as [_ H]. now apply negb_true_iff in H.
  - unfold build_link_prefixes, filter_system_paths in H.
    apply filter_In in H. destruct H as [_ H]. now apply negb_true_iff in H.
Qed.

End SynthesizedLists.

(** ** The package's own library directories *)

Lemma last_char_append (s t : string) :
  t <> "" -> last_char (s +++ t) = last_char t.
Proof.
  intros Ht. induction s as [|a s IH]; simpl; [reflexivity|].
  rewrite <- IH. destruct (s +++ t) eqn:E; [|reflexivity].
  destruct s; simpl in E; [contradiction | discriminate].
Qed.

(** [os.path.join(p, d)] for a relative [d] ends with [d]. *)
Lemma join_relative (p d : string) :
  startswith d "/" = false ->
  exists stem, os_path.join p d = stem +++ d.
Proof.
  intros H. unfold os_path.join. rewrite H.
  destruct ((p =? "") || endswith_char p os_path.sep).
  - now exists p.
  - exists (p +++ "/"). symmetry. apply append_assoc.
Qed.

Lemma join_lib_neq (p : string) :
  os_path.join p "lib" <> os_path.join p "lib64".
Proof.
  unfold os_path.join. simpl.
  destruct ((p =? "") || endswith_char p os_path.sep); intro H;
    apply (f_equal String.length) in H;
    rewrite !append_length in H; simpl in H; lia.
Qed.

(** Under the canonical list of system paths the own library
    directories of a package are never system paths. *)
Lemma own_rpath_dirs_not_system (p : string) :
  is_system_path (os_path.join p "lib") = false
  /\ is_system_path (os_path.join p "lib64") = false.
Proof.
  split.
  - destruct (join_relative p "lib" eq_refl) as [stem ->].
    apply str_mem_not_In. intros H.
    assert (L : last_char (stem +++ "lib") = Some "b"%char)
      by (now rewrite last_char_append).
    simpl in H. destruct H as [H|[H|[H|[]]]]; rewrite <- H in L; discriminate.
  - destruct (join_relative p "lib64" eq_refl) as [stem ->].
    apply str_mem_not_In. intros H.
    assert (L : last_char (stem +++ "lib64") = Some "4"%char)
      by (now rewrite last_char_append).
    simpl in H. destruct H as [H|[H|[H|[]]]]; rewrite <- H in L; discriminate.
Qed.

(** ** Traversal of a chain *)

Lemma eqb_neq_sym (x y : string) : x <> y -> (y =? x) = false.
Proof. intros H. apply String.eqb_neq. congruence. Qed.

Lemma traverse_chain (wanted : list deptype) (a pa : string)
      (dtAB : list deptype) (b pb : string) (dtBC : list deptype)
      (c pc : string) :
  edge_selected wanted dtAB = true -> edge_selected wanted dtBC = true ->
  a <> b -> a <> c -> b <> c ->
  let A := chain_A a pa dtAB b pb dtBC c pc in
  traverse pre false wanted A = [chain_B b pb dtBC c pc; chain_C c pc]
  /\ traverse post false wanted A = [chain_C c pc; chain_B b pb dtBC c pc]
  /\ dependencies wanted A = [chain_B b pb dtBC c pc].
Proof.
  intros Hab Hbc Nab Nac Nbc A.
  assert (Eba : (b =? a) = false) by now apply eqb_neq_sym.
  assert (Eca : (c =? a) = false) by now apply eqb_neq_sym.
  assert (Ecb : (c =? b) = false) by now apply eqb_neq_sym.
  unfold A, chain_A, chain_B, chain_C, traverse, dependencies.
  cbn. rewrite Hab. cbn. rewrite Eba. cbn. rewrite Hbc. cbn.
  rewrite Ecb, Eca. cbn.
  unfold edge_selected in Hab. rewrite Hab. auto.
Qed.

Lemma edge_selected_In (wanted edge : list deptype) (d : deptype) :
  In d wanted -> In d edge -> edge_selected wanted edge = true.
Proof.
  intros Hw He. unfold edge_selected. apply existsb_exists.
  exists d. split; [exact He|]. apply existsb_exists.
  exists d. split; [exact Hw|]. now destruct d.
Qed.

(** ** Traversal and reachability *)

Lemma traverse_nodes_eq (order : traversal_order) (wanted : list deptype)
      (yield_me : bool) (s : Spec) (visited : list string) :
  traverse_nodes order wanted yield_me s visited
  = if str_mem (name s) visited then ([], visited)
    else
      let '(below, visited') :=
        children_loop (traverse_nodes order wanted true) wanted
                      (_dependencies s) (name s :: visited) in
      (match order with
       | pre => opt_list yield_me s ++ below
       | post => below ++ opt_list yield_me s
       end, visited').
Proof. destruct s as [n p edges]. reflexivity. Qed.

Lemma Spec_nested_ind (P : Spec -> Prop) :
  (forall n p edges, Forall (fun e => P (snd e)) edges -> P (mkSpec n p edges)) ->
  forall s, P s.
Proof.
  intros H. fix IH 1. intros [n p edges]. apply H.
  induction edges as [|[dt c] es IHes]; constructor.
  - apply IH.
  - exact IHes.
Qed.

Lemma spec_size_child (s : Spec) (dt : list deptype) (c : Spec) :
  In (dt, c) (_dependencies s) -> spec_size c < spec_size s.
Proof.
  destruct s as [n p edges]. cbn [_dependencies spec_size].
  induction edges as [|[dt' c'] es IH]; cbn [In]; [contradiction|].
  intros [E|H].
  - injection E as -> ->. lia.
  - specialize (IH H). lia.
Qed.

Lemma reachable_smaller (wanted : list deptype) (s d : Spec) :
  reachable wanted s d -> spec_size d < spec_size s.
Proof.
  induction 1 as [s dt c Hin _|s dt c d Hin _ _ IH].
  - now apply spec_size_child in Hin.
  - apply spec_size_child in Hin. lia.
Qed.

Lemma reachable_snoc (wanted : list deptype) (s x : Spec)
      (dt : list deptype) (c : Spec) :
  reachable wanted s x -> In (dt, c) (_dependencies x) ->
  edge_selected wanted dt = true -> reachable wanted s c.
Proof.
  intros H Hin Hsel.
  induction H as [s dt' c' Hin' Hsel'|s dt' c' d Hin' Hsel' _ IH].
  - eapply reachable_below; [exact Hin' | exact Hsel' |].
    eapply reachable_edge; eassumption.
  - eapply reachable_below; [exact Hin' | exact Hsel' | now apply IH].
Qed.

Section TraversalFacts.

Variable order : traversal_order.
Variable wanted : list deptype.

Lemma loop_sound (es : list (list deptype * Spec)) :
  Forall (fun e => walk_sound order wanted (snd e)) es ->
  forall visited out visited',
    children_loop (traverse_nodes order wanted true) wanted es visited
    = (out, visited') ->
    forall x, In x out ->
      exists dt c, In (dt, c) es /\ edge_selected wanted dt = true
                   /\ (x = c \/ reachable wanted c x).
Proof.
  induction es as [|[dt c] es IH]; intros Hall visited out visited' E x Hx;
    cbn [children_loop] in E.
  - injection E as <- _. contradiction.
  - inversion Hall as [|? ? Hc Hes]; subst. cbn [snd] in Hc.
    destruct (edge_selected wanted dt) eqn:Hsel.
    + destruct (traverse_nodes order wanted true c visited) as [out1 v1] eqn:E1.
      destruct (children_loop (traverse_nodes order wanted true) wanted es v1)
        as [out2 v2] eqn:E2.
      injection E as <- <-. apply in_app_or in Hx. destruct Hx as [Hx|Hx].
      * exists dt, c. split; [now left|]. split; [exact Hsel|].
        destruct (Hc _ _ _ _ E1 x Hx) as [[-> _]|H]; [now left | now right].
      * destruct (IH Hes _ _ _ E2 x Hx) as (dt' & c' & Hin & H).
        exists dt', c'. split; [now right | exact H].
    + destruct (IH Hes _ _ _ E x Hx) as (dt' & c' & Hin & H).
      exists dt', c'. split; [now right | exact H].
Qed.

Lemma traverse_nodes_sound (s : Spec) : walk_sound order wanted s.
Proof.
  induction s as [n p edges IH] using Spec_nested_ind.
  intros yield_me visited out visited' E x Hx.
  rewrite traverse_nodes_eq in E. cbn [name _dependencies] in E.
  destruct (str_mem n visited).
  - injection E as <- _. contradiction.
  - destruct (children_loop (traverse_nodes order wanted true) wanted edges
                (n :: visited)) as [below v] eqn:L.
    injection E as <- <-.
    assert (Hb : In x below -> reachable wanted (mkSpec n p edges) x).
    { intros Hb. destruct (loop_sound edges IH _ _ _ L x Hb)
        as (dt & c & Hin & Hsel & [->|H]).
      - eapply reachable_edge; [exact Hin | exact Hsel].
      - eapply reachable_below; [exact Hin | exact Hsel | exact H]. }
    assert (Hm : In x (opt_list yield_me (mkSpec n p edges)) ->
                 x = mkSpec n p edges /\ yield_me = true).
    { unfold opt_list. destruct yield_me; [|contradiction].
      intros [<-|[]]. now split. }
    destruct order; apply in_app_or in Hx; destruct Hx as [Hx|Hx]; auto.
Qed.

(** Nodes with a name, closed under the wanted edges, on which names
    identify nodes. *)
Variable U : Spec -> Prop.
Hypothesis U_children :
  forall x dt c, U x -> In (dt, c) (_dependencies x) ->
                 edge_selected wanted dt = true -> U c.
Hypothesis U_names : forall x y, U x -> U y -> name x = name y -> x = y.

Lemma loop_complete (es : list (list deptype * Spec)) :
  Forall (fun e => walk_complete order wanted U (snd e)) es ->
  (forall dt c, In (dt, c) es -> edge_selected wanted dt = true -> U c) ->
  forall visited out visited',
    children_loop (traverse_nodes order wanted true) wanted es visited
    = (out, visited') ->
    incl visited visited'
    /\ (forall dt c, In (dt, c) es -> edge_selected wanted dt = true ->
                     In (name c) visited')
    /\ closed_new wanted U visited visited'
    /\ (forall x, U x -> In (name x) visited' -> ~ In (name x) visited ->
                  In x out).
Proof.
  induction es as [|[dt c] es IH]; intros Hall HU visited out visited' E;
    cbn [children_loop] in E.
  - injection E as <- <-. split; [apply incl_refl|]. split; [intros ? ? []|].
    split; [intros x _ H N; contradiction | intros x _ H N; contradiction].
  - inversion Hall as [|? ? Hc Hes]; subst. cbn [snd] in Hc.
    assert (HU' : forall dt' c', In (dt', c') es ->
                                 edge_selected wanted dt' = true -> U c').
    { intros dt' c' Hin. apply HU. now right. }
    destruct (edge_selected wanted dt) eqn:Hsel.
    + destruct (traverse_nodes order wanted true c visited) as [out1 v1] eqn:E1.
      destruct (children_loop (traverse_nodes order wanted true) wanted es v1)
        as [out2 v2] eqn:E2.
      injection E as <- <-.
      destruct (Hc true visited out1 v1 (HU dt c (or_introl eq_refl) Hsel) E1)
        as (I1 & N1 & C1 & O1).
      destruct (IH Hes HU' v1 out2 v2 E2) as (I2 & N2 & C2 & O2).
      split; [eapply incl_tran; eassumption|]. split; [|split].
      * intros dt' c' [Eq|Hin] Hs.
        -- injection Eq as <- <-. apply I2. exact N1.
        -- now apply (N2 dt' c').
      * intros x Ux Hx Nx dt' c' Hin Hs.
        destruct (in_dec string_dec (name x) v1) as [Hv|Hv].
        -- apply I2. now apply (C1 x Ux Hv Nx dt' c').
        -- now apply (C2 x Ux Hx Hv dt' c').
      * intros x Ux Hx Nx. apply in_or_app.
        destruct (in_dec string_dec (name x) v1) as [Hv|Hv].
        -- left. apply O1; auto.
        -- right. apply O2; auto.
    + destruct (IH Hes HU' visited out visited' E) as (I2 & N2 & C2 & O2).
      split; [exact I2|]. split; [|split; assumption].
      intros dt' c' [Eq|Hin] Hs.
      * injection Eq as <- <-. congruence.
      * now apply (N2 dt' c').
Qed.

Lemma traverse_nodes_complete (s : Spec) : walk_complete order wanted U s.
Proof.
  induction s as [n p edges IH] using Spec_nested_ind.
  intros yield_me visited out visited' Us E.
  rewrite traverse_nodes_eq in E. cbn [name _dependencies] in E.
  destruct (str_mem n visited) eqn:V.
  - injection E as <- <-. split; [apply incl_refl|]. split.
    + cbn [name]. unfold str_mem in V. apply existsb_exists in V.
      destruct V as (y & Hy & Ey). apply String.eqb_eq in Ey. now subst.
    + split; [intros x _ H N; contradiction | intros x _ H N; contradiction].
  - destruct (children_loop (traverse_nodes order wanted true) wanted edges
                (n :: visited)) as [below v] eqn:L.
    injection E as <- <-.
    destruct (loop_complete edges IH) with (1 := fun dt c Hin Hs =>
                U_children (mkSpec n p edges) dt c Us Hin Hs) (2 := L)
      as (I & N & C & O).
    split; [intros a Ha; apply I; now right|]. split; [apply I; now left|].
    split.
    + intros x Ux Hx Nx dt c Hin Hs.
      destruct (string_dec (name x) n) as [En|En].
      * assert (x = mkSpec n p edges) by (apply U_names; auto).
        subst x. now apply (N dt c).
      * apply (C x Ux Hx) with (dt := dt); [|exact Hin|exact Hs].
        intros [H|H]; [now symmetry in H | contradiction].
    + intros x Ux Hx Nx Hy.
      destruct (string_dec (name x) n) as [En|En].
      * assert (Ex : x = mkSpec n p edges) by (apply U_names; auto).
        rewrite (Hy Ex). subst x. destruct order; apply in_or_app; cbn; auto.
      * assert (Hb : In x below).
        { apply O; auto. intros [H|H]; [now symmetry in H | contradiction]. }
        destruct order; apply in_or_app; auto.
Qed.

End TraversalFacts.

(** [traverse] without the root yields exactly the nodes below it. *)
Lemma traverse_reachable (order : traversal_order) (wanted : list deptype)
      (s : Spec) :
  (forall d, In d (traverse order false wanted s) -> reachable wanted s d)
  /\ (names_identify wanted s ->
      forall d, reachable wanted s d -> In d (traverse order false wanted s)).
Proof.
  unfold traverse.
  destruct (traverse_nodes order wanted false s []) as [out v] eqn:E.
  cbn [fst]. split.
  - intros d Hd.
    destruct (traverse_nodes_sound order wanted s _ _ _ _ E d Hd)
      as [[_ H]|H]; [discriminate | exact H].
  - intros Hn.
    pose (U := fun x => x = s \/ reachable wanted s x).
    assert (Uc : forall x dt c, U x -> In (dt, c) (_dependencies x) ->
                                edge_selected wanted dt = true -> U c).
    { intros x dt c [->|Hx] Hin Hs; right.
      - eapply reachable_edge; eassumption.
      - eapply reachable_snoc; eassumption. }
    destruct (traverse_nodes_complete order wanted U Uc Hn s false [] out v
                (or_introl eq_refl) E) as (_ & N & C & O).
    assert (V : forall a d, reachable wanted a d -> U a -> In (name a) v ->
                            In (name d) v).
    { induction 1 as [a dt c Hin Hs|a dt c d Hin Hs _ IH]; intros Ua Ha.
      - apply (C a Ua Ha (fun H => H) dt c Hin Hs).
      - apply IH; [eapply Uc; eassumption|].
        apply (C a Ua Ha (fun H => H) dt c Hin Hs). }
    intros d Hd. apply O.
    + now right.
    + apply (V s d Hd); [now left | exact N].
    + intros [].
    + intros ->. apply reachable_smaller in Hd. lia.
Qed.

Lemma edge_selected_link (dt : list deptype) :
  edge_selected [link] dt = true <-> In link dt.
Proof.
  unfold edge_selected. rewrite existsb_exists. split.
  - intros (d & Hd & H). cbn in H. rewrite orb_false_r in H.
    destruct d; try discriminate. exact Hd.
  - intros H. exists link. split; [exact H | reflexivity].
Qed.

Lemma In_dependencies (wanted : list deptype) (s d : Spec) :
  In d (dependencies wanted s)
  <-> exists dt, In (dt, d) (_dependencies s) /\ edge_selected wanted dt = true.
Proof.
  unfold dependencies. rewrite in_map_iff. split.
  - intros ([dt c] & E & H). cbn in E. subst c.
    apply filter_In in H. destruct H as [H Hs]. exists dt. now split.
  - intros (dt & H & Hs). exists (dt, d). split; [reflexivity|].
    apply filter_In. now split.
Qed.

Lemma reachable_inv (wanted : list deptype) (s d : Spec) :
  reachable wanted s d ->
  exists dt c, In (dt, c) (_dependencies s) /\ edge_selected wanted dt = true
               /\ (d = c \/ reachable wanted c d).
Proof.
  intros H. destruct H as [s dt c Hin Hs|s dt c d Hin Hs H].
  - exists dt, c. auto.
  - exists dt, c. auto.
Qed.

(** ** RPATH directories *)

Section RpathFacts.

Variable is_sys : string -> bool.
Variable isdir : string -> bool.
Variable py_set : list Spec -> list Spec.
Variable getitem : Spec -> string -> Spec.
Variable libs_directories : Spec -> option (list string).
Variable headers_directories : Spec -> option (list string).

Let rpath_list := rpath_dirs is_sys isdir py_set getitem libs_directories
                    headers_directories.
Let dep_dirs := dep_link_dirs isdir getitem libs_directories.
Lemma rpath_list_eq (pkg : PackageBase) :
  rpath_list pkg
  = dedupe (filter (fun p => negb (is_sys p))
              (own_rpath_dirs pkg
               ++ flat_map (rpath_contribution is_sys isdir getitem
                              libs_directories pkg (get_rpath_deps pkg))
                           (link_deps py_set pkg))).
Proof.
  unfold rpath_list, rpath_dirs, filter_system_paths.
  now rewrite candidate_dirs_eq.
Qed.

Lemma In_rpath_contribution (pkg : PackageBase) (rpath_deps : list Spec)
      (dep : Spec) (d : string) :
  In d (rpath_contribution is_sys isdir getitem libs_directories pkg
          rpath_deps dep)
  <-> is_sys (prefix dep) = false
      /\ existsb (spec_eqb dep) rpath_deps = true
      /\ In d (dep_dirs pkg dep).
Proof.
  unfold rpath_contribution.
  destruct (is_sys (prefix dep)); simpl.
  - split; [tauto | intros [H _]; discriminate].
  - destruct (existsb (spec_eqb dep) rpath_deps); simpl.
    + unfold dep_dirs. tauto.
    + split; [tauto | intros [_ [H _]]; discriminate].
Qed.

(** C4: for every package with transitive RPATHs [get_rpath_deps] holds
    only nodes that are below the package over link edges and, names
    identifying the nodes of the DAG, every such node; for every package
    without them it holds exactly the nodes at the end of a link edge of
    the package itself.  For a chain [A -> B -> C] of link edges in
    which [C] has a [lib] directory on disk that no other package
    contributes, the rpath directories of [A] hold that directory
    exactly when [A] has transitive RPATHs. *)
Theorem rpath_deps_policy :
  (forall pkg : PackageBase,
      (transitive_rpaths pkg = true ->
       (forall d, In d (get_rpath_deps pkg) -> reachable [link] (spec pkg) d)
       /\ (names_identify [link] (spec pkg) ->
           forall d, reachable [link] (spec pkg) d ->
                     In d (get_rpath_deps pkg)))
      /\ (transitive_rpaths pkg = false ->
          forall d, In d (get_rpath_deps pkg)
                    <-> exists dt, In (dt, d) (_dependencies (spec pkg))
                                   /\ In link dt))
  /\ (forall (pkg : PackageBase) (a pa : string) (dtAB : list deptype)
             (b pb : string) (dtBC : list deptype) (c pc : string),
         let B := chain_B b pb dtBC c pc in
         let C := chain_C c pc in
         let clib := os_path.join pc "lib" in
         spec pkg = chain_A a pa dtAB b pb dtBC c pc ->
         In link dtAB -> In link dtBC ->
         a <> b -> a <> c -> b <> c ->
         (forall l x, In x (py_set l) <-> In x l) ->
         is_sys pc = false -> is_sys clib = false -> isdir clib = true ->
         ~ In clib (own_rpath_dirs pkg) -> ~ In clib (dep_dirs pkg B) ->
         get_rpath_deps pkg = (if transitive_rpaths pkg then [B; C] else [B])
         /\ (In clib (rpath_list pkg) <-> transitive_rpaths pkg = true)).
Proof.
  split.
  { intros pkg. unfold get_rpath_deps. split; intros Ht; rewrite Ht.
    - apply traverse_reachable.
    - intros d. rewrite In_dependencies. split.
      + intros (dt & H & Hs). exists dt. split; [exact H|].
        now apply edge_selected_link.
      + intros (dt & H & Hs). exists dt. split; [exact H|].
        now apply edge_selected_link. }
  intros pkg a pa dtAB b pb dtBC c pc B C clib Hspec Hab Hbc Nab Nac Nbc Hset
         Hpc Hclib Hdir Hown HB.
  destruct (traverse_chain [link] a pa dtAB b pb dtBC c pc) as (Tpre & _ & Tdep);
    try assumption;
    try (eapply edge_selected_In; [left; reflexivity | assumption]).
  fold B C in Tpre, Tdep.
  assert (Hdeps : get_rpath_deps pkg
                  = if transitive_rpaths pkg then [B; C] else [B]).
  { unfold get_rpath_deps. rewrite Hspec, Tpre, Tdep. reflexivity. }
  split; [exact Hdeps|].
  rewrite rpath_list_eq. unfold dedupe.
  rewrite In_dedupe_from, filter_In, in_app_iff, in_flat_map.
  assert (HC : In clib (dep_dirs pkg C)).
  { unfold dep_dirs, dep_link_dirs. apply in_or_app. right.
    simpl. fold clib. rewrite Hdir. now left. }
  assert (Ecb : (c =? b) = false) by now apply eqb_neq_sym.
  split.
  - intros [[[Ho|(dep & Hdep & Hin)] _] _]; [contradiction|].
    apply In_rpath_contribution in Hin. destruct Hin as (_ & Hin & Hd).
    unfold link_deps in Hdep. apply (proj1 (Hset _ _)) in Hdep.
    rewrite Hspec, Tpre in Hdep. rewrite Hdeps in Hin.
    simpl in Hdep. destruct Hdep as [Hdep|[Hdep|Hdep]];
      [subst dep; contradiction | subst dep | contradiction].
    destruct (transitive_rpaths pkg); [reflexivity|].
    simpl in Hin. unfold spec_eqb in Hin. simpl in Hin.
    rewrite Ecb in Hin. discriminate.
  - intros Ht. split; [|simpl; tauto]. split; [|now rewrite Hclib].
    right. exists C. split.
    + unfold link_deps. apply (proj2 (Hset _ _)).
      rewrite Hspec, Tpre. simpl. tauto.
    + apply In_rpath_contribution. split; [exact Hpc|]. split; [|exact HC].
      rewrite Hdeps, Ht. simpl. unfold spec_eqb. simpl.
      rewrite String.eqb_refl. apply orb_true_r.
Qed.

Variable build_env_path : string.
Variable spack_working_dir : string.
Variable config_debug : bool.
Variable config_ccache : bool.
Variable ccache_truth : bool.
Variable short_spec : Spec -> string.
Variable format_name_hash : Spec -> string.

Let written := fun pkg env dirty =>
  fst (set_build_environment_variables is_sys isdir py_set getitem
         libs_directories headers_directories build_env_path spack_working_dir
         config_debug config_ccache ccache_truth short_spec format_name_hash
         pkg env dirty).

(** C6: the rpath directory list starts with the [lib] and [lib64]
    directories under the prefix of the package, whether or not they
    exist on disk, and every directory after them comes from a link
    dependency.  The list goes through the system path filter as a
    whole, so the two directories are assumed to pass it. *)
Theorem own_rpath_dirs_first :
  forall (pkg : PackageBase) (env : ledger) (dirty : bool),
    let lib := os_path.join (prefix (spec pkg)) "lib" in
    let lib64 := os_path.join (prefix (spec pkg)) "lib64" in
    is_sys lib = false -> is_sys lib64 = false ->
    exists rest,
      rpath_list pkg = lib :: lib64 :: rest
      /\ (forall d, In d rest ->
          exists dep, In dep (link_deps py_set pkg) /\ In d (dep_dirs pkg dep))
      /\ In (SetEnv SPACK_RPATH_DIRS (String.concat ":" (lib :: lib64 :: rest)))
            (written pkg env dirty).
Proof.
  intros pkg env dirty lib lib64 Hlib Hlib64.
  pose proof (rpath_list_eq pkg) as E.
  unfold own_rpath_dirs in E. simpl in E. fold lib lib64 in E.
  rewrite Hlib, Hlib64 in E. simpl in E. unfold dedupe in E. simpl in E.
  assert (N : (lib64 =? lib) = false).
  { apply String.eqb_neq. intro H. symmetry in H.
    exact (join_lib_neq _ H). }
  rewrite N in E. simpl in E.
  eexists. split; [exact E|]. split.
  - intros d H. apply In_dedupe_from in H. destruct H as [H _].
    apply filter_In in H. destruct H as [H _].
    apply in_flat_map in H. destruct H as (dep & Hdep & H).
    apply In_rpath_contribution in H. exists dep. tauto.
  - rewrite <- E.
    destruct (written_prefix is_sys isdir py_set getitem libs_directories
                headers_directories build_env_path spack_working_dir
                config_debug config_ccache ccache_truth short_spec
                format_name_hash pkg env dirty) as [tail W].
    unfold written. rewrite W. apply in_or_app. right. apply in_or_app. left.
    simpl. tauto.
Qed.

End RpathFacts.

(** *** A sample installation *)

Example sample_rpath_dirs :
  rpath_dirs is_system_path sample_isdir sample_set sample_getitem sample_libs
    sample_headers (sample_app true)
  = ["/opt/a/lib"; "/opt/a/lib64"; "/opt/b/lib"; "/opt/shared/lib"; "/opt/c/lib"]
  /\ rpath_dirs is_system_path sample_isdir sample_set sample_getitem
       sample_libs sample_headers (sample_app false)
     = ["/opt/a/lib"; "/opt/a/lib64"; "/opt/b/lib"; "/opt/shared/lib"]
  /\ link_dirs is_system_path sample_isdir sample_set sample_getitem
       sample_libs sample_headers (sample_app false)
     = ["/opt/b/lib"; "/opt/shared/lib"; "/opt/c/lib"]
  /\ include_dirs is_system_path sample_isdir sample_set sample_getitem
       sample_libs sample_headers (sample_app false)
     = ["/opt/b/include"].
Proof. repeat split. Qed.

Lemma sample_diamond_names : names_identify [link] sample_diamond.
Proof.
  assert (Z : forall z, reachable [link] sample_zlib z -> False).
  { intros z H. apply reachable_inv in H.
    destruct H as (dt & c & [] & _). }
  assert (R : forall z, z = sample_diamond \/ reachable [link] sample_diamond z ->
                        In z [sample_diamond; sample_libpng; sample_zlib;
                              sample_libxml2]).
  { intros z [->|H]; [now left|].
    apply reachable_inv in H. destruct H as (dt & c & Hin & Hs & H).
    cbn [sample_diamond _dependencies In] in Hin.
    destruct Hin as [E|[E|[E|[]]]]; injection E as <- <-;
      try discriminate Hs.
    - destruct H as [->|H]; [cbn; tauto|].
      apply reachable_inv in H. destruct H as (dt & c & Hin & _ & H).
      cbn [sample_libpng _dependencies In] in Hin.
      destruct Hin as [E|[]]. injection E as <- <-.
      destruct H as [->|H]; [cbn; tauto | destruct (Z _ H)].
    - destruct H as [->|H]; [cbn; tauto|].
      apply reachable_inv in H. destruct H as (dt & c & Hin & _ & H).
      cbn [sample_libxml2 _dependencies In] in Hin.
      destruct Hin as [E|[]]. injection E as <- <-.
      destruct H as [->|H]; [cbn; tauto | destruct (Z _ H)]. }
  intros x y Hx Hy E. apply R in Hx. apply R in Hy.
  cbn [In] in Hx, Hy.
  destruct Hx as [<-|[<-|[<-|[<-|[]]]]];
    destruct Hy as [<-|[<-|[<-|[<-|[]]]]];
    try reflexivity; discriminate E.
Qed.

Lemma rpath_deps_policy_witness :
  get_rpath_deps (sample_app true) = [sample_B; sample_C]
  /\ In "/opt/c/lib"
        (rpath_dirs is_system_path sample_isdir sample_set sample_getitem
           sample_libs sample_headers (sample_app true))
  /\ In sample_zlib (get_rpath_deps (sample_diamond_pkg true))
  /\ (In sample_zlib (get_rpath_deps (sample_diamond_pkg false)) -> False).
Proof.
  destruct (rpath_deps_policy is_system_path sample_isdir sample_set
              sample_getitem sample_libs sample_headers) as [G Ch].
  destruct (Ch (sample_app true)
              "app" "/opt/a" [build; link] "libb" "/opt/b" [link] "libc" "/opt/c")
    as (Hdeps & Hin).
  - reflexivity.
  - simpl. tauto.
  - simpl. tauto.
  - discriminate.
  - discriminate.
  - discriminate.
  - intros l x. unfold sample_set. tauto.
  - reflexivity.
  - reflexivity.
  - reflexivity.
  - simpl. intros [H|[H|[]]]; discriminate H.
  - cbn. intros [H|[H|[H|[H|[]]]]]; discriminate H.
  - split; [exact Hdeps|]. split; [apply Hin; reflexivity|]. split.
    + destruct (G (sample_diamond_pkg true)) as [Gt _].
      destruct (Gt eq_refl) as [_ Gc].
      apply Gc; [exact sample_diamond_names|].
      eapply reachable_below with (dt := [link]) (c := sample_libpng);
        [cbn; tauto | reflexivity |].
      eapply reachable_edge with (dt := [build; link]);
        [cbn; tauto | reflexivity].
    + destruct (G (sample_diamond_pkg false)) as [_ Gf].
      intros H. apply (Gf eq_refl) in H. destruct H as (dt & Hin' & _).
      cbn in Hin'. destruct Hin' as [E|[E|[E|[]]]]; discriminate E.
Defined.

Lemma own_rpath_dirs_first_witness :
  exists rest,
    rpath_dirs is_system_path (fun _ => false) sample_set sample_getitem
      sample_libs sample_headers (sample_app true)
    = "/opt/a/lib" :: "/opt/a/lib64" :: rest.
Proof.
  destruct (own_rpath_dirs_first is_system_path (fun _ => false) sample_set
              sample_getitem sample_libs sample_headers "/spack/env" "/home"
              false false true name name (sample_app true) [] false
              eq_refl eq_refl) as (rest & H & _).
  exists rest. exact H.
Defined.

Lemma synthesized_dirs_deduplicated_witness :
  NoDup (link_dirs is_system_path sample_isdir sample_set sample_getitem
           sample_libs sample_headers (sample_app true))
  /\ In "/opt/shared/lib"
        (link_dirs is_system_path sample_isdir sample_set sample_getitem
           sample_libs sample_headers (sample_app true))
  /\ ~ In "/usr"
        (link_dirs is_system_path sample_isdir sample_set sample_getitem
           sample_libs sample_headers (sample_app true)).
Proof.
  destruct (synthesized_dirs_deduplicated is_system_path sample_isdir
              sample_set sample_getitem sample_libs sample_headers
              "/spack/env" "/home" false false true name name
              (sample_app true) [] false) as ((Hn & Hin & _) & _ & _ & _ & _ & _ & _ & Hsys).
  split; [exact Hn|]. split.
  - apply Hin. split; [|reflexivity]. cbn. tauto.
  - intros H. specialize (Hsys "/usr" (or_introl H)). discriminate Hsys.
Defined.

(** ** Composition of the dependency environments *)

Lemma apply_op_other (e : environ) (op : env_op) (x : string) :
  op_var op <> x -> apply_op e op x = e x.
Proof.
  intros H. apply eqb_neq_sym in H.
  destruct op; simpl in *; unfold environ_set; now rewrite H.
Qed.

Lemma apply_modifications_other (l : ledger) (e : environ) (x : string) :
  Forall (fun op => op_var op <> x) l -> apply_modifications l e x = e x.
Proof.
  unfold apply_modifications. revert e.
  induction l as [|op l IH]; intros e H; simpl; [reflexivity|].
  inversion H as [|? ? Hop Hl]; subst.
  rewrite IH by exact Hl. now apply apply_op_other.
Qed.

(** The last [Set] of a variable in a ledger decides its value. *)
Lemma apply_modifications_last_set (before after : ledger) (x v : string)
      (e : environ) :
  Forall (fun op => op_var op <> x) after ->
  apply_modifications (before ++ SetEnv x v :: after) e x = Some v.
Proof.
  intros H. unfold apply_modifications. rewrite fold_left_app. simpl.
  fold (apply_modifications after
          (environ_set (fold_left apply_op before e) x (Some v))).
  rewrite apply_modifications_other by exact H.
  unfold environ_set. now rewrite String.eqb_refl.
Qed.

Section ComposerFacts.

Variable setup_dependent_build_environment : Spec -> Spec -> ledger.
Variable setup_dependent_run_environment : Spec -> Spec -> ledger.




End ComposerFacts.



(** * Further properties of the build runner *)

Section ForkExtras.

Variable is_package_file : string -> bool.
Variable readlines : string -> option (list string).
Variable colorize : string -> string.
Variable cescape : string -> string.

Let run := fork is_package_file readlines colorize cescape.

Lemma fork_events_shape
      (setup_package : PackageBase -> bool -> string -> option raised)
      (pkg : PackageBase) (function : unit -> action_result)
      (dirty fake : bool) (context : string) (s : spawn) :
  exists rest,
    fst (run setup_package pkg function dirty fake context s)
    = opt_list (input_stream_open s) CloseInputStream ++ rest
    /\ ~ In CloseInputStream rest.
Proof.
  unfold run, fork.
  destruct (spawn_error s) as [e|].
  - exists []. destruct (issubclass (exc_type e) InstallError_name);
      cbn [fst]; rewrite app_nil_r; auto.
  - destruct (child_process is_package_file readlines colorize cescape
                setup_package pkg function dirty fake context) as [sent|].
    + destruct (dispatch pkg (pipe_transfer sent)) as [events result] eqn:D.
      exists ([Recv; Join] ++ events). split; [reflexivity|].
      unfold dispatch in D.
      destruct (isinstance_StopPhase (pipe_transfer sent)).
      * injection D as <- _. simpl. intuition discriminate.
      * destruct (if isinstance_InstallError (pipe_transfer sent)
                  then set_pkg (pipe_transfer sent) (name (spec pkg))
                  else pipe_transfer sent);
          injection D as <- _; simpl; intuition discriminate.
    + exists [Recv]. split; [reflexivity|]. simpl. intuition discriminate.
Qed.

(** The [finally] clause of the parent: the duplicate of standard input
    is closed exactly when it was opened, once, before anything is
    received, whether the spawn fails or not. *)
Theorem fork_closes_input_stream :
  forall (setup_package : PackageBase -> bool -> string -> option raised)
         (pkg : PackageBase) (function : unit -> action_result)
         (dirty fake : bool) (context : string) (s : spawn),
    let events := fst (run setup_package pkg function dirty fake context s) in
    (In CloseInputStream events
     <-> stdin_isatty s = true /\ dup_error s = None)
    /\ exists rest,
        events = (if stdin_isatty s
                  then match dup_error s with
                       | None => [CloseInputStream]
                       | Some _ => []
                       end
                  else []) ++ rest
        /\ ~ In CloseInputStream rest.
Proof.
  intros setup_package pkg function dirty fake context s events.
  destruct (fork_events_shape setup_package pkg function dirty fake context s)
    as (rest & E & Hrest).
  fold events in E. unfold input_stream_open in E. split.
  - rewrite E, in_app_iff.
    destruct (stdin_isatty s), (dup_error s); simpl; intuition discriminate.
  - exists rest. split; [|exact Hrest]. rewrite E.
    destruct (stdin_isatty s), (dup_error s); reflexivity.
Qed.

(** A fake build never runs the package setup: the outcome of [fork]
    does not depend on what [setup_package] would do.  In a real build a
    setup that raises decides the outcome alone: the build action is not
    consulted. *)
Theorem fork_setup_and_fake :
  forall (pkg : PackageBase) (dirty : bool) (context : string) (s : spawn),
    (forall setup1 setup2 function,
        run setup1 pkg function dirty true context s
        = run setup2 pkg function dirty true context s)
    /\ (forall setup_package r function1 function2,
           setup_package pkg dirty context = Some r ->
           run setup_package pkg function1 dirty false context s
           = run setup_package pkg function2 dirty false context s).
Proof.
  intros pkg dirty context s. split.
  - intros setup1 setup2 function. unfold run, fork, child_process, try_body.
    reflexivity.
  - intros setup_package r function1 function2 H.
    unfold run, fork, child_process, try_body. simpl. rewrite H. reflexivity.
Qed.

End ForkExtras.

Lemma fork_setup_and_fake_witness :
  fork (fun _ => false) (fun _ => Some []) id id
       (fun _ _ _ => match sample_raise tt with Raises r => Some r | _ => None end)
       sample_pkg (fun _ => Returns (VOther "done")) false false "build"
       plain_spawn
  = fork (fun _ => false) (fun _ => Some []) id id
         (fun _ _ _ => match sample_raise tt with Raises r => Some r | _ => None end)
         sample_pkg sample_raise false false "build" plain_spawn.
Proof.
  destruct (fork_setup_and_fake (fun _ => false) (fun _ => Some []) id id
              sample_pkg false "build" plain_spawn) as [_ H].
  eapply H. reflexivity.
Defined.

(** What [fork] raises names the package: a [ChildError] that leaves
    [fork] has been printed and carries the package in its [pkg]
    attribute; an [InstallError] object that [fork] returns carries it
    too; a [StopPhase] that leaves [fork] was rebuilt from its message
    and long message only and carries no package. *)
Theorem fork_tags_package :
  forall (is_package_file : string -> bool) (readlines : string -> option (list string))
         (colorize cescape : string -> string)
         (setup_package : PackageBase -> bool -> string -> option raised)
         (pkg : PackageBase) (function : unit -> action_result)
         (dirty fake : bool) (context : string) (s : spawn)
         (events : list parent_event) (result : outcome),
    fork is_package_file readlines colorize cescape setup_package pkg function
         dirty fake context s = (events, result) ->
    match result with
    | RaisedResult (VChildError ce) =>
        ce_pkg ce = Some (name (spec pkg)) /\ In (PrintContext ce) events
    | RaisedResult (VStopPhase sp) =>
        sp_pkg sp = None /\ forall ce, ~ In (PrintContext ce) events
    | RaisedResult _ => False
    | Returned (VInstallError e) => exc_pkg e = Some (name (spec pkg))
    | Returned (VStopPhase _) | Returned (VChildError _) => False
    | Returned (VOther _) => forall ce, ~ In (PrintContext ce) events
    | RaisedSpawnError _ | RaisedEOFError => events = opt_list (input_stream_open s) CloseInputStream
                                            \/ events = opt_list (input_stream_open s) CloseInputStream ++ [Recv]
    end.
Proof.
  intros is_package_file readlines colorize cescape setup_package pkg function
         dirty fake context s events result H.
  unfold fork in H.
  destruct (spawn_error s) as [e|].
  - destruct (issubclass (exc_type e) InstallError_name);
      injection H as <- <-; now left.
  - destruct (child_process is_package_file readlines colorize cescape
                setup_package pkg function dirty fake context) as [sent|].
    + destruct sent as [sp|ce|e|d]; cbn in H; injection H as <- <-.
      * split; [reflexivity|]. intros ce.
        rewrite in_app_iff. unfold opt_list.
        destruct (input_stream_open s); simpl; intuition discriminate.
      * split; [reflexivity|]. apply in_or_app. right. simpl. auto.
      * reflexivity.
      * intros ce. rewrite in_app_iff. unfold opt_list.
        destruct (input_stream_open s); simpl; intuition discriminate.
    + injection H as <- <-. now right.
Qed.

Lemma fork_tags_package_witness :
  exists ce,
    snd (fork (fun _ => false) (fun _ => Some []) id id (fun _ _ _ => None)
           sample_pkg sample_raise false false "build" plain_spawn)
    = RaisedResult (VChildError ce)
    /\ ce_pkg ce = Some "zlib".
Proof.
  pose proof (fork_tags_package (fun _ => false) (fun _ => Some []) id id
                (fun _ _ _ => None) sample_pkg sample_raise false false "build"
                plain_spawn _ _ eq_refl) as H.
  cbn in H. eexists. split; [reflexivity|]. exact (proj1 H).
Defined.

(** ** The error built in the child *)

(** The [ChildError] built by the handler of the child records the build
    log only in the build context and the test log only in the test
    context, never both; the failure of a user test ([TestFailure]
    itself, not a subclass) gets no source context. *)
Theorem child_error_logs_by_context :
  forall (is_package_file : string -> bool) (readlines : string -> option (list string))
         (colorize cescape : string -> string)
         (pkg : PackageBase) (context : string) (r : raised) (ce : ChildError),
    wrap_exception is_package_file readlines colorize cescape pkg context r
    = Some ce ->
    (forall log, ce_build_log ce = Some log ->
                 context = "build" /\ log_path pkg = Some log)
    /\ (forall log, ce_test_log ce = Some log ->
                    context = "test"
                    /\ exists stage,
                         test_suite_stage pkg = Some stage
                         /\ log = os_path.join stage (test_log_name pkg))
    /\ (ce_build_log ce = None \/ ce_test_log ce = None)
    /\ (cls_module (exc_type (r_exc r)) = "spack.install_test" ->
        cls_name (exc_type (r_exc r)) = "TestFailure" ->
        ce_context ce = []).
Proof.
  intros is_package_file readlines colorize cescape pkg context r ce H.
  assert (F : ce_build_log ce
              = (if context =? "build" then log_path pkg else None)
              /\ handler_test_log pkg context = Some (ce_test_log ce)
              /\ (class_is (exc_type (r_exc r)) TestFailure_name = true ->
                  ce_context ce = [])).
  { unfold wrap_exception in H.
    destruct (class_is (exc_type (r_exc r)) TestFailure_name); cbn [negb] in H;
      [|destruct (get_package_context is_package_file readlines colorize
                    cescape (r_tb_first r :: r_tb_rest r) 3) as [lines|];
        [|discriminate]];
      (destruct (handler_test_log pkg context) as [test_log|];
       [|discriminate]);
      (destruct (exc_str (r_exc r)) as [text|]; [|discriminate]);
      injection H as <-; cbn; repeat split; auto; discriminate. }
  destruct F as (Fb & Ft & Fc). rewrite Fb.
  unfold handler_test_log in Ft.
  assert (Cls : cls_module (exc_type (r_exc r)) = "spack.install_test" ->
                cls_name (exc_type (r_exc r)) = "TestFailure" ->
                ce_context ce = []).
  { intros Hm Hn. apply Fc. unfold class_is, qualname_eqb. simpl.
    now rewrite Hm, Hn. }
  destruct (context =? "build") eqn:Eb; destruct (context =? "test") eqn:Et;
    try apply String.eqb_eq in Eb; try apply String.eqb_eq in Et.
  - subst context. discriminate Et.
  - injection Ft as Ft. rewrite <- Ft.
    split; [|split; [|split]]; auto; discriminate.
  - destruct (test_suite_stage pkg) as [stage|]; [|discriminate].
    injection Ft as Ft. rewrite <- Ft.
    split; [|split; [|split]]; auto; try discriminate.
    intros log Hl. injection Hl as <-. split; [exact Et|].
    exists stage. split; reflexivity.
  - injection Ft as Ft. rewrite <- Ft.
    split; [|split; [|split]]; auto; discriminate.
Qed.

Lemma child_error_logs_by_context_witness :
  exists ce,
    wrap_exception (fun _ => true) (fun _ => Some []) id id sample_pkg "build"
      sample_raised = Some ce
    /\ ce_build_log ce = Some "/stage/spack-build-out.txt"
    /\ ce_test_log ce = None.
Proof.
  eexists. split; [reflexivity|]. split; [reflexivity|].
  destruct (child_error_logs_by_context (fun _ => true) (fun _ => Some []) id id
              sample_pkg "build" sample_raised _ eq_refl)
    as (_ & _ & [H|H] & _).
  - discriminate H.
  - exact H.
Defined.

(** ** The frame shown as context *)

Section ContextExtras.

Variable is_package_file : string -> bool.
Variable readlines : string -> option (list string).
Variable colorize : string -> string.
Variable cescape : string -> string.

Lemma scan_frames_none_match (cur : option frame) (l : list frame) :
  Forall (fun f => in_package_code f = false) l ->
  scan_frames cur l = match rev l with [] => cur | f :: _ => Some f end.
Proof.
  revert cur. induction l as [|a l IH]; intros cur H; simpl; [reflexivity|].
  inversion H as [|? ? Ha Hl]; subst. rewrite Ha, IH by exact Hl.
  destruct (rev l) as [|f t]; reflexivity.
Qed.

Lemma scan_frames_first_match (cur : option frame) (l1 : list frame)
      (f : frame) (l2 : list frame) :
  Forall (fun g => in_package_code g = false) l1 ->
  in_package_code f = true ->
  scan_frames cur (l1 ++ f :: l2) = Some f.
Proof.
  revert cur. induction l1 as [|a l1 IH]; intros cur H Hf; simpl.
  - now rewrite Hf.
  - inversion H as [|? ? Ha Hl]; subst. rewrite Ha. now apply IH.
Qed.

Lemma get_package_context_of_frame (traceback : list frame) (context : Z)
      (f : frame) :
  scan_frames None (rev traceback) = Some f ->
  match readlines (filename f) with
  | Some _ =>
      exists marked,
        get_package_context is_package_file readlines colorize cescape
          traceback context = Some (context_head is_package_file f :: marked)
        /\ (0 <= context -> 1 <= lineno f ->
            Z.of_nat (List.length marked) <= 2 * context + 2)%Z
  | None =>
      get_package_context is_package_file readlines colorize cescape
        traceback context = None
  end.
Proof.
  intros H. unfold get_package_context. rewrite H.
  destruct (readlines (filename f)) as [sourcelines|]; [|reflexivity].
  eexists. split; [reflexivity|].
  intros Hc Hl.
  assert (M : forall adjust start ln i l,
             List.length (mark_lines colorize cescape adjust start ln i l)
             = List.length l).
  { intros adjust start ln i l. revert i.
    induction l as [|x l IH]; intros i; simpl; [reflexivity|].
    now rewrite IH. }
  rewrite M. unfold slice. rewrite length_firstn.
  unfold norm_index.
  destruct (is_package_file (filename f));
    repeat match goal with
           | |- context [(?a <? ?b)%Z] => destruct (Z.ltb_spec a b)
           end; lia.
Qed.

(** The context starts with the location of the deepest frame of package
    code that is not a test helper, or of the outermost frame when the
    traceback has no such frame; for a frame with a line number and a
    non-negative [context] at most [2 * context + 2] source lines
    follow.  This is so whenever the file of that frame can be read; when
    it cannot, there is no context at all: the error of [open] leaves
    [get_package_context]. *)
Theorem context_frame_choice :
  forall (outer : list frame) (f : frame) (inner : list frame) (context : Z),
    Forall (fun g => in_package_code g = false) inner ->
    (0 <= context)%Z ->
    (forall g, In g (outer ++ f :: inner) -> (1 <= lineno g)%Z) ->
    let shown :=
      if in_package_code f then f
      else if forallb (fun g => negb (in_package_code g)) outer
           then hd f outer else f in
    in_package_code f = true
    \/ forallb (fun g => negb (in_package_code g)) outer = true ->
    match readlines (filename shown) with
    | Some _ =>
        exists marked,
          get_package_context is_package_file readlines colorize cescape
            (outer ++ f :: inner) context
          = Some (context_head is_package_file shown :: marked)
          /\ (Z.of_nat (List.length marked) <= 2 * context + 2)%Z
    | None =>
        get_package_context is_package_file readlines colorize cescape
          (outer ++ f :: inner) context = None
    end.
Proof.
  intros outer f inner context Hinner Hc Hl shown Hcase.
  assert (S : scan_frames None (rev (outer ++ f :: inner)) = Some shown).
  { unfold shown. destruct (in_package_code f) eqn:Hf.
    - rewrite rev_app_distr. simpl. rewrite <- app_assoc. simpl.
      apply scan_frames_first_match; [|exact Hf].
      apply Forall_rev. exact Hinner.
    - destruct Hcase as [Hcase|Hcase]; [discriminate|]. rewrite Hcase.
      rewrite scan_frames_none_match.
      + rewrite rev_involutive. destruct outer; reflexivity.
      + apply Forall_rev. apply Forall_app. split.
        * apply Forall_forall. intros g Hg.
          rewrite forallb_forall in Hcase. specialize (Hcase g Hg).
          now apply negb_true_iff in Hcase.
        * constructor; assumption. }
  pose proof (get_package_context_of_frame _ context _ S) as G.
  destruct (readlines (filename shown)) as [sourcelines|]; [|exact G].
  destruct G as (marked & E & B).
  exists marked. split; [exact E|]. apply B; [exact Hc|].
  apply Hl. unfold shown.
  destruct (in_package_code f); [apply in_or_app; right; now left|].
  destruct (forallb _ outer); [|apply in_or_app; right; now left].
  destruct outer; simpl; [now left | now left].
Qed.

End ContextExtras.

Lemma context_frame_choice_witness :
  exists marked,
    get_package_context (fun _ => true) (fun _ => Some ["a"; "b"]) id id
      (r_tb_first sample_raised :: r_tb_rest sample_raised) 3
    = Some ("/repo/packages/zlib/package.py:39, in install:" :: marked)
    /\ (Z.of_nat (List.length marked) <= 8)%Z.
Proof.
  refine (context_frame_choice (fun _ => true) (fun _ => Some ["a"; "b"]) id id
            [r_tb_first sample_raised]
            {| filename := "/repo/packages/zlib/package.py";
               lineno := 40; function := "install"; text := "make()" |}
            [ {| filename := "lib/spack/spack/util/executable.py";
                 lineno := 200; function := "__call__";
                 text := "raise ProcessError(...)" |} ] 3 _ _ _ _).
  - repeat constructor.
  - lia.
  - intros g [<-|[<-|[<-|[]]]]; simpl; lia.
  - now left.
Defined.

(** * Further properties of the library conversion *)

(** An architecture that is neither Linux, Cray nor Darwin is not
    refused: the symlinks are made as on any platform and the compiler
    is then run with the caller's arguments and [-o] only, without a
    linking flag and without the static library.  What that run does,
    an error of the compiler included, is outside this statement. *)
Theorem static_to_shared_other_platform :
  forall (sys_platform arch static_lib : string) (shared_lib : pystr)
         (kw : static_to_shared_kwargs),
    str_in "linux" arch = false -> str_in "cray" arch = false ->
    str_in "darwin" arch = false ->
    exists artifact,
      _static_to_shared_library sys_platform arch static_lib shared_lib kw
      = symlinks sys_platform static_lib shared_lib kw
        ++ [RunCompiler (kw_arguments kw ++ ["-o"; artifact])
                        (kw_compiler_output kw)]
      /\ exists suffix,
          artifact
          = (if truthy shared_lib then fmt shared_lib
             else fst (os_path.splitext static_lib) +++ "."
                  +++ dso_suffix sys_platform) +++ suffix.
Proof.
  intros sys_platform arch static_lib shared_lib kw Hl Hc Hd.
  eexists. split.
  - unfold _static_to_shared_library. rewrite compiler_args_shape.
    unfold platform_args. rewrite Hl, Hc, Hd. reflexivity.
  - unfold versioned_lib, shared_lib_base.
    destruct (truthy (kw_version kw)); [eexists; reflexivity|].
    destruct (truthy (kwargs_compat_version kw)); [eexists; reflexivity|].
    exists "". clear. generalize (if truthy shared_lib then fmt shared_lib
             else fst (os_path.splitext static_lib) +++ "."
                  +++ dso_suffix sys_platform).
    intros s. induction s as [|a s IH]; simpl; [reflexivity|]. now rewrite <- IH.
Qed.

Lemma static_to_shared_other_platform_witness :
  exists artifact,
    _static_to_shared_library "linux" "bgq-cnk-ppc64" "/p/libfoo.a" None
      {| kw_compiler_output := None; kw_arguments := ["-lm"];
         kw_version := None; kw_compat_version := None |}
    = [RunCompiler (["-lm"] ++ ["-o"; artifact]) None].
Proof.
  destruct (static_to_shared_other_platform "linux" "bgq-cnk-ppc64"
              "/p/libfoo.a" None
              {| kw_compiler_output := None; kw_arguments := ["-lm"];
                 kw_version := None; kw_compat_version := None |}
              eq_refl eq_refl eq_refl) as (artifact & H & _).
  exists artifact. exact H.
Defined.

(** With a version and no [compat_version] keyword the compatibility
    version is the version: one symlink is made, from the unversioned
    name to the versioned file; on Linux and Cray the soname carries the
    version, on Darwin the compiler gets the version both as
    compatibility and as current version. *)
Theorem static_to_shared_version_only :
  forall (sys_platform arch static_lib : string) (shared_lib : pystr)
         (output : pystr) (arguments : list string) (v : string),
    v <> "" ->
    let kw := {| kw_compiler_output := output; kw_arguments := arguments;
                 kw_version := Some v; kw_compat_version := None |} in
    let base := shared_lib_base sys_platform static_lib shared_lib in
    exists platform,
      _static_to_shared_library sys_platform arch static_lib shared_lib kw
      = [ Symlink (os_path.basename (base +++ "." +++ v)) base;
          RunCompiler (platform ++ arguments ++ ["-o"; base +++ "." +++ v])
                      output ]
      /\ (str_in "linux" arch = true \/ str_in "cray" arch = true ->
          platform = [ "-shared";
                       "-Wl,-soname," +++ os_path.basename base +++ "." +++ v;
                       "-Wl,--whole-archive"; static_lib;
                       "-Wl,--no-whole-archive" ])
      /\ (str_in "linux" arch = false -> str_in "cray" arch = false ->
          str_in "darwin" arch = true ->
          platform = [ "-dynamiclib"; "-install_name"; base +++ "." +++ v;
                       "-Wl,-force_load," +++ static_lib;
                       "-compatibility_version"; v; "-current_version"; v ]).
Proof.
  intros sys_platform arch static_lib shared_lib output arguments v Hv kw base.
  assert (T : truthy (Some v) = true).
  { simpl. apply negb_true_iff. now apply String.eqb_neq. }
  exists (platform_args arch static_lib base (Some v) (Some v)).
  split; [|split].
  - unfold _static_to_shared_library, symlinks.
    rewrite compiler_args_shape. fold base.
    unfold kw, kwargs_compat_version. cbn [kw_version kw_compat_version
      kw_arguments kw_compiler_output].
    unfold versioned_lib. rewrite T. cbn [fmt orb opt_list].
    replace (pystr_eqb (Some v) (Some v)) with true
      by (symmetry; now apply pystr_eqb_eq).
    reflexivity.
  - intros H. unfold platform_args.
    replace (str_in "linux" arch || str_in "cray" arch) with true
      by (destruct H as [-> | ->]; [reflexivity | now rewrite orb_true_r]).
    rewrite T. reflexivity.
  - intros Hl Hc Hd. unfold platform_args. rewrite Hl, Hc, Hd, T. reflexivity.
Qed.

Lemma static_to_shared_version_only_witness :
  exists platform,
    _static_to_shared_library "linux" "linux-rhel7-x86_64" "/p/libfoo.a" None
      {| kw_compiler_output := None; kw_arguments := [];
         kw_version := Some "2"; kw_compat_version := None |}
    = [ Symlink "libfoo.so.2" "/p/libfoo.so";
        RunCompiler (platform ++ [] ++ ["-o"; "/p/libfoo.so.2"]) None ].
Proof.
  destruct (static_to_shared_version_only "linux" "linux-rhel7-x86_64"
              "/p/libfoo.a" None None [] "2") as (platform & H & _).
  - discriminate.
  - exists platform. exact H.
Defined.

(** * Further properties of the error report *)

Section ReportExtras.

Variable event : Type.
Variable parse_log_events : string -> list event * list event.
Variable make_log_context : list event -> string.
Variable plural : nat -> string -> string.
Variable path_exists : string -> bool.

(** With [last = k] for a positive [k], [write_log_summary] shows the
    final [min k n] of the [n] errors, or of the [n] warnings when there
    is no error, and announces that many. *)
Theorem write_log_summary_last :
  forall (log_type log : string) (k : nat),
    k <> 0 ->
    let errors := fst (parse_log_events log) in
    let warnings := snd (parse_log_events log) in
    let shown := if (0 <? List.length errors)%nat then errors else warnings in
    let noun := if (0 <? List.length errors)%nat then "error" else "warning" in
    let n := Nat.min k (List.length shown) in
    shown <> [] ->
    write_log_summary parse_log_events log_type log (Some k)
    = [ LogHeader n noun log_type;
        LogContext (skipn (List.length shown - n) shown) ].
Proof.
  intros log_type log k Hk errors warnings shown noun n Hshown.
  assert (C : forall evs : list event,
             clip (Some k) evs
             = (skipn (List.length evs - Nat.min k (List.length evs)) evs,
                Nat.min k (List.length evs))).
  { intros evs. unfold clip.
    replace (negb (k =? 0)%nat) with true
      by (symmetry; apply negb_true_iff; now apply Nat.eqb_neq).
    simpl. destruct (k <? List.length evs)%nat eqn:E.
    - apply Nat.ltb_lt in E. unfold last_n.
      rewrite Nat.min_l by lia. reflexivity.
    - apply Nat.ltb_ge in E. rewrite Nat.min_r by lia.
      rewrite Nat.sub_diag. reflexivity. }
  unfold write_log_summary. unfold n, noun, shown in *. clear n noun shown.
  unfold errors, warnings in *. clear errors warnings.
  destruct (parse_log_events log) as [errors warnings].
  cbn [fst snd] in *.
  destruct errors as [|e errors].
  - destruct warnings as [|w warnings]; [contradiction|].
    cbn -[clip Nat.min skipn Nat.sub]. rewrite C. reflexivity.
  - cbn -[clip Nat.min skipn Nat.sub]. rewrite C. reflexivity.
Qed.

(** Whatever the kind of the original failure, the long message ends by
    pointing at the build log when that file exists, and then at the
    test log when that file exists. *)
Theorem long_message_points_to_logs :
  forall (self : ChildError),
    let message := long_message parse_log_events make_log_context plural
                     path_exists self in
    let build_pointer :=
      "See build log for details:" +++ nl +++ "  "
      +++ fmt (ce_build_log self) +++ nl in
    let test_pointer :=
      "See test log for details:" +++ nl +++ "  "
      +++ fmt (ce_test_log self) +++ nl in
    exists front,
      message
      = front
        +++ (if log_available path_exists (ce_build_log self)
             then build_pointer else "")
        +++ (if log_available path_exists (ce_test_log self)
             then test_pointer else "").
Proof.
  intros self message build_pointer test_pointer.
  unfold message, long_message, long_message_pieces, getvalue.
  match goal with
  | |- context [if negb (?g =? "") then ?a ++ [Text nl] else ?a] =>
      generalize (if negb (g =? "") then a ++ [Text nl] else a)
  end.
  intros out. exists (String.concat "" (map (render make_log_context plural) out)).
  unfold build_pointer, test_pointer.
  destruct (log_available path_exists (ce_build_log self));
    destruct (log_available path_exists (ce_test_log self));
    repeat rewrite map_app; repeat rewrite concat_empty_app; simpl;
    repeat rewrite append_assoc; repeat rewrite append_empty_r;
    simpl; repeat rewrite append_assoc; reflexivity.
Qed.

End ReportExtras.

Lemma write_log_summary_last_witness :
  write_log_summary sample_parse_many "build" "/stage/spack-build-out.txt"
    (Some 2)
  = [LogHeader 2 "error" "build"; LogContext ["error 2"; "error 3"]].
Proof.
  refine (write_log_summary_last string sample_parse_many "build"
            "/stage/spack-build-out.txt" 2 _ _); discriminate.
Defined.

(** * Further properties of the synthesized environment *)

(** ** Path variables *)

Lemma split_colon_aux_append (cur x rest : string) :
  colon_free x = true ->
  split_colon_aux cur (x +++ rest) = split_colon_aux (cur +++ x) rest.
Proof.
  revert cur. induction x as [|a x IH]; intros cur H; simpl.
  - now rewrite append_empty_r.
  - simpl in H. apply andb_true_iff in H. destruct H as [Ha Hx].
    apply negb_true_iff in Ha. rewrite Ha. rewrite IH by exact Hx.
    now rewrite append_assoc.
Qed.

Lemma split_colon_aux_join (cur : string) (l : list string) :
  Forall (fun p => colon_free p = true) l ->
  l <> [] ->
  split_colon_aux cur (String.concat ":" l)
  = match l with
    | [] => [cur]
    | p :: l' => (cur +++ p) :: l'
    end.
Proof.
  revert cur. induction l as [|p l IH]; intros cur H Hne; [contradiction|].
  inversion H as [|? ? Hp Hl]; subst.
  destruct l as [|q l].
  - simpl. rewrite <- (append_empty_r p) at 1.
    rewrite split_colon_aux_append by exact Hp. reflexivity.
  - change (String.concat ":" (p :: q :: l))
      with (p +++ ":" +++ String.concat ":" (q :: l)).
    rewrite split_colon_aux_append by exact Hp.
    change (":" +++ String.concat ":" (q :: l))
      with (String ":"%char (String.concat ":" (q :: l))).
    simpl split_colon_aux at 1. rewrite IH by (auto; discriminate).
    reflexivity.
Qed.

Lemma split_colon_aux_colon_free (cur s : string) :
  colon_free cur = true ->
  Forall (fun p => colon_free p = true) (split_colon_aux cur s).
Proof.
  revert cur. induction s as [|a s IH]; intros cur H; simpl.
  - now constructor.
  - destruct (Ascii.eqb a ":"%char) eqn:E.
    + constructor; [exact H | now apply IH].
    + apply IH. clear IH. induction cur as [|c cur IHc]; simpl.
      * now rewrite E.
      * simpl in H. apply andb_true_iff in H. destruct H as [Hc Hcur].
        rewrite Hc. simpl. now apply IHc.
Qed.

Lemma path_elements_colon_free (v : option string) :
  Forall (fun p => colon_free p = true) (path_elements v).
Proof.
  destruct v as [s|]; simpl; [|constructor].
  destruct (s =? ""); [constructor|].
  now apply split_colon_aux_colon_free.
Qed.

(** Prepending a directory to a path variable puts it in front of the
    directories the variable held. *)
Lemma path_elements_prepend (e : environ) (var p : string) :
  colon_free p = true -> p <> "" ->
  path_elements (apply_op e (PrependPath var p) var)
  = p :: path_elements (e var).
Proof.
  intros Hc Hne. unfold apply_op, environ_set. rewrite String.eqb_refl.
  generalize (path_elements_colon_free (e var)).
  generalize (path_elements (e var)). intros l Hl.
  unfold path_elements.
  assert (N : (String.concat ":" (p :: l) =? "") = false).
  { apply String.eqb_neq. destruct p as [|a p]; [contradiction|].
    destruct l; simpl; discriminate. }
  rewrite N. rewrite split_colon_aux_join.
  - reflexivity.
  - constructor; [exact Hc | exact Hl].
  - discriminate.
Qed.

Lemma path_elements_prepend_all (var : string) (dirs : list string) (e : environ) :
  Forall (fun p => colon_free p = true /\ p <> "") dirs ->
  path_elements (apply_modifications (map (PrependPath var) dirs) e var)
  = rev dirs ++ path_elements (e var).
Proof.
  unfold apply_modifications. revert e.
  induction dirs as [|p dirs IH]; intros e H; simpl; [reflexivity|].
  inversion H as [|? ? [Hc Hne] Hd]; subst.
  rewrite IH by exact Hd. rewrite <- app_assoc. simpl.
  f_equal. now apply path_elements_prepend.
Qed.

Lemma apply_modifications_app (l1 l2 : ledger) (e : environ) :
  apply_modifications (l1 ++ l2) e
  = apply_modifications l2 (apply_modifications l1 e).
Proof. unfold apply_modifications. apply fold_left_app. Qed.

Section PathExtras.

Variable is_sys : string -> bool.
Variable isdir : string -> bool.
Variable py_set : list Spec -> list Spec.
Variable getitem : Spec -> string -> Spec.
Variable libs_directories : Spec -> option (list string).
Variable headers_directories : Spec -> option (list string).
Variable build_env_path : string.
Variable spack_working_dir : string.
Variable config_debug : bool.
Variable config_ccache : bool.
Variable ccache_truth : bool.
Variable short_spec : Spec -> string.
Variable format_name_hash : Spec -> string.

Let written := fun pkg env dirty =>
  fst (set_build_environment_variables is_sys isdir py_set getitem
         libs_directories headers_directories build_env_path spack_working_dir
         config_debug config_ccache ccache_truth short_spec format_name_hash
         pkg env dirty).

Lemma written_path_suffix (pkg : PackageBase) (env : ledger) (dirty : bool) :
  exists before after,
    written pkg env dirty
    = before ++ map (PrependPath "PATH") (env_paths isdir build_env_path pkg)
      ++ after
    /\ Forall (fun op => op_var op <> "PATH") after.
Proof.
  unfold written, set_build_environment_variables.
  assert (P : forall l, Forall (fun op => op_var op <> "PATH")
                          (map (PrependPath "PKG_CONFIG_PATH") l)).
  { intros l. apply Forall_forall. intros op H. apply in_map_iff in H.
    destruct H as (x & <- & _). discriminate. }
  match goal with
  | |- context [?x ++ map (PrependPath "PATH")
                        (env_paths isdir build_env_path pkg)] =>
      generalize x
  end.
  intros before.
  destruct config_debug, (config_ccache && negb ccache_truth), config_ccache;
    cbn [fst]; rewrite <- !app_assoc; exists before; eexists;
    (split; [reflexivity|]);
    repeat (apply Forall_app; split);
    repeat (constructor; try discriminate); try apply P.
Qed.

(** The directories of the compiler wrappers shadow everything else:
    once the ledger of [set_build_environment_variables] is applied,
    [PATH] starts with the wrapper directories, the last one added
    first, whatever the dependencies and the environment of the compiler
    contributed. *)
Theorem wrappers_first_in_path :
  forall (pkg : PackageBase) (env : ledger) (dirty : bool) (e : environ),
    Forall (fun p => colon_free p = true /\ p <> "")
           (env_paths isdir build_env_path pkg) ->
    exists rest,
      path_elements (apply_modifications (written pkg env dirty) e "PATH")
      = rev (env_paths isdir build_env_path pkg) ++ rest.
Proof.
  intros pkg env dirty e H.
  destruct (written_path_suffix pkg env dirty) as (before & after & W & Ha).
  rewrite W, !apply_modifications_app.
  rewrite apply_modifications_other by exact Ha.
  rewrite path_elements_prepend_all by exact H.
  eexists. reflexivity.
Qed.

End PathExtras.

Lemma wrappers_first_in_path_witness :
  exists rest,
    path_elements
      (apply_modifications
         (fst (set_build_environment_variables is_system_path sample_isdir
                 sample_set sample_getitem sample_libs sample_headers
                 "/spack/env" "/home" false false true name name
                 (sample_app true) [SetEnv "PATH" "/usr/bin:/bin"] false))
         (fun _ => None) "PATH")
    = ["/spack/env/gcc"; "/spack/env"] ++ rest.
Proof.
  refine (wrappers_first_in_path is_system_path sample_isdir sample_set
            sample_getitem sample_libs sample_headers "/spack/env" "/home"
            false false true name name (sample_app true)
            [SetEnv "PATH" "/usr/bin:/bin"] false (fun _ => None) _).
  repeat constructor; discriminate.
Defined.

(** * Properties of [MakeExecutable] *)

Lemma dict_get_In (d : kwargs) (key : string) (v : kwvalue) :
  dict_get d key = Some v -> In key (map fst d).
Proof.
  induction d as [|[k x] d IH]; simpl; [discriminate|].
  destruct (k =? key) eqn:E.
  - apply String.eqb_eq in E. auto.
  - auto.
Qed.

Lemma dict_get_remove_same (d : kwargs) (key : string) :
  NoDup (map fst d) -> dict_get (dict_remove d key) key = None.
Proof.
  induction d as [|[k x] d IH]; simpl; intros H; [reflexivity|].
  inversion H as [|? ? Hk Hd]; subst.
  destruct (k =? key) eqn:E.
  - apply String.eqb_eq in E. subst.
    destruct (dict_get d key) eqn:G; [|reflexivity].
    apply dict_get_In in G. contradiction.
  - simpl. rewrite E. now apply IH.
Qed.

Lemma dict_get_remove_other (d : kwargs) (key other : string) :
  key <> other -> dict_get (dict_remove d key) other = dict_get d other.
Proof.
  intros Hne. induction d as [|[k x] d IH]; simpl; [reflexivity|].
  destruct (k =? key) eqn:E.
  - apply String.eqb_eq in E. subst.
    destruct (key =? other) eqn:E2; [|reflexivity].
    apply String.eqb_eq in E2. contradiction.
  - simpl. destruct (k =? other); [reflexivity | exact IH].
Qed.

Lemma dict_get_set_same (d : kwargs) (key : string) (v : kwvalue) :
  dict_get (dict_set d key v) key = Some v.
Proof.
  induction d as [|[k x] d IH]; simpl.
  - now rewrite String.eqb_refl.
  - destruct (k =? key) eqn:E; simpl; rewrite E; [reflexivity | exact IH].
Qed.

Lemma dict_get_set_other (d : kwargs) (key other : string) (v : kwvalue) :
  key <> other -> dict_get (dict_set d key v) other = dict_get d other.
Proof.
  intros Hne. induction d as [|[k x] d IH]; simpl.
  - destruct (key =? other) eqn:E; [|reflexivity].
    apply String.eqb_eq in E. contradiction.
  - destruct (k =? key) eqn:E; simpl.
    + apply String.eqb_eq in E. subst.
      destruct (key =? other) eqn:E2; [|reflexivity].
      apply String.eqb_eq in E2. contradiction.
    + destruct (k =? other); [reflexivity | exact IH].
Qed.

Lemma NoDup_dict_remove (d : kwargs) (key : string) :
  NoDup (map fst d) -> NoDup (map fst (dict_remove d key)).
Proof.
  induction d as [|[k x] d IH]; simpl; intros H; [constructor|].
  inversion H as [|? ? Hk Hd]; subst.
  destruct (k =? key); [exact Hd|].
  simpl. constructor; [|now apply IH].
  intros Hin. apply Hk. clear -Hin.
  induction d as [|[k' x'] d IH]; simpl in *; [contradiction|].
  destruct (k' =? key); simpl in *; [now right|].
  destruct Hin as [->|Hin]; [now left | right; now apply IH].
Qed.

Lemma dict_remove_absent (d : kwargs) (key : string) :
  dict_get d key = None -> dict_remove d key = d.
Proof.
  induction d as [|[k x] d IH]; simpl; [reflexivity|].
  destruct (k =? key); [discriminate|]. intros H. now rewrite IH.
Qed.

Lemma dict_pop_eq (d : kwargs) (key : string) (default : kwvalue) :
  dict_pop d key default
  = (match dict_get d key with Some v => v | None => default end,
     dict_remove d key).
Proof.
  unfold dict_pop. destruct (dict_get d key) eqn:G; [reflexivity|].
  now rewrite dict_remove_absent.
Qed.

(** [make] runs in parallel only when it is allowed to: with
    [SPACK_NO_PARALLEL_MAKE] set the call goes to the superclass as it
    came, without [-j] and with its [parallel] and [jobs_env] keywords
    still in place.  Otherwise the [parallel] keyword is taken out and
    decides, the default being [jobs > 1]; a parallel call gets
    [-j<jobs>] as first argument, loses its [jobs_env] keyword and, for
    a named variable, gains [extra_env] binding that variable to the
    number of jobs; a call that is not parallel keeps [jobs_env]. *)
Theorem make_parallelism :
  forall (jobs : Z) (disable : bool) (args : list string) (kw : kwargs),
    NoDup (map fst kw) ->
    let parallel :=
      negb disable
      && match dict_get kw "parallel" with
         | Some v => kw_truthy v
         | None => (1 <? jobs)%Z
         end in
    let args' := fst (MakeExecutable_call jobs disable args kw) in
    let kw' := snd (MakeExecutable_call jobs disable args kw) in
    args' = (if parallel then ["-j" +++ format_d jobs] else []) ++ args
    /\ (disable = true -> kw' = kw)
    /\ (disable = false -> dict_get kw' "parallel" = None)
    /\ (parallel = true ->
        dict_get kw' "jobs_env" = None
        /\ forall name, dict_get kw "jobs_env" = Some (KStr name) ->
                        name <> "" ->
                        dict_get kw' "extra_env"
                        = Some (KDict [(name, format_d jobs)]))
    /\ (parallel = false -> dict_get kw' "jobs_env" = dict_get kw "jobs_env").
Proof.
  intros jobs disable args kw Hnd parallel args' kw'.
  unfold args', kw', parallel, MakeExecutable_call. clear args' kw' parallel.
  rewrite !dict_pop_eq.
  destruct disable; cbn [negb andb fst snd].
  - repeat split; try discriminate; auto.
  - set (p := kw_truthy match dict_get kw "parallel" with
                        | Some v => v
                        | None => KBool (1 <? jobs)%Z
                        end).
    assert (Ep : match dict_get kw "parallel" with
                 | Some v => kw_truthy v
                 | None => (1 <? jobs)%Z
                 end = p)
      by (unfold p; destruct (dict_get kw "parallel"); reflexivity).
    rewrite Ep. clear Ep.
    assert (Hr : NoDup (map fst (dict_remove kw "parallel")))
      by now apply NoDup_dict_remove.
    assert (Gj : dict_get (dict_remove kw "parallel") "jobs_env"
                 = dict_get kw "jobs_env")
      by (apply dict_get_remove_other; discriminate).
    destruct p; cbn [fst snd].
    + rewrite dict_pop_eq, Gj.
      set (kw2 := dict_remove (dict_remove kw "parallel") "jobs_env").
      assert (G2p : dict_get kw2 "parallel" = None).
      { unfold kw2. rewrite dict_get_remove_other by discriminate.
        now apply dict_get_remove_same. }
      assert (G2j : dict_get kw2 "jobs_env" = None)
        by (unfold kw2; now apply dict_get_remove_same).
      destruct (dict_get kw "jobs_env") as [[|b|s|items]|] eqn:Ej;
        cbn [fst snd];
        try (split; [reflexivity|]; split; [discriminate|];
             split; [intros _; exact G2p|];
             split; [intros _; split; [exact G2j | intros; discriminate]
                    | discriminate]).
      destruct (kw_truthy (KStr s)) eqn:Es; cbn [fst snd].
      * split; [reflexivity|]. split; [discriminate|].
        split; [intros _; now rewrite dict_get_set_other by discriminate|].
        split; [|discriminate]. intros _.
        split; [now rewrite dict_get_set_other by discriminate|].
        intros name Hn _. injection Hn as <-. apply dict_get_set_same.
      * split; [reflexivity|]. split; [discriminate|].
        split; [intros _; exact G2p|].
        split; [|discriminate]. intros _. split; [exact G2j|].
        intros name Hn Hne. injection Hn as <-.
        simpl in Es. apply negb_false_iff, String.eqb_eq in Es. contradiction.
    + split; [reflexivity|]. split; [discriminate|].
      split; [intros _; now apply dict_get_remove_same|].
      split; [discriminate|]. intros _. exact Gj.
Qed.

Lemma make_parallelism_witness :
  fst (MakeExecutable_call 8 false ["install"] [("jobs_env", KStr "NJOBS")])
  = ["-j8"; "install"]
  /\ dict_get (snd (MakeExecutable_call 8 false ["install"]
                      [("jobs_env", KStr "NJOBS")])) "extra_env"
     = Some (KDict [("NJOBS", "8")]).
Proof.
  destruct (make_parallelism 8 false ["install"] [("jobs_env", KStr "NJOBS")])
    as (Ha & _ & _ & Hp & _).
  - repeat constructor. simpl. tauto.
  - split; [exact Ha|].
    destruct (Hp eq_refl) as [_ He]. apply (He "NJOBS"); [reflexivity|].
    discriminate.
Defined.

(** * Properties of [clean_environment] *)

(** A variable that a ledger unsets, and does nothing else to, is
    absent once the ledger is applied. *)
Lemma apply_modifications_unset (l : ledger) (v : string) (e : environ) :
  Forall (fun op => op_var op = v -> op = UnsetEnv v) l ->
  In (UnsetEnv v) l ->
  apply_modifications l e v = None.
Proof.
  revert e. induction l as [|op l IH] using rev_ind; intros e Hall Hin;
    [contradiction|].
  apply Forall_app in Hall. destruct Hall as [Hl Hop].
  inversion Hop as [|? ? Hop' _]; subst.
  rewrite apply_modifications_app. unfold apply_modifications at 1. simpl.
  destruct (string_dec (op_var op) v) as [E|E].
  - rewrite (Hop' E). simpl. unfold environ_set. now rewrite String.eqb_refl.
  - rewrite apply_op_other by exact E.
    apply IH; [exact Hl|].
    apply in_app_or in Hin. destruct Hin as [Hin|Hin]; [exact Hin|].
    simpl in Hin. destruct Hin as [Hin|[]]. subst op.
    exfalso. apply E. reflexivity.
Qed.

Lemma cleaned_vars_not_special (v : string) :
  In v (library_path_vars ++ build_system_vars ++ mpi_vars) ->
  v <> "LC_ALL" /\ v <> "PATH".
Proof.
  intros H. split; intros ->; simpl in H;
    repeat (destruct H as [H|H]; [discriminate H|]); exact H.
Qed.

Lemma pkgconf_not_special (k : string) :
  str_in "PKGCONF" k = true ->
  k <> "LC_ALL" /\ k <> "PATH" /\ k <> "CRAY_LD_LIBRARY_PATH".
Proof. intros H. repeat split; intros ->; discriminate H. Qed.

(** The operations of the ledger of [clean_environment]. *)
Lemma clean_ledger_In (platform os : string) (keys : list string)
      (lang : pystr) (path : list string) (op : env_op) :
  In op (clean_environment_ledger platform os keys lang path)
  <-> (exists v,
          op = UnsetEnv v
          /\ (In v (library_path_vars ++ build_system_vars ++ mpi_vars)
              \/ ((platform =? "cray") && negb (using_cnl os) = true
                  /\ (v = "CRAY_LD_LIBRARY_PATH"
                      \/ (In v keys /\ str_in "PKGCONF" v = true)))))
      \/ (truthy lang = true /\ op = SetEnv "LC_ALL" (fmt lang))
      \/ (exists p, op = RemovePath "PATH" p /\ In p path
                    /\ str_in "/macports/" p = true).
Proof.
  unfold clean_environment_ledger. rewrite !in_app_iff.
  split.
  - intros [H|[H|[H|[H|[H|H]]]]].
    + apply in_map_iff in H. destruct H as (x & <- & Hx).
      left. exists x. split; [reflexivity|]. left.
      apply in_or_app. now left.
    + destruct ((platform =? "cray") && negb (using_cnl os)); [|contradiction].
      destruct H as [<-|H].
      * left. exists "CRAY_LD_LIBRARY_PATH". split; [reflexivity|].
        right. split; [reflexivity|]. now left.
      * apply in_map_iff in H. destruct H as (x & <- & Hx).
        apply filter_In in Hx. left. exists x. split; [reflexivity|].
        right. split; [reflexivity|]. now right.
    + apply in_map_iff in H. destruct H as (x & <- & Hx).
      left. exists x. split; [reflexivity|]. left.
      apply in_or_app. right. apply in_or_app. now left.
    + apply in_map_iff in H. destruct H as (x & <- & Hx).
      left. exists x. split; [reflexivity|]. left.
      apply in_or_app. right. apply in_or_app. now right.
    + destruct (truthy lang); [|contradiction].
      destruct H as [<-|[]]. right. left. now split.
    + apply in_map_iff in H. destruct H as (x & <- & Hx).
      apply filter_In in Hx. right. right. exists x. tauto.
  - intros [(v & -> & [H|[C H]])|[[T ->]|(q & -> & Hq & Hm)]].
    + apply in_app_or in H. destruct H as [H|H].
      * left. now apply in_map.
      * apply in_app_or in H. destruct H as [H|H].
        -- right. right. left. now apply in_map.
        -- right. right. right. left. now apply in_map.
    + right. left. rewrite C. destruct H as [->|[Hk Hp]]; [now left|].
      right. apply in_map. apply filter_In. now split.
    + right. right. right. right. left. rewrite T. now left.
    + right. right. right. right. right. apply in_map.
      apply filter_In. now split.
Qed.

(** No variable that the ledger unsets is [LC_ALL] or [PATH]. *)
Lemma clean_ledger_unset_var (platform os : string) (keys : list string)
      (lang : pystr) (path : list string) (v : string) :
  In (UnsetEnv v) (clean_environment_ledger platform os keys lang path) ->
  v <> "LC_ALL" /\ v <> "PATH".
Proof.
  intros H. apply clean_ledger_In in H.
  destruct H as [(w & E & [H|[_ [H|[_ H]]]])|[[_ E]|(q & E & _)]];
    try discriminate E; injection E as <-.
  - now apply cleaned_vars_not_special.
  - subst v. split; discriminate.
  - apply pkgconf_not_special in H. tauto.
Qed.

Lemma clean_environment_unset (platform os : string) (keys : list string)
      (lang : pystr) (path : list string) (e : environ) (v : string) :
  In (UnsetEnv v) (clean_environment_ledger platform os keys lang path) ->
  clean_environment platform os keys lang path e v = None.
Proof.
  intros Hin. unfold clean_environment.
  destruct (clean_ledger_unset_var _ _ _ _ _ _ Hin) as [Hl Hp].
  apply apply_modifications_unset; [|exact Hin].
  apply Forall_forall. intros op Hop Hv. apply clean_ledger_In in Hop.
  destruct Hop as [(w & -> & _)|[[_ ->]|(q & -> & _)]]; simpl in Hv.
  - now subst.
  - congruence.
  - congruence.
Qed.

(** [clean_environment] leaves none of the library path, build system
    and MPI variables set.  On a Cray that does not run CNL it also
    removes [CRAY_LD_LIBRARY_PATH] and every variable whose name contains
    [PKGCONF]; on any other host these, like every variable outside the
    fixed lists other than [LC_ALL] and [PATH], keep their value.
    [LC_ALL] becomes the configured build language, or is left alone
    when none is configured; [PATH] only loses directories, and only
    directories that contain [/macports/]. *)
Theorem clean_environment_effect :
  forall (platform os : string) (keys : list string) (lang : pystr)
         (path : list string) (e : environ),
    let e' := clean_environment platform os keys lang path e in
    let cleaned := library_path_vars ++ build_system_vars ++ mpi_vars in
    (forall v, In v cleaned -> e' v = None)
    /\ (platform = "cray" -> using_cnl os = false ->
        e' "CRAY_LD_LIBRARY_PATH" = None
        /\ forall k, In k keys -> str_in "PKGCONF" k = true -> e' k = None)
    /\ (platform <> "cray" \/ using_cnl os = true ->
        forall k, ~ In k cleaned -> k <> "LC_ALL" -> k <> "PATH" ->
                  e' k = e k)
    /\ e' "LC_ALL" = (if truthy lang then Some (fmt lang) else e "LC_ALL")
    /\ (forall op,
           In op (clean_environment_ledger platform os keys lang path) ->
           op_var op = "PATH" ->
           exists p, op = RemovePath "PATH" p /\ In p path
                     /\ str_in "/macports/" p = true).
Proof.
  intros platform os keys lang path e e' cleaned.
  split; [|split; [|split; [|split]]].
  - intros v Hv. apply clean_environment_unset.
    apply clean_ledger_In. left. exists v. auto.
  - intros Hcray Hcnl.
    assert (C : (platform =? "cray") && negb (using_cnl os) = true)
      by (rewrite Hcray, Hcnl; reflexivity).
    split.
    + apply clean_environment_unset. apply clean_ledger_In.
      left. eexists. split; [reflexivity|]. right. auto.
    + intros k Hk Hpk. apply clean_environment_unset. apply clean_ledger_In.
      left. exists k. split; [reflexivity|]. right. auto.
  - intros Hhost k Hk Hl Hp. unfold e', clean_environment.
    apply apply_modifications_other. apply Forall_forall. intros op Hop.
    apply clean_ledger_In in Hop.
    destruct Hop as [(w & -> & [H|[C _]])|[[_ ->]|(q & -> & _)]]; simpl.
    + intros ->. contradiction.
    + apply andb_true_iff in C. destruct C as [C1 C2].
      apply String.eqb_eq in C1. apply negb_true_iff in C2.
      destruct Hhost as [Hhost|Hhost]; [contradiction | congruence].
    + congruence.
    + congruence.
  - destruct (truthy lang) eqn:T.
    + unfold e', clean_environment, clean_environment_ledger. rewrite T.
      rewrite !app_assoc. rewrite <- app_assoc. simpl.
      apply apply_modifications_last_set.
      apply Forall_forall. intros op Hop. apply in_map_iff in Hop.
      destruct Hop as (q & <- & _). discriminate.
    + unfold e', clean_environment.
      apply apply_modifications_other. apply Forall_forall. intros op Hop.
      pose proof Hop as Hop'. apply clean_ledger_In in Hop.
      destruct Hop as [(w & -> & _)|[[T' _]|(q & -> & _)]]; simpl.
      * apply clean_ledger_unset_var in Hop'. tauto.
      * congruence.
      * discriminate.
  - intros op Hop Hv. pose proof Hop as Hop'. apply clean_ledger_In in Hop.
    destruct Hop as [(w & -> & _)|[[_ ->]|H]].
    + simpl in Hv. subst w. apply clean_ledger_unset_var in Hop'. tauto.
    + discriminate Hv.
    + exact H.
Qed.

Lemma clean_environment_effect_witness :
  clean_environment "cray" "sles12" ["MY_PKGCONF_DIR"; "HOME"] None
    ["/opt/local/macports/bin"; "/usr/bin"] (fun _ => Some "x")
    "MY_PKGCONF_DIR" = None
  /\ clean_environment "linux" "rhel7" ["MY_PKGCONF_DIR"; "HOME"] None
       ["/usr/bin"] (fun _ => Some "x") "MY_PKGCONF_DIR" = Some "x".
Proof.
  split.
  - destruct (clean_environment_effect "cray" "sles12"
                ["MY_PKGCONF_DIR"; "HOME"] None
                ["/opt/local/macports/bin"; "/usr/bin"] (fun _ => Some "x"))
      as (_ & H & _).
    destruct (H eq_refl eq_refl) as [_ Hk].
    apply Hk; [now left | reflexivity].
  - destruct (clean_environment_effect "linux" "rhel7"
                ["MY_PKGCONF_DIR"; "HOME"] None ["/usr/bin"]
                (fun _ => Some "x")) as (_ & _ & H & _).
    apply H.
    + left. discriminate.
    + simpl. intros K. repeat (destruct K as [K|K]; [discriminate K|]).
      exact K.
    + discriminate.
    + discriminate.
Defined.

(** * Properties of [get_rpaths] *)

(** Every directory that [get_rpaths] returns is listed once and is not
    a system path; it is one of the two library directories of the
    package itself, or the path of the second compiler module, or the
    [lib] or [lib64] directory of an RPATH dependency that exists on
    disk.  A dependency whose library directory exists and is not a
    system path is always listed. *)
Theorem get_rpaths_directories :
  forall (is_sys isdir : string -> bool)
         (path_from_modules : list string -> string)
         (pkg : PackageBase) (modules : list string),
    let rpaths := get_rpaths is_sys isdir path_from_modules pkg modules in
    NoDup rpaths
    /\ (forall d, In d rpaths ->
        is_sys d = false
        /\ (d = os_path.join (prefix (spec pkg)) "lib"
            \/ d = os_path.join (prefix (spec pkg)) "lib64"
            \/ (exists m second rest,
                   modules = m :: second :: rest
                   /\ d = path_from_modules [second])
            \/ (isdir d = true
                /\ exists dep, In dep (get_rpath_deps pkg)
                               /\ (d = os_path.join (prefix dep) "lib"
                                   \/ d = os_path.join (prefix dep) "lib64"))))
    /\ (forall dep sub,
           In dep (get_rpath_deps pkg) -> sub = "lib" \/ sub = "lib64" ->
           isdir (os_path.join (prefix dep) sub) = true ->
           is_sys (os_path.join (prefix dep) sub) = false ->
           In (os_path.join (prefix dep) sub) rpaths).
Proof.
  intros is_sys isdir path_from_modules pkg modules rpaths.
  unfold rpaths, get_rpaths, dedupe, filter_system_paths.
  split; [apply NoDup_dedupe_from|]. split.
  - intros d H. apply In_dedupe_from in H. destruct H as [H _].
    apply filter_In in H. destruct H as [H Hs].
    apply negb_true_iff in Hs. split; [exact Hs|].
    assert (A : forall tail,
               In d (([os_path.join (prefix (spec pkg)) "lib";
                       os_path.join (prefix (spec pkg)) "lib64"]
                      ++ filter isdir
                           (map (fun d => os_path.join (prefix d) "lib")
                                (get_rpath_deps pkg)))
                     ++ filter isdir
                          (map (fun d => os_path.join (prefix d) "lib64")
                               (get_rpath_deps pkg))) \/ In d tail ->
               d = os_path.join (prefix (spec pkg)) "lib"
               \/ d = os_path.join (prefix (spec pkg)) "lib64"
               \/ In d tail
               \/ (isdir d = true
                   /\ exists dep, In dep (get_rpath_deps pkg)
                                  /\ (d = os_path.join (prefix dep) "lib"
                                      \/ d = os_path.join (prefix dep) "lib64"))).
    { intros tail [K|K]; [|auto].
      rewrite !in_app_iff in K. destruct K as [[K|K]|K].
      - simpl in K. destruct K as [<-|[<-|[]]]; auto.
      - apply filter_In in K. destruct K as [K Kd].
        apply in_map_iff in K. destruct K as (dep & <- & Hdep).
        right. right. right. split; [exact Kd|]. exists dep. auto.
      - apply filter_In in K. destruct K as [K Kd].
        apply in_map_iff in K. destruct K as (dep & <- & Hdep).
        right. right. right. split; [exact Kd|]. exists dep. auto. }
    destruct modules as [|m [|second rest]].
    + destruct (A [] (or_introl H)) as [K|[K|[[]|K]]]; auto.
    + destruct (A [] (or_introl H)) as [K|[K|[[]|K]]]; auto.
    + apply in_app_or in H.
      destruct (A [path_from_modules [second]] H) as [K|[K|[K|K]]]; auto.
      destruct K as [<-|[]]. right. right. left. eauto.
  - intros dep sub Hdep Hsub Hd Hs.
    apply In_dedupe_from. split; [|simpl; tauto].
    apply filter_In. split; [|now rewrite Hs].
    assert (B : In (os_path.join (prefix dep) sub)
                  (([os_path.join (prefix (spec pkg)) "lib";
                     os_path.join (prefix (spec pkg)) "lib64"]
                    ++ filter isdir
                         (map (fun d => os_path.join (prefix d) "lib")
                              (get_rpath_deps pkg)))
                   ++ filter isdir
                        (map (fun d => os_path.join (prefix d) "lib64")
                             (get_rpath_deps pkg)))).
    { destruct Hsub as [-> | ->].
      - apply in_or_app. left. apply in_or_app. right.
        apply filter_In. split; [|exact Hd].
        apply in_map_iff. eauto.
      - apply in_or_app. right.
        apply filter_In. split; [|exact Hd].
        apply in_map_iff. eauto. }
    destruct modules as [|m [|second rest]]; try exact B.
    apply in_or_app. now left.
Qed.

Lemma get_rpaths_directories_witness :
  In "/opt/c/lib"
     (get_rpaths is_system_path sample_isdir (fun _ => "/opt/gcc/lib64")
        (sample_app true) ["PrgEnv-gnu"; "gcc/9.3.0"])
  /\ In "/opt/gcc/lib64"
        (get_rpaths is_system_path sample_isdir (fun _ => "/opt/gcc/lib64")
           (sample_app true) ["PrgEnv-gnu"; "gcc/9.3.0"]).
Proof.
  destruct (get_rpaths_directories is_system_path sample_isdir
              (fun _ => "/opt/gcc/lib64") (sample_app true)
              ["PrgEnv-gnu"; "gcc/9.3.0"]) as (_ & _ & H).
  split.
  - apply (H sample_C "lib"); try reflexivity; [|now left].
    right. now left.
  - cbn. tauto.
Defined.

(** * Properties of [parent_class_modules] *)

Lemma pyclass_nested_ind (P : pyclass -> Prop) :
  (forall m n bases, Forall P bases -> P (PyClass m n bases)) ->
  forall c, P c.
Proof.
  intros H. fix IH 1. intros [m n bases]. apply H.
  induction bases as [|b bases IHb]; constructor; [apply IH | exact IHb].
Qed.

Example parent_class_modules_sample :
  parent_class_modules sample_PackageBase (fun _ => true) sample_MyZlib
  = ["spack.pkg.mystuff.zlib"; "spack.pkg.builtin.zlib"; "spack.package"]
  /\ parent_class_modules sample_PackageBase (fun _ => true) sample_PackageBase
     = [].
Proof. split; reflexivity. Qed.

(** [parent_class_modules] returns nothing for a class that is not a
    package class, for [PackageBase] and for the base classes of
    [PackageBase].  For a class below [PackageBase] the result starts
    with the module of the class when it is loaded, and every module
    returned is the loaded module of the class or of one of its
    ancestors that is itself below [PackageBase]. *)
Theorem parent_class_modules_sound :
  forall (package_base : pyclass) (loaded : string -> bool) (cls : pyclass),
    let modules := parent_class_modules package_base loaded cls in
    (proper_package_class package_base cls = false -> modules = [])
    /\ (proper_package_class package_base cls = true ->
        loaded (class_module cls) = true ->
        exists rest, modules = class_module cls :: rest)
    /\ (forall m, In m modules ->
        exists c, inherits_from cls c
                  /\ class_module c = m
                  /\ loaded m = true
                  /\ proper_package_class package_base c = true).
Proof.
  intros package_base loaded cls modules. unfold modules. clear modules.
  split; [|split].
  - destruct cls as [m n bases]. unfold proper_package_class.
    cbn [parent_class_modules class_qualname].
    intros H.
    destruct (py_issubclass (PyClass m n bases) PackageBase_name);
      simpl in *; [|reflexivity].
    apply negb_false_iff in H. now rewrite H.
  - destruct cls as [m n bases]. unfold proper_package_class.
    cbn [parent_class_modules class_qualname class_module].
    intros H Hl. apply andb_true_iff in H. destruct H as [H1 H2].
    rewrite H1. apply negb_true_iff in H2. rewrite H2, Hl. simpl. eauto.
  - induction cls as [m n bases IH] using pyclass_nested_ind.
    intros x Hx. cbn [parent_class_modules] in Hx.
    destruct (negb (py_issubclass (PyClass m n bases) PackageBase_name)
              || py_issubclass package_base (m, n)) eqn:E;
      [contradiction|].
    apply orb_false_iff in E. destruct E as [E1 E2].
    apply negb_false_iff in E1.
    apply in_app_or in Hx. destruct Hx as [Hx|Hx].
    + destruct (loaded m) eqn:L; [|contradiction].
      destruct Hx as [<-|[]].
      exists (PyClass m n bases). split; [constructor|].
      split; [reflexivity|]. split; [exact L|].
      unfold proper_package_class. cbn [class_qualname].
      now rewrite E1, E2.
    + apply in_flat_map in Hx. destruct Hx as (b & Hb & Hx).
      rewrite Forall_forall in IH.
      destruct (IH b Hb x Hx) as (c & Hc & Hrest).
      exists c. split; [|exact Hrest].
      eapply inherits_base; [|exact Hc]. exact Hb.
Qed.

Lemma parent_class_modules_sound_witness :
  exists rest,
    parent_class_modules sample_PackageBase
      (fun m => negb (m =? "spack.pkg.builtin.zlib")) sample_MyZlib
    = "spack.pkg.mystuff.zlib" :: rest.
Proof.
  destruct (parent_class_modules_sound sample_PackageBase
              (fun m => negb (m =? "spack.pkg.builtin.zlib")) sample_MyZlib)
    as (_ & H & _).
  apply H; reflexivity.
Defined.

(** * Properties of the module variables *)

Lemma getattr_setattr_same :
  forall m k v d, getattr (setattr m k v) k d = v.
Proof.
  induction m as [|[k0 v0] m IH]; intros k v d; cbn.
  - now rewrite String.eqb_refl.
  - destruct (k0 =? k) eqn:E; cbn; rewrite E; [reflexivity | apply IH].
Qed.

Lemma getattr_setattr_other :
  forall m k v k' d, k <> k' -> getattr (setattr m k v) k' d = getattr m k' d.
Proof.
  induction m as [|[k0 v0] m IH]; intros k v k' d Hk; cbn.
  - apply String.eqb_neq in Hk. now rewrite Hk.
  - destruct (k0 =? k) eqn:E; cbn.
    + apply String.eqb_eq in E. subst k0.
      apply String.eqb_neq in Hk. now rewrite Hk.
    + destruct (k0 =? k'); [reflexivity | now apply IH].
Qed.

Lemma getattr_assign_other :
  forall l m k d,
    ~ In k (map fst l) ->
    getattr (fold_left (fun m kv => setattr m (fst kv) (snd kv)) l m) k d
    = getattr m k d.
Proof.
  induction l as [|[k0 v0] l IH]; intros m k d Hk; cbn [fold_left fst snd].
  - reflexivity.
  - rewrite IH by (intro H; apply Hk; now right).
    apply getattr_setattr_other. intro E. apply Hk. now left.
Qed.

Lemma getattr_assign_in :
  forall l, NoDup (map fst l) ->
    forall m k v d, In (k, v) l ->
      getattr (fold_left (fun m kv => setattr m (fst kv) (snd kv)) l m) k d = v.
Proof.
  induction l as [|[k0 v0] l IH]; intros Hnd m k v d Hin;
    cbn [fold_left fst snd]; [contradiction|].
  cbn in Hnd. inversion Hnd as [|? ? Hnot Hnd']; subst.
  destruct Hin as [E|Hin].
  - injection E as -> ->.
    rewrite getattr_assign_other by exact Hnot.
    apply getattr_setattr_same.
  - now apply IH.
Qed.

Section ModuleExtras.

Variable build_jobs : option Z.
Variable cpu_count : Z.
Variable build_env_path : string.
Variable std_cmake_args std_meson_args : PackageBase -> list string.
Variable sys_platform : string.

Let assignments := module_assignments build_jobs cpu_count build_env_path
                     std_cmake_args std_meson_args sys_platform.
Let set_single := _set_variables_for_single_module build_jobs cpu_count
                    build_env_path std_cmake_args std_meson_args sys_platform.

Lemma module_assignments_NoDup :
  forall pkg, NoDup (map fst (assignments pkg)).
Proof.
  intros pkg. unfold assignments, module_assignments, marker.
  cbn [map fst].
  repeat (constructor; [cbn [In]; intuition discriminate|]).
  constructor.
Qed.

Lemma module_marker_assigned :
  forall pkg, In (marker, MBool true) (assignments pkg).
Proof.
  intros pkg. unfold assignments, module_assignments.
  cbn [In]. repeat (first [left; reflexivity | right]).
Qed.

Lemma set_single_marked :
  forall pkg m,
    modval_truthy (getattr (set_single pkg m) marker (MBool false)) = true.
Proof.
  intros pkg m. unfold set_single, _set_variables_for_single_module.
  destruct (modval_truthy (getattr m marker (MBool false))) eqn:E;
    [exact E|].
  fold (assignments pkg).
  rewrite (getattr_assign_in _ (module_assignments_NoDup pkg) m marker
             (MBool true) (MBool false) (module_marker_assigned pkg)).
  reflexivity.
Qed.

Lemma set_single_unmarked :
  forall pkg m,
    modval_truthy (getattr m marker (MBool false)) = false ->
    set_single pkg m
    = fold_left (fun m kv => setattr m (fst kv) (snd kv)) (assignments pkg) m.
Proof.
  intros pkg m H. unfold set_single, _set_variables_for_single_module.
  now rewrite H.
Qed.

Lemma set_single_idempotent :
  forall pkg m, set_single pkg (set_single pkg m) = set_single pkg m.
Proof.
  intros pkg m. unfold set_single at 1.
  unfold _set_variables_for_single_module.
  fold (set_single pkg m). now rewrite set_single_marked.
Qed.

Lemma set_module_variables_at :
  forall package_base loaded pkg cls store n,
    set_module_variables_for_package build_jobs cpu_count build_env_path
      std_cmake_args std_meson_args sys_platform package_base loaded pkg cls
      store n
    = if str_mem n (parent_class_modules package_base loaded cls)
      then set_single pkg (store n) else store n.
Proof.
  intros package_base loaded pkg cls store n.
  unfold set_module_variables_for_package.
  fold set_single.
  generalize (parent_class_modules package_base loaded cls) as l.
  intros l. revert store.
  induction l as [|a l IH]; intros store; cbn [fold_left str_mem existsb].
  - reflexivity.
  - rewrite IH. unfold store_update.
    destruct (n =? a) eqn:E.
    + apply String.eqb_eq in E. subst a.
      cbn [orb]. rewrite set_single_idempotent.
      now destruct (str_mem n l).
    + cbn [orb]. reflexivity.
Qed.

End ModuleExtras.

Section ModuleProperties.

Variable build_jobs : option Z.
Variable cpu_count : Z.
Variable build_env_path : string.
Variable std_cmake_args std_meson_args : PackageBase -> list string.
Variable sys_platform : string.

(** [_set_variables_for_single_module] on a module that does not carry
    the marker yet: [make], [gmake], [scons], [ninja] and [ctest] are
    bound to executables that share the number of jobs bound to
    [make_jobs], which never exceeds the number of processors and is at
    most one for a package that is not parallel; [prefix] is the prefix
    of the package; names outside the assigned ones keep what they were
    bound to; and the module now carries the marker, so that a later
    call, for any package under any configuration, leaves it as it is. *)
Theorem module_variables_set_once :
  forall (pkg : ModulePackage) (m : module_scope),
    modval_truthy (getattr m marker (MBool false)) = false ->
    let m' := _set_variables_for_single_module build_jobs cpu_count
                build_env_path std_cmake_args std_meson_args sys_platform
                pkg m in
    (exists jobs,
        (forall d, getattr m' "make_jobs" d = MInt jobs)
        /\ (forall exe d, In exe ["make"; "gmake"; "scons"; "ninja"; "ctest"] ->
                          getattr m' exe d = MMakeExecutable exe jobs)
        /\ (jobs <= cpu_count)%Z
        /\ (mp_parallel pkg = false -> (jobs <= 1)%Z)
        /\ (mp_parallel pkg = true -> build_jobs = None -> (jobs <= 16)%Z))
    /\ (forall d, getattr m' "prefix" d = MStr (prefix (spec (mp_base pkg))))
    /\ (forall k d,
           ~ In k (map fst (module_assignments build_jobs cpu_count
                              build_env_path std_cmake_args std_meson_args
                              sys_platform pkg)) ->
           getattr m' k d = getattr m k d)
    /\ (forall jobs' cpus' path' cmake' meson' platform' other,
           _set_variables_for_single_module jobs' cpus' path' cmake' meson'
             platform' other m' = m').
Proof.
  intros pkg m Hm m'.
  assert (Em : m' = fold_left (fun m kv => setattr m (fst kv) (snd kv))
                      (module_assignments build_jobs cpu_count build_env_path
                         std_cmake_args std_meson_args sys_platform pkg) m).
  { apply set_single_unmarked. exact Hm. }
  assert (Hget : forall k v d,
             In (k, v) (module_assignments build_jobs cpu_count build_env_path
                          std_cmake_args std_meson_args sys_platform pkg) ->
             getattr m' k d = v).
  { intros k v d Hin. rewrite Em.
    apply getattr_assign_in; [apply module_assignments_NoDup | exact Hin]. }
  split; [|split; [|split]].
  - exists (make_jobs build_jobs cpu_count pkg).
    split; [|split; [|split; [|split]]].
    + intros d. apply Hget. cbn. now left.
    + intros exe d Hexe. apply Hget.
      cbn in Hexe. cbn.
      destruct Hexe as [<-|[<-|[<-|[<-|[<-|[]]]]]]; tauto.
    + unfold make_jobs. cbn zeta. lia.
    + intros Hp. unfold make_jobs. rewrite Hp. cbn zeta. lia.
    + intros Hp Hb. unfold make_jobs. rewrite Hp, Hb. cbn zeta. lia.
  - intros d. apply Hget. cbn. tauto.
  - intros k d Hk. rewrite Em. now apply getattr_assign_other.
  - intros jobs' cpus' path' cmake' meson' platform' other.
    unfold _set_variables_for_single_module at 1.
    unfold m'. now rewrite set_single_marked.
Qed.

(** [set_module_variables_for_package]: a module of
    [parent_class_modules] ends up as one call of
    [_set_variables_for_single_module] for this package leaves it,
    however often it occurs in the list, and carries the marker; the
    other modules are not touched; and a later call for any package of
    any class, under any configuration, changes none of the modules
    visited now: a module shared by several package classes keeps the
    variables of the first package set up. *)
Theorem module_variables_shared :
  forall (package_base : pyclass) (loaded : string -> bool)
         (pkg : ModulePackage) (cls : pyclass) (store : module_store)
         (n : string),
    In n (parent_class_modules package_base loaded cls) ->
    let store' := set_module_variables_for_package build_jobs cpu_count
                    build_env_path std_cmake_args std_meson_args sys_platform
                    package_base loaded pkg cls store in
    store' n = _set_variables_for_single_module build_jobs cpu_count
                 build_env_path std_cmake_args std_meson_args sys_platform
                 pkg (store n)
    /\ modval_truthy (getattr (store' n) marker (MBool false)) = true
    /\ (forall k, ~ In k (parent_class_modules package_base loaded cls) ->
                  store' k = store k)
    /\ (forall jobs' cpus' path' cmake' meson' platform' base' loaded'
               other cls',
           set_module_variables_for_package jobs' cpus' path' cmake' meson'
             platform' base' loaded' other cls' store' n = store' n).
Proof.
  intros package_base loaded pkg cls store n Hn store'.
  assert (E : store' n = _set_variables_for_single_module build_jobs cpu_count
                 build_env_path std_cmake_args std_meson_args sys_platform
                 pkg (store n)).
  { unfold store'. rewrite set_module_variables_at.
    apply str_mem_In in Hn. now rewrite Hn. }
  assert (M : modval_truthy (getattr (store' n) marker (MBool false)) = true).
  { rewrite E. apply set_single_marked. }
  split; [exact E|]. split; [exact M|]. split.
  - intros k Hk. unfold store'. rewrite set_module_variables_at.
    destruct (str_mem k (parent_class_modules package_base loaded cls)) eqn:F;
      [|reflexivity].
    apply str_mem_In in F. contradiction.
  - intros. rewrite set_module_variables_at.
    destruct (str_mem n (parent_class_modules base' loaded' cls'));
      [|reflexivity].
    unfold _set_variables_for_single_module. now rewrite M.
Qed.

End ModuleProperties.

Lemma module_variables_set_once_witness :
  getattr (_set_variables_for_single_module None 8 "/spack/env"
             (fun _ => []) (fun _ => []) "linux" sample_serial_pkg
             (_set_variables_for_single_module None 8 "/spack/env"
                (fun _ => []) (fun _ => []) "linux" sample_module_pkg []))
          "spack_cc" (MStr "")
  = MStr "/spack/env/gcc/cc".
Proof.
  destruct (module_variables_set_once None 8 "/spack/env"
              (fun _ => []) (fun _ => []) "linux" sample_module_pkg [])
    as (_ & _ & _ & H); [reflexivity|].
  rewrite H. reflexivity.
Defined.

Lemma module_variables_shared_witness :
  getattr (set_module_variables_for_package None 8 "/spack/env"
             (fun _ => []) (fun _ => []) "linux"
             sample_PackageBase (fun _ => true) sample_serial_pkg sample_Zlib
             (set_module_variables_for_package None 8 "/spack/env"
                (fun _ => []) (fun _ => []) "linux"
                sample_PackageBase (fun _ => true) sample_module_pkg
                sample_MyZlib (fun _ => []))
             "spack.pkg.builtin.zlib")
          "make_jobs" (MInt 0)
  = MInt 8.
Proof.
  destruct (module_variables_shared None 8 "/spack/env"
              (fun _ => []) (fun _ => []) "linux"
              sample_PackageBase (fun _ => true) sample_module_pkg
              sample_MyZlib (fun _ => []) "spack.pkg.builtin.zlib")
    as (_ & _ & _ & H); [cbn; tauto|].
  rewrite H. reflexivity.
Defined.

(** * Properties of [set_compiler_environment_variables] *)

Lemma apply_modifications_same_set :
  forall (l : ledger) (x v : string) (e : environ),
    (forall op, In op l -> op_var op = x -> op = SetEnv x v) ->
    apply_modifications l e x
    = if existsb (targets x) l then Some v else e x.
Proof.
  unfold apply_modifications.
  induction l as [|op l IH]; intros x v e H; cbn [fold_left existsb].
  - reflexivity.
  - rewrite (IH x v) by (intros o Ho; apply H; now right).
    unfold targets at 2. destruct (op_var op =? x) eqn:E; cbn [orb].
    + apply String.eqb_eq in E.
      rewrite (H op (or_introl eq_refl) E). cbn.
      unfold environ_set. rewrite String.eqb_refl.
      now destruct (existsb (targets x) l).
    + apply String.eqb_neq in E.
      now rewrite apply_op_other by exact E.
Qed.

Lemma spack_prefix_neq :
  forall s, "SPACK_" +++ s <> s.
Proof.
  intros s H. apply (f_equal String.length) in H.
  cbn in H. lia.
Qed.

Lemma flag_variables_apart :
  forall flags f g x,
    flags_apart flags = true ->
    In f flags -> In g flags ->
    In x (flag_variables f) -> In x (flag_variables g) -> f = g.
Proof.
  intros flags f g x H Hf Hg Hxf Hxg.
  unfold flags_apart in H. rewrite forallb_forall in H.
  specialize (H f Hf). apply andb_true_iff in H. destruct H as [H _].
  rewrite forallb_forall in H. specialize (H g Hg).
  apply orb_true_iff in H. destruct H as [H|H].
  - now apply String.eqb_eq in H.
  - rewrite forallb_forall in H. specialize (H x Hxf).
    apply negb_true_iff in H. apply str_mem_not_In in H. contradiction.
Qed.

Lemma flag_variables_not_last :
  forall flags f x,
    flags_apart flags = true ->
    In f flags -> In x (flag_variables f) -> ~ In x compiler_last_names.
Proof.
  intros flags f x H Hf Hx.
  unfold flags_apart in H. rewrite forallb_forall in H.
  specialize (H f Hf). apply andb_true_iff in H. destruct H as [_ H].
  rewrite forallb_forall in H. specialize (H x Hx).
  apply negb_true_iff in H. now apply str_mem_not_In in H.
Qed.

Lemma flag_variables_not_first :
  forall flags f x,
    flags_fresh flags = true ->
    In f flags -> In x (flag_variables f) -> ~ In x compiler_variable_names.
Proof.
  intros flags f x H Hf Hx.
  unfold flags_fresh in H. rewrite forallb_forall in H.
  specialize (H f Hf). apply andb_true_iff in H. destruct H as [H1 H2].
  apply negb_true_iff in H1, H2.
  apply str_mem_not_In in H1. apply str_mem_not_In in H2.
  destruct Hx as [<-|[<-|[]]]; assumption.
Qed.

Section CompilerExtras.

Variable concrete : bool.
Variable verify_executables : bool.
Variable link_dir : string.
Variable shared_linking : pystr.
Variable target_args : string.
Variable valid_compiler_flags : list string.
Variable flag_handler : string -> option handled_flags.
Variable flags_to_build_system_args : list (string * list string) -> bool.
Variable compiler_spec : string.
Variable system_dirs : list string.
Variable setup_custom_environment : ledger -> option ledger.

Let first_ops (compiler : CompilerSettings) : ledger :=
  wrapper_ops link_dir compiler (cs_cc compiler) "SPACK_CC" "CC" "cc"
  ++ wrapper_ops link_dir compiler (cs_cxx compiler) "SPACK_CXX" "CXX" "cxx"
  ++ wrapper_ops link_dir compiler (cs_f77 compiler) "SPACK_F77" "F77" "f77"
  ++ wrapper_ops link_dir compiler (cs_fc compiler) "SPACK_FC" "FC" "fc"
  ++ [ SetEnv "SPACK_CC_RPATH_ARG" (cs_cc_rpath_arg compiler);
       SetEnv "SPACK_CXX_RPATH_ARG" (cs_cxx_rpath_arg compiler);
       SetEnv "SPACK_F77_RPATH_ARG" (cs_f77_rpath_arg compiler);
       SetEnv "SPACK_FC_RPATH_ARG" (cs_fc_rpath_arg compiler);
       SetEnv "SPACK_LINKER_ARG" (cs_linker_arg compiler) ]
  ++ dtags_ops shared_linking compiler
  ++ [ SetEnv "SPACK_TARGET_ARGS" target_args ].

Let last_ops : ledger :=
  [ SetEnv "SPACK_COMPILER_SPEC" compiler_spec;
    SetEnv "SPACK_SYSTEM_DIRS" (String.concat ":" system_dirs) ].

Let written := compiler_ops link_dir shared_linking valid_compiler_flags
                 flag_handler compiler_spec system_dirs target_args.

Lemma compiler_ops_parts :
  forall compiler,
    written compiler
    = first_ops compiler
      ++ flat_map (flag_ops flag_handler) valid_compiler_flags ++ last_ops.
Proof.
  intros compiler. unfold written, compiler_ops, first_ops, last_ops.
  repeat rewrite <- app_assoc. reflexivity.
Qed.

Lemma flag_ops_var :
  forall flag op,
    In op (flag_ops flag_handler flag) ->
    op_var op = upper flag \/ op_var op = "SPACK_" +++ upper flag.
Proof.
  intros flag op H. unfold flag_ops in H.
  apply in_app_or in H. destruct H as [H|H].
  - destruct (nonempty (inject_flags flag_handler flag)); [|contradiction].
    destruct H as [<-|[]]. now right.
  - destruct (nonempty (env_flags flag_handler flag)); [|contradiction].
    destruct H as [<-|[]]. now left.
Qed.

Lemma flags_fresh_other :
  forall x,
    flags_fresh valid_compiler_flags = true ->
    In x compiler_variable_names ->
    Forall (fun op => op_var op <> x)
           (flat_map (flag_ops flag_handler) valid_compiler_flags).
Proof.
  intros x Hf Hx. apply Forall_forall. intros op Hop.
  apply in_flat_map in Hop. destruct Hop as (flag & Hflag & Hop).
  unfold flags_fresh in Hf. rewrite forallb_forall in Hf.
  specialize (Hf flag Hflag). apply andb_true_iff in Hf.
  destruct Hf as [H1 H2].
  apply negb_true_iff in H1, H2.
  apply str_mem_not_In in H1. apply str_mem_not_In in H2.
  apply flag_ops_var in Hop. destruct Hop as [E|E]; rewrite E; congruence.
Qed.

Lemma compiler_fixed_variable :
  forall compiler env (e : environ) x,
    flags_fresh valid_compiler_flags = true ->
    In x compiler_variable_names ->
    apply_modifications (env ++ written compiler) e x
    = apply_modifications (first_ops compiler) (apply_modifications env e) x.
Proof.
  intros compiler env e x Hf Hx.
  rewrite compiler_ops_parts, !apply_modifications_app.
  rewrite apply_modifications_other.
  - now apply apply_modifications_other, flags_fresh_other.
  - unfold last_ops. unfold compiler_variable_names in Hx.
    repeat constructor; cbn [op_var]; intros <-;
      cbn [In] in Hx; intuition discriminate.
Qed.

Lemma wrapper_ops_var :
  forall compiler path spack_var var lang op,
    In op (wrapper_ops link_dir compiler path spack_var var lang) ->
    op_var op = spack_var \/ op_var op = var.
Proof.
  intros compiler path spack_var var lang op H. unfold wrapper_ops in H.
  destruct path as [p|]; [|contradiction].
  destruct (truthy (Some p)); [|contradiction].
  destruct H as [<-|[<-|[]]]; cbn; tauto.
Qed.

Lemma first_ops_var :
  forall compiler op,
    In op (first_ops compiler) -> In (op_var op) compiler_variable_names.
Proof.
  intros compiler op H. unfold first_ops in H.
  repeat (apply in_app_or in H; destruct H as [H|H];
          [try (apply wrapper_ops_var in H; destruct H as [->| ->];
                cbn; tauto)|]).
  - cbn [In] in H.
    repeat (destruct H as [<-|H]; [cbn; tauto|]). contradiction.
  - unfold dtags_ops in H.
    destruct (pystr_eqb shared_linking (Some "rpath")); cbn [In] in H;
      repeat (destruct H as [<-|H]; [cbn; tauto|]); contradiction.
  - destruct H as [<-|[]]. cbn. tauto.
Qed.

Lemma wrapper_ops_effect :
  forall compiler path spack_var var lang (pre post : ledger) (e : environ),
    spack_var <> var ->
    Forall (fun op => op_var op <> spack_var /\ op_var op <> var) pre ->
    Forall (fun op => op_var op <> spack_var /\ op_var op <> var) post ->
    let after :=
      apply_modifications
        (pre ++ wrapper_ops link_dir compiler path spack_var var lang ++ post)
        e in
    if truthy path
    then after spack_var = path
         /\ after var
            = Some (os_path.join link_dir
                      (link_paths_item (cs_link_paths compiler) lang))
    else after spack_var = e spack_var /\ after var = e var.
Proof.
  intros compiler path spack_var var lang pre post e Hne Hpre Hpost after.
  assert (Ppre : forall x, x = spack_var \/ x = var ->
                           apply_modifications pre e x = e x).
  { intros x Hx. apply apply_modifications_other.
    eapply Forall_impl; [|exact Hpre]. cbn. intros op [H1 H2].
    destruct Hx as [->| ->]; assumption. }
  assert (Ppost : forall x, x = spack_var \/ x = var ->
                            Forall (fun op => op_var op <> x) post).
  { intros x Hx. eapply Forall_impl; [|exact Hpost]. cbn. intros op [H1 H2].
    destruct Hx as [->| ->]; assumption. }
  unfold after, wrapper_ops.
  destruct path as [p|]; [destruct (truthy (Some p))|].
  - split.
    + cbn [app]. rewrite apply_modifications_last_set; [reflexivity|].
      constructor; [cbn; congruence | apply Ppost; now left].
    + change (pre ++ [SetEnv spack_var p;
                      SetEnv var (os_path.join link_dir
                                    (link_paths_item (cs_link_paths compiler)
                                                     lang))] ++ post)
        with (pre ++ [SetEnv spack_var p]
                  ++ SetEnv var (os_path.join link_dir
                                   (link_paths_item (cs_link_paths compiler)
                                                    lang)) :: post).
      rewrite app_assoc.
      apply apply_modifications_last_set. apply Ppost. now right.
  - cbn [app]. rewrite !apply_modifications_app.
    rewrite (apply_modifications_other post _ spack_var)
      by (apply Ppost; tauto).
    rewrite (apply_modifications_other post _ var) by (apply Ppost; tauto).
    split; apply Ppre; tauto.
  - cbn [app]. rewrite !apply_modifications_app.
    rewrite (apply_modifications_other post _ spack_var)
      by (apply Ppost; tauto).
    rewrite (apply_modifications_other post _ var) by (apply Ppost; tauto).
    split; apply Ppre; tauto.
Qed.

Lemma flag_ops_effect :
  forall flag (e : environ),
    flags_apart valid_compiler_flags = true ->
    In flag valid_compiler_flags ->
    let after :=
      apply_modifications (flat_map (flag_ops flag_handler) valid_compiler_flags)
                          e in
    after ("SPACK_" +++ upper flag)
    = (if nonempty (inject_flags flag_handler flag)
       then Some (String.concat " " (inject_flags flag_handler flag))
       else e ("SPACK_" +++ upper flag))
    /\ after (upper flag)
       = (if nonempty (env_flags flag_handler flag)
          then Some (String.concat " " (env_flags flag_handler flag))
          else e (upper flag)).
Proof.
  intros flag e Ha Hflag after.
  assert (Own : forall op x,
             In op (flat_map (flag_ops flag_handler) valid_compiler_flags) ->
             In x (flag_variables flag) -> op_var op = x ->
             In op (flag_ops flag_handler flag)).
  { intros op x Hop Hx E. apply in_flat_map in Hop.
    destruct Hop as (g & Hg & Hop).
    assert (G : flag = g).
    { apply (flag_variables_apart valid_compiler_flags flag g x Ha Hflag Hg Hx).
      apply flag_ops_var in Hop. rewrite E in Hop.
      unfold flag_variables. cbn [In]. destruct Hop as [->| ->]; tauto. }
    now subst g. }
  assert (Sub : forall op, In op (flag_ops flag_handler flag) ->
                           In op (flat_map (flag_ops flag_handler)
                                           valid_compiler_flags)).
  { intros op Hop. apply in_flat_map. exists flag. now split. }
  unfold after. split.
  - destruct (nonempty (inject_flags flag_handler flag)) eqn:N.
    + rewrite (apply_modifications_same_set _ _
                 (String.concat " " (inject_flags flag_handler flag))).
      * replace (existsb _ _) with true; [reflexivity|].
        symmetry. apply existsb_exists.
        exists (SetEnv ("SPACK_" +++ upper flag)
                       (String.concat " " (inject_flags flag_handler flag))).
        split; [|unfold targets; cbn; apply String.eqb_refl].
        apply Sub. unfold flag_ops. rewrite N. apply in_or_app. left. now left.
      * intros op Hop E.
        apply (Own op ("SPACK_" +++ upper flag)) in Hop;
          [|unfold flag_variables; cbn; tauto | exact E].
        unfold flag_ops in Hop. rewrite N in Hop.
        apply in_app_or in Hop. destruct Hop as [[<-|[]]|Hop]; [reflexivity|].
        destruct (nonempty (env_flags flag_handler flag)); [|contradiction].
        destruct Hop as [<-|[]]. cbn in E.
        symmetry in E. now apply spack_prefix_neq in E.
    + apply apply_modifications_other. apply Forall_forall.
      intros op Hop E.
      apply (Own op ("SPACK_" +++ upper flag)) in Hop;
        [|unfold flag_variables; cbn; tauto | exact E].
      unfold flag_ops in Hop. rewrite N in Hop. cbn [app] in Hop.
      destruct (nonempty (env_flags flag_handler flag)); [|contradiction].
      destruct Hop as [<-|[]]. cbn in E.
      symmetry in E. now apply spack_prefix_neq in E.
  - destruct (nonempty (env_flags flag_handler flag)) eqn:N.
    + rewrite (apply_modifications_same_set _ _
                 (String.concat " " (env_flags flag_handler flag))).
      * replace (existsb _ _) with true; [reflexivity|].
        symmetry. apply existsb_exists.
        exists (SetEnv (upper flag)
                       (String.concat " " (env_flags flag_handler flag))).
        split; [|unfold targets; cbn; apply String.eqb_refl].
        apply Sub. unfold flag_ops. rewrite N. apply in_or_app. right. now left.
      * intros op Hop E.
        apply (Own op (upper flag)) in Hop;
          [|unfold flag_variables; cbn; tauto | exact E].
        unfold flag_ops in Hop. rewrite N in Hop.
        apply in_app_or in Hop. destruct Hop as [Hop|[<-|[]]]; [|reflexivity].
        destruct (nonempty (inject_flags flag_handler flag)); [|contradiction].
        destruct Hop as [<-|[]]. cbn in E.
        now apply spack_prefix_neq in E.
    + apply apply_modifications_other. apply Forall_forall.
      intros op Hop E.
      apply (Own op (upper flag)) in Hop;
        [|unfold flag_variables; cbn; tauto | exact E].
      unfold flag_ops in Hop. rewrite N in Hop. rewrite app_nil_r in Hop.
      destruct (nonempty (inject_flags flag_handler flag)); [|contradiction].
      destruct Hop as [<-|[]]. cbn in E.
      now apply spack_prefix_neq in E.
Qed.

Ltac ops_apart :=
  repeat (apply Forall_app; split);
  first
    [ apply Forall_forall;
      let op := fresh "op" in
      let Hop := fresh "Hop" in
      intros op Hop; apply wrapper_ops_var in Hop;
      destruct Hop as [->| ->]; split; discriminate
    | unfold dtags_ops;
      match goal with
      | |- context [pystr_eqb ?a ?b] => destruct (pystr_eqb a b)
      end;
      repeat constructor; cbn; discriminate
    | repeat constructor; cbn; discriminate ].

Lemma first_ops_wrappers :
  forall compiler (e : environ) path spack_var var lang,
    In (path, spack_var, var, lang)
       [ (cs_cc compiler, "SPACK_CC", "CC", "cc");
         (cs_cxx compiler, "SPACK_CXX", "CXX", "cxx");
         (cs_f77 compiler, "SPACK_F77", "F77", "f77");
         (cs_fc compiler, "SPACK_FC", "FC", "fc") ] ->
    if truthy path
    then apply_modifications (first_ops compiler) e spack_var = path
         /\ apply_modifications (first_ops compiler) e var
            = Some (os_path.join link_dir
                      (link_paths_item (cs_link_paths compiler) lang))
    else apply_modifications (first_ops compiler) e spack_var = e spack_var
         /\ apply_modifications (first_ops compiler) e var = e var.
Proof.
  intros compiler e path spack_var var lang H.
  unfold first_ops.
  set (W1 := wrapper_ops link_dir compiler (cs_cc compiler) "SPACK_CC" "CC" "cc").
  set (W2 := wrapper_ops link_dir compiler (cs_cxx compiler)
                         "SPACK_CXX" "CXX" "cxx").
  set (W3 := wrapper_ops link_dir compiler (cs_f77 compiler)
                         "SPACK_F77" "F77" "f77").
  set (W4 := wrapper_ops link_dir compiler (cs_fc compiler) "SPACK_FC" "FC" "fc").
  cbn [In] in H. destruct H as [H|[H|[H|[H|[]]]]];
    injection H as <- <- <- <-.
  - pose proof (wrapper_ops_effect compiler (cs_cc compiler)
                  "SPACK_CC" "CC" "cc" []) as W.
    cbv zeta in W. apply W; [discriminate | constructor |].
    subst W2 W3 W4. ops_apart.
  - pose proof (wrapper_ops_effect compiler (cs_cxx compiler)
                  "SPACK_CXX" "CXX" "cxx" W1) as W.
    cbv zeta in W. apply W; [discriminate | |].
    + subst W1. ops_apart.
    + subst W3 W4. ops_apart.
  - rewrite (app_assoc W1 W2).
    pose proof (wrapper_ops_effect compiler (cs_f77 compiler)
                  "SPACK_F77" "F77" "f77" (W1 ++ W2)) as W.
    cbv zeta in W. apply W; [discriminate | |].
    + subst W1 W2. ops_apart.
    + subst W4. ops_apart.
  - rewrite (app_assoc W1 W2), (app_assoc (W1 ++ W2) W3).
    pose proof (wrapper_ops_effect compiler (cs_fc compiler)
                  "SPACK_FC" "FC" "fc" ((W1 ++ W2) ++ W3)) as W.
    cbv zeta in W. apply W; [discriminate | |].
    + subst W1 W2 W3. ops_apart.
    + ops_apart.
Qed.

Lemma first_ops_dtags :
  forall compiler (e : environ),
    (apply_modifications (first_ops compiler) e "SPACK_DTAGS_TO_STRIP",
     apply_modifications (first_ops compiler) e "SPACK_DTAGS_TO_ADD")
    = if pystr_eqb shared_linking (Some "rpath")
      then (Some (cs_enable_new_dtags compiler),
            Some (cs_disable_new_dtags compiler))
      else (Some (cs_disable_new_dtags compiler),
            Some (cs_enable_new_dtags compiler)).
Proof.
  intros compiler e. unfold first_ops.
  rewrite !app_assoc.
  rewrite <- (app_assoc _ (dtags_ops shared_linking compiler)).
  rewrite !(apply_modifications_app _ (dtags_ops shared_linking compiler ++ _)).
  unfold dtags_ops.
  destruct (pystr_eqb shared_linking (Some "rpath")); reflexivity.
Qed.

Lemma written_only_sets :
  forall compiler,
    Forall (fun op => exists var value, op = SetEnv var value)
           (written compiler).
Proof.
  intros compiler. rewrite compiler_ops_parts. unfold first_ops, last_ops.
  assert (W : forall path spack_var var lang,
             Forall (fun op => exists var value, op = SetEnv var value)
                    (wrapper_ops link_dir compiler path spack_var var lang)).
  { intros path spack_var var lang. unfold wrapper_ops.
    destruct path as [p|]; [destruct (truthy (Some p))|];
      repeat constructor; eauto. }
  repeat (apply Forall_app; split); try apply W.
  - repeat constructor; eauto.
  - unfold dtags_ops. destruct (pystr_eqb shared_linking (Some "rpath"));
      repeat constructor; eauto.
  - repeat constructor; eauto.
  - apply Forall_forall. intros op Hop. apply in_flat_map in Hop.
    destruct Hop as (flag & _ & Hop). unfold flag_ops in Hop.
    apply in_app_or in Hop.
    destruct (nonempty (inject_flags flag_handler flag));
      destruct (nonempty (env_flags flag_handler flag));
      destruct Hop as [Hop|Hop]; try contradiction;
      destruct Hop as [<-|[]]; eauto.
  - repeat constructor; eauto.
Qed.

(** [set_compiler_environment_variables] for a concrete spec whose
    compiler executables verify and whose link paths name the four
    languages, when the calls it makes unguarded return (the target's
    [optimization_flags], here [Some target_args], the flag handler on
    every valid flag and [flags_to_build_system_args]) and no flag is
    written to a variable of another flag or to one of the fixed
    variables.  The function hands to the compiler's own hook the
    incoming ledger followed by [Set] operations only, and returns
    exactly when that hook returns, with the ledger the hook leaves.
    Once the operations handed over are applied: a language that has a
    compiler gets its [SPACK_] variable set to that compiler and its
    plain variable to the wrapper under the wrapper directory, a
    language without one keeps both as they were; the two dtags
    variables hold the compiler's two dtags options, which one is
    stripped being decided by [config:shared_linking]; a flag's injected
    list reaches [SPACK_<FLAG>] and its environment list [<FLAG>],
    joined by spaces, and an empty or missing list writes nothing; the
    compiler spec and the system directories are set; and no other
    variable changes. *)
Theorem compiler_variables :
  forall (compiler : CompilerSettings) (env : ledger),
    concrete = true ->
    verify_executables = true ->
    forallb (link_paths_has (cs_link_paths compiler))
            ["cc"; "cxx"; "f77"; "fc"] = true ->
    forallb (handler_returns flag_handler) valid_compiler_flags = true ->
    flags_to_build_system_args
      (map (fun flag => (flag, build_system_flags flag_handler flag))
           valid_compiler_flags) = true ->
    flags_fresh valid_compiler_flags = true ->
    flags_apart valid_compiler_flags = true ->
    exists ops,
      set_compiler_environment_variables concrete verify_executables link_dir
        shared_linking (Some target_args) valid_compiler_flags flag_handler
        flags_to_build_system_args compiler_spec system_dirs
        setup_custom_environment compiler env
      = option_map
          (fun left_by_hook =>
             {| cr_env := left_by_hook;
                cr_build_system_flags :=
                  map (fun flag => (flag, build_system_flags flag_handler flag))
                      valid_compiler_flags |})
          (setup_custom_environment (env ++ ops))
      /\ Forall (fun op => exists var value, op = SetEnv var value) ops
      /\ forall e : environ,
          let before := apply_modifications env e in
          let after := apply_modifications (env ++ ops) e in
          (forall path spack_var var lang,
              In (path, spack_var, var, lang)
                 [ (cs_cc compiler, "SPACK_CC", "CC", "cc");
                   (cs_cxx compiler, "SPACK_CXX", "CXX", "cxx");
                   (cs_f77 compiler, "SPACK_F77", "F77", "f77");
                   (cs_fc compiler, "SPACK_FC", "FC", "fc") ] ->
              if truthy path
              then after spack_var = path
                   /\ exists wrapper,
                        link_paths_get (cs_link_paths compiler) lang
                        = Some wrapper
                        /\ after var = Some (os_path.join link_dir wrapper)
              else after spack_var = before spack_var
                   /\ after var = before var)
          /\ (after "SPACK_DTAGS_TO_STRIP", after "SPACK_DTAGS_TO_ADD")
             = (if pystr_eqb shared_linking (Some "rpath")
                then (Some (cs_enable_new_dtags compiler),
                      Some (cs_disable_new_dtags compiler))
                else (Some (cs_disable_new_dtags compiler),
                      Some (cs_enable_new_dtags compiler)))
          /\ (forall flag,
                 In flag valid_compiler_flags ->
                 after ("SPACK_" +++ upper flag)
                 = (if nonempty (inject_flags flag_handler flag)
                    then Some (String.concat " "
                                 (inject_flags flag_handler flag))
                    else before ("SPACK_" +++ upper flag))
                 /\ after (upper flag)
                    = (if nonempty (env_flags flag_handler flag)
                       then Some (String.concat " "
                                    (env_flags flag_handler flag))
                       else before (upper flag)))
          /\ after "SPACK_COMPILER_SPEC" = Some compiler_spec
          /\ after "SPACK_SYSTEM_DIRS" = Some (String.concat ":" system_dirs)
          /\ (forall x,
                 ~ In x compiler_variable_names ->
                 ~ In x compiler_last_names ->
                 (forall flag, In flag valid_compiler_flags ->
                               ~ In x (flag_variables flag)) ->
                 after x = before x).
Proof.
  intros compiler env Hc Hv Hl Hh Hb Hfresh Hapart.
  exists (written compiler). split; [|split].
  - unfold set_compiler_environment_variables. rewrite Hc, Hv, Hl, Hh, Hb.
    cbn [negb]. fold (written compiler).
    now destruct (setup_custom_environment (env ++ written compiler)).
  - apply written_only_sets.
  - intros e before after.
    assert (Fixed : forall x, In x compiler_variable_names ->
                              after x
                              = apply_modifications (first_ops compiler)
                                                    before x).
    { intros x Hx. unfold after, before.
      now apply compiler_fixed_variable. }
    split; [|split; [|split; [|split; [|split]]]].
    + intros path spack_var var lang Hin.
      pose proof (first_ops_wrappers compiler before path spack_var var lang
                    Hin) as W.
      assert (Names : In spack_var compiler_variable_names
                      /\ In var compiler_variable_names
                      /\ In lang ["cc"; "cxx"; "f77"; "fc"]).
      { cbn [In] in Hin. destruct Hin as [H|[H|[H|[H|[]]]]];
          injection H as <- <- <- <-; cbn; tauto. }
      destruct Names as (N1 & N2 & N3).
      rewrite !Fixed by assumption.
      destruct (truthy path); [|exact W].
      destruct W as [W1 W2]. split; [exact W1|].
      rewrite forallb_forall in Hl. specialize (Hl lang N3).
      unfold link_paths_has in Hl. unfold link_paths_item in W2.
      destruct (link_paths_get (cs_link_paths compiler) lang) as [w|];
        [|discriminate].
      exists w. now split.
    + rewrite !Fixed by (cbn; tauto). apply first_ops_dtags.
    + intros flag Hflag. unfold after.
      rewrite compiler_ops_parts, !apply_modifications_app.
      fold before.
      assert (L : forall x, In x (flag_variables flag) ->
                            Forall (fun op => op_var op <> x) last_ops).
      { intros x Hx.
        pose proof (flag_variables_not_last _ _ _ Hapart Hflag Hx) as N.
        unfold last_ops. repeat constructor; cbn [op_var]; intros <-;
          apply N; cbn; tauto. }
      assert (F : forall x, In x (flag_variables flag) ->
                            apply_modifications (first_ops compiler) before x
                            = before x).
      { intros x Hx. apply apply_modifications_other. apply Forall_forall.
        intros op Hop E. apply first_ops_var in Hop. rewrite E in Hop.
        exact (flag_variables_not_first _ _ _ Hfresh Hflag Hx Hop). }
      rewrite (apply_modifications_other last_ops _ ("SPACK_" +++ upper flag))
        by (apply L; unfold flag_variables; cbn; tauto).
      rewrite (apply_modifications_other last_ops _ (upper flag))
        by (apply L; unfold flag_variables; cbn; tauto).
      destruct (flag_ops_effect flag
                  (apply_modifications (first_ops compiler) before)
                  Hapart Hflag) as [E1 E2].
      rewrite E1, E2.
      rewrite (F ("SPACK_" +++ upper flag)), (F (upper flag))
        by (unfold flag_variables; cbn; tauto).
      split; reflexivity.
    + unfold after. rewrite compiler_ops_parts, !app_assoc.
      unfold last_ops.
      change [SetEnv "SPACK_COMPILER_SPEC" compiler_spec;
              SetEnv "SPACK_SYSTEM_DIRS" (String.concat ":" system_dirs)]
        with ([] ++ SetEnv "SPACK_COMPILER_SPEC" compiler_spec
                 :: [SetEnv "SPACK_SYSTEM_DIRS"
                            (String.concat ":" system_dirs)]).
      rewrite app_nil_l.
      apply apply_modifications_last_set.
      repeat constructor. cbn. discriminate.
    + unfold after. rewrite compiler_ops_parts, !app_assoc.
      unfold last_ops.
      change [SetEnv "SPACK_COMPILER_SPEC" compiler_spec;
              SetEnv "SPACK_SYSTEM_DIRS" (String.concat ":" system_dirs)]
        with ([SetEnv "SPACK_COMPILER_SPEC" compiler_spec]
                ++ SetEnv "SPACK_SYSTEM_DIRS" (String.concat ":" system_dirs)
                :: []).
      rewrite app_assoc.
      apply apply_modifications_last_set. constructor.
    + intros x N1 N2 N3. unfold after.
      rewrite apply_modifications_app. fold before.
      apply apply_modifications_other.
      rewrite compiler_ops_parts.
      apply Forall_app; split; [|apply Forall_app; split];
        apply Forall_forall; intros op Hop E.
      * apply first_ops_var in Hop. rewrite E in Hop. contradiction.
      * apply in_flat_map in Hop. destruct Hop as (flag & Hflag & Hop).
        apply flag_ops_var in Hop. apply (N3 flag Hflag).
        rewrite E in Hop. unfold flag_variables. cbn [In].
        destruct Hop as [->| ->]; tauto.
      * apply N2. unfold last_ops in Hop. cbn [In] in Hop.
        destruct Hop as [<-|[<-|[]]]; cbn in E; subst x; cbn; tauto.
Qed.

End CompilerExtras.

Lemma compiler_variables_witness :
  exists ops,
    set_compiler_environment_variables true true "/spack/env" (Some "rpath")
      (Some "-march=x86-64") sample_flags
      (fun flag => Some (sample_flag_handler flag)) (fun _ => true)
      "gcc@9.3.0" ["/lib"; "/usr/lib"] (fun env => Some env) sample_compiler []
    = Some {| cr_env := [] ++ ops;
              cr_build_system_flags :=
                map (fun flag =>
                       (flag, build_system_flags
                                (fun flag => Some (sample_flag_handler flag))
                                flag))
                    sample_flags |}
    /\ apply_modifications ([] ++ ops) (fun _ => None) "SPACK_CFLAGS"
       = Some "-O2 -g"
    /\ apply_modifications ([] ++ ops) (fun _ => Some "gfortran") "FC"
       = Some "gfortran".
Proof.
  destruct (compiler_variables true true "/spack/env" (Some "rpath")
              "-march=x86-64" sample_flags
              (fun flag => Some (sample_flag_handler flag)) (fun _ => true)
              "gcc@9.3.0" ["/lib"; "/usr/lib"] (fun env => Some env)
              sample_compiler [])
    as (ops & A & _ & C); try reflexivity.
  exists ops. split; [exact A|]. split.
  - destruct (C (fun _ => None)) as (_ & _ & Fl & _).
    destruct (Fl "cflags") as [E _]; [cbn; tauto|]. exact E.
  - destruct (C (fun _ => Some "gfortran")) as (W & _).
    destruct (W (Some "") "SPACK_FC" "FC" "fc") as [_ E]; [cbn; tauto|].
    exact E.
Defined.

(** A handler that raises on a flag, a target without optimization
    flags for the compiler, or a hook of the compiler that raises: the
    function raises too. *)
Example compiler_variables_raise :
  set_compiler_environment_variables true true "/spack/env" (Some "rpath")
    (Some "-march=x86-64") sample_flags
    (fun flag => if flag =? "ldlibs" then None
                 else Some (sample_flag_handler flag))
    (fun _ => true) "gcc@9.3.0" [] (fun env => Some env) sample_compiler []
  = None
  /\ set_compiler_environment_variables true true "/spack/env" (Some "rpath")
       None sample_flags (fun flag => Some (sample_flag_handler flag))
       (fun _ => true) "gcc@9.3.0" [] (fun env => Some env) sample_compiler []
     = None
  /\ set_compiler_environment_variables true true "/spack/env" (Some "rpath")
       (Some "-march=x86-64") sample_flags
       (fun flag => Some (sample_flag_handler flag))
       (fun _ => true) "gcc@9.3.0" [] (fun _ => None) sample_compiler []
     = None.
Proof. repeat split. Qed.

(** * Properties of [setup_package] *)

Lemma apply_op_local :
  forall (e e' : environ) (op : env_op) (x : string),
    e x = e' x -> apply_op e op x = apply_op e' op x.
Proof.
  intros e e' op x H.
  destruct (String.eqb (op_var op) x) eqn:E.
  - apply String.eqb_eq in E.
    destruct op; cbn in E; subst; cbn; unfold environ_set;
      rewrite ?String.eqb_refl, ?H; reflexivity.
  - apply String.eqb_neq in E.
    now rewrite !apply_op_other by exact E.
Qed.

Lemma apply_modifications_local :
  forall (l : ledger) (e e' : environ) (x : string),
    e x = e' x -> apply_modifications l e x = apply_modifications l e' x.
Proof.
  unfold apply_modifications.
  induction l as [|op l IH]; intros e e' x H; cbn [fold_left].
  - exact H.
  - apply IH. now apply apply_op_local.
Qed.

Section SetupExtras.

Variable clean : environ -> environ.
Variable compiler_variables : ledger -> option compiler_result.
Variable build_variables : ledger -> bool -> ledger * option string.
Variable setup_platform_environment : ledger -> ledger.
Variable dependency_modifications
  : string -> option (list composer_event * ledger).
Variable setup_build_environment : ledger -> ledger.
Variable environment_modifications_for_spec : ledger.
Variable load_module : string -> environ -> environ.
Variable module_unload : string -> environ -> environ.
Variable test_requires_compiler : bool.
Variable compiler_modules : list string.
Variable target_module_name : pystr.
Variable traversed : list Spec.
Variable external_modules : Spec -> option (list string).
Variable implicit_rpaths : list string.

(** In the test context of a package whose tests need no compiler,
    [setup_package] returns (the platform hook and the module commands
    being taken to return), having set the module variables of the
    package and nothing else besides the environment; [PATH] then
    starts with the current directory; and the result is the same
    whatever the compiler setup, the build variables, the dependencies'
    build contributions, the package's build hook and the compiler's
    modules are: none of them is used. *)
Theorem setup_package_test_context :
  forall (dirty : bool) (e : environ),
    let run :=
      setup_package clean compiler_variables build_variables
        setup_platform_environment dependency_modifications
        setup_build_environment environment_modifications_for_spec
        load_module module_unload false compiler_modules target_module_name
        traversed external_modules implicit_rpaths dirty "test" e in
    (exists e' rest,
        run = Some (e', [SetsModuleVariables])
        /\ e' "PATH" = Some (String.concat ":" ("." :: rest)))
    /\ (forall compiler_variables' build_variables' dependency_modifications'
               setup_build_environment' compiler_modules',
           setup_package clean compiler_variables' build_variables'
             setup_platform_environment dependency_modifications'
             setup_build_environment' environment_modifications_for_spec
             load_module module_unload false compiler_modules'
             target_module_name traversed external_modules implicit_rpaths
             dirty "test" e
           = run).
Proof.
  intros dirty e run. split; [|reflexivity].
  unfold run, setup_package. cbn [String.eqb Ascii.eqb Bool.eqb orb andb].
  set (base := preserve_environment _ _ _).
  set (l := setup_platform_environment [] ++ environment_modifications_for_spec).
  eexists. exists (path_elements (apply_modifications l base "PATH")).
  split; [reflexivity|].
  destruct implicit_rpaths as [|r rs]; rewrite !apply_modifications_app;
    reflexivity.
Qed.

(** What [setup_package] leaves in [CC], [CXX], [FC] and [F77] and
    what else it does do not depend on the module system: neither on
    the modules that the compiler, the target and the external
    dependencies name, nor on what loading or unloading a module does
    to the environment (the module commands being taken to return). *)
Theorem setup_package_keeps_compilers :
  forall (dirty : bool) (context : string) (e : environ)
         (load_module' module_unload' : string -> environ -> environ)
         (compiler_modules' : list string) (target_module_name' : pystr)
         (traversed' : list Spec)
         (external_modules' : Spec -> option (list string)),
    match setup_package clean compiler_variables build_variables
            setup_platform_environment dependency_modifications
            setup_build_environment environment_modifications_for_spec
            load_module module_unload test_requires_compiler compiler_modules
            target_module_name traversed external_modules implicit_rpaths
            dirty context e,
          setup_package clean compiler_variables build_variables
            setup_platform_environment dependency_modifications
            setup_build_environment environment_modifications_for_spec
            load_module' module_unload' test_requires_compiler
            compiler_modules' target_module_name' traversed'
            external_modules' implicit_rpaths dirty context e
    with
    | Some (e1, effects1), Some (e2, effects2) =>
        effects1 = effects2
        /\ forall x, In x ["CC"; "CXX"; "FC"; "F77"] -> e1 x = e2 x
    | None, None => True
    | _, _ => False
    end.
Proof.
  intros dirty context e load_module' module_unload' compiler_modules'
         target_module_name' traversed' external_modules'.
  unfold setup_package.
  set (need := (context =? "build")
               || ((context =? "test") && test_requires_compiler)).
  assert (Tail : forall env : ledger,
             match
               match
                 (if context =? "build"
                  then match dependency_modifications context with
                       | Some (events, modifications) =>
                           Some (setup_build_environment
                                   (setup_platform_environment env
                                    ++ modifications),
                                 map Composes events ++ [SetsModuleVariables])
                       | None => None
                       end
                  else if context =? "test"
                       then Some ((setup_platform_environment env
                                   ++ environment_modifications_for_spec)
                                  ++ [PrependPath "PATH" "."],
                                  [SetsModuleVariables])
                       else Some (setup_platform_environment env, []))
               with
               | Some (env, effects) =>
                   Some (apply_modifications
                           match implicit_rpaths with
                           | [] => env
                           | _ :: _ =>
                               env ++ [SetEnv "SPACK_COMPILER_IMPLICIT_RPATHS"
                                              (String.concat ":" implicit_rpaths)]
                           end
                           (preserve_environment ["CC"; "CXX"; "FC"; "F77"]
                              (load_modules load_module module_unload
                                 compiler_modules target_module_name traversed
                                 external_modules need)
                              (if negb dirty then clean e else e)), effects)
               | None => None
               end,
               match
                 (if context =? "build"
                  then match dependency_modifications context with
                       | Some (events, modifications) =>
                           Some (setup_build_environment
                                   (setup_platform_environment env
                                    ++ modifications),
                                 map Composes events ++ [SetsModuleVariables])
                       | None => None
                       end
                  else if context =? "test"
                       then Some ((setup_platform_environment env
                                   ++ environment_modifications_for_spec)
                                  ++ [PrependPath "PATH" "."],
                                  [SetsModuleVariables])
                       else Some (setup_platform_environment env, []))
               with
               | Some (env, effects) =>
                   Some (apply_modifications
                           match implicit_rpaths with
                           | [] => env
                           | _ :: _ =>
                               env ++ [SetEnv "SPACK_COMPILER_IMPLICIT_RPATHS"
                                              (String.concat ":" implicit_rpaths)]
                           end
                           (preserve_environment ["CC"; "CXX"; "FC"; "F77"]
                              (load_modules load_module' module_unload'
                                 compiler_modules' target_module_name'
                                 traversed' external_modules' need)
                              (if negb dirty then clean e else e)), effects)
               | None => None
               end
             with
             | Some (e1, effects1), Some (e2, effects2) =>
                 effects1 = effects2
                 /\ forall x, In x ["CC"; "CXX"; "FC"; "F77"] -> e1 x = e2 x
             | None, None => True
             | _, _ => False
             end).
  { intros env.
    assert (P : forall (l : ledger) (b b' : environ -> environ) x,
               In x ["CC"; "CXX"; "FC"; "F77"] ->
               apply_modifications l
                 (preserve_environment ["CC"; "CXX"; "FC"; "F77"] b
                    (if negb dirty then clean e else e)) x
               = apply_modifications l
                   (preserve_environment ["CC"; "CXX"; "FC"; "F77"] b'
                      (if negb dirty then clean e else e)) x).
    { intros l b b' x Hx. apply apply_modifications_local.
      unfold preserve_environment.
      replace (str_mem x ["CC"; "CXX"; "FC"; "F77"]) with true;
        [reflexivity|].
      symmetry. now apply str_mem_In. }
    destruct (context =? "build").
    - destruct (dependency_modifications context) as [[events mods]|];
        [|exact I].
      split; [reflexivity|]. intros x Hx. now apply P.
    - destruct (context =? "test");
        (split; [reflexivity|]; intros x Hx; now apply P). }
  destruct need.
  - destruct (compiler_variables []) as [r|]; [|exact I].
    destruct (build_variables (cr_env r) dirty) as [env [msg|]]; [exact I|].
    apply Tail.
  - apply Tail.
Qed.

End SetupExtras.

Example setup_package_sample :
  (exists e effects,
      sample_setup false "build" sample_environ = Some (e, effects)
      /\ map e ["CC"; "SPACK_CC"; "LD_LIBRARY_PATH"; "LC_ALL"; "APP_HOME";
                "SPACK_COMPILER_IMPLICIT_RPATHS"]
         = [Some "/spack/env/gcc/gcc"; Some "/usr/bin/gcc"; None; Some "C";
            Some "/opt/a"; Some "/usr/lib/gcc"])
  /\ (exists e,
         sample_setup true "test" sample_environ
         = Some (e, [SetsModuleVariables])
         /\ map e ["CC"; "SPACK_CC"; "LD_LIBRARY_PATH"; "PATH"]
            = [Some "cc"; None; Some "/opt/old/lib";
               Some ".:/usr/bin:/opt/macports/bin"]).
Proof.
  split.
  - eexists. eexists. split; [vm_compute; reflexivity|]. vm_compute. reflexivity.
  - eexists. split; [vm_compute; reflexivity|]. vm_compute. reflexivity.
Qed.

(** * The rendered error across the pipe *)

Lemma concat_empty_length (l : list string) :
  String.length (String.concat "" l) = list_sum (map String.length l).
Proof.
  induction l as [|x l IH]; [reflexivity|].
  destruct l as [|y l].
  - cbn. lia.
  - change (String.concat "" (x :: y :: l))
      with (x +++ "" +++ String.concat "" (y :: l)).
    rewrite !append_length, IH. cbn. lia.
Qed.

Lemma long_message_kept :
  forall (event : Type)
         (parse_log_events : string -> list event * list event)
         (make_log_context : list event -> string)
         (plural : nat -> string -> string) (path_exists : string -> bool)
         (ce : ChildError),
    truthy (ce__long_message ce) = false ->
    long_message parse_log_events make_log_context plural path_exists
      (reconstruct (ChildError_reduce ce))
    = long_message parse_log_events make_log_context plural path_exists ce.
Proof.
  intros event parse_log_events make_log_context plural path_exists
         [msg lm pkg module name tb ctx bl tl] H.
  cbn [ce__long_message] in H.
  unfold long_message, long_message_pieces.
  cbn [reconstruct ChildError_reduce fst snd _make_child_error
       ChildError_init ce_message ce__long_message ce_module ce_name
       ce_traceback ce_context ce_build_log ce_test_log truthy].
  rewrite H. reflexivity.
Qed.

Lemma long_message_lost :
  forall (event : Type)
         (parse_log_events : string -> list event * list event)
         (make_log_context : list event -> string)
         (plural : nat -> string -> string) (path_exists : string -> bool)
         (ce : ChildError),
    truthy (ce__long_message ce) = true ->
    String.length (long_message parse_log_events make_log_context plural
                     path_exists (reconstruct (ChildError_reduce ce)))
    < String.length (long_message parse_log_events make_log_context plural
                       path_exists ce).
Proof.
  intros event parse_log_events make_log_context plural path_exists
         [msg lm pkg module name tb ctx bl tl] H.
  cbn [ce__long_message] in H.
  destruct lm as [s|]; [|discriminate].
  assert (S : 1 <= String.length s).
  { destruct s; [discriminate|cbn; lia]. }
  unfold long_message, long_message_pieces, getvalue.
  cbn [reconstruct ChildError_reduce fst snd _make_child_error
       ChildError_init ce_message ce__long_message ce_module ce_name
       ce_traceback ce_context ce_build_log ce_test_log].
  rewrite H. cbn [truthy fmt].
  generalize (write_log_summary parse_log_events "build" (fmt bl) None).
  generalize (write_log_summary parse_log_events "test" (fmt tl) None).
  intros test_summary build_summary.
  destruct (qualname_in (module, name) build_errors);
    destruct (log_available path_exists bl);
    destruct (log_available path_exists tl);
    try destruct ctx as [|c ctx].
  all: repeat match goal with
              | |- context [if negb (?g =? "") then _ else _] =>
                  let E := fresh "E" in destruct (g =? "") eqn:E; cbn [negb]
              end.
  all: repeat match goal with
              | E : (_ =? "") = true |- _ =>
                  apply String.eqb_eq in E; apply (f_equal String.length) in E
              end.
  all: repeat (rewrite concat_empty_length in * || rewrite map_app in *
               || rewrite list_sum_app in *).
  all: rewrite ?append_length in *.
  all: unfold list_sum in *.
  all: cbn [map fold_right render String.length] in *.
  all: lia.
Qed.

(** [__reduce__] does not carry the long message that a [ChildError]
    inherits from [SpackError], so a [ChildError] renders after
    unpickling as it did before ([long_message] and [__str__] give the
    same strings, whatever the logs hold) exactly when that long message
    is unset or empty.  It is unset in every [ChildError] that the child
    of [fork] builds, and the [pkg] attribute is never carried. *)
Theorem child_error_str_transferred :
  forall (event : Type)
         (parse_log_events : string -> list event * list event)
         (make_log_context : list event -> string)
         (plural : nat -> string -> string) (path_exists : string -> bool),
    (forall ce : ChildError,
        let ce' := reconstruct (ChildError_reduce ce) in
        (long_message parse_log_events make_log_context plural path_exists ce'
         = long_message parse_log_events make_log_context plural path_exists ce
         <-> truthy (ce__long_message ce) = false)
        /\ (ChildError_str parse_log_events make_log_context plural
                           path_exists ce'
            = ChildError_str parse_log_events make_log_context plural
                             path_exists ce
            <-> truthy (ce__long_message ce) = false)
        /\ ce_pkg ce' = None)
    /\ (forall is_package_file readlines colorize cescape pkg context r ce,
           wrap_exception is_package_file readlines colorize cescape
                          pkg context r = Some ce ->
           ce__long_message ce = None).
Proof.
  intros event parse_log_events make_log_context plural path_exists.
  split.
  - intros ce ce'.
    assert (Lost : truthy (ce__long_message ce) = true ->
                   String.length
                     (long_message parse_log_events make_log_context plural
                        path_exists ce')
                   < String.length
                       (long_message parse_log_events make_log_context plural
                          path_exists ce)).
    { apply long_message_lost. }
    assert (Kept : truthy (ce__long_message ce) = false ->
                   long_message parse_log_events make_log_context plural
                     path_exists ce'
                   = long_message parse_log_events make_log_context plural
                       path_exists ce).
    { apply long_message_kept. }
    assert (M : ce_message ce' = ce_message ce
                /\ ce_traceback ce' = ce_traceback ce /\ ce_pkg ce' = None).
    { unfold ce'. destruct ce. cbn. auto. }
    destruct M as (M1 & M2 & M3).
    split; [|split; [|exact M3]].
    + split; [|exact Kept].
      intros E. destruct (truthy (ce__long_message ce)); [|reflexivity].
      specialize (Lost eq_refl). rewrite E in Lost. lia.
    + unfold ChildError_str. rewrite M1, M2. split.
      * intros E. destruct (truthy (ce__long_message ce)); [|reflexivity].
        specialize (Lost eq_refl).
        apply (f_equal String.length) in E.
        rewrite !append_length in E. lia.
      * intros E. now rewrite (Kept E).
  - intros is_package_file readlines colorize cescape pkg context r ce H.
    unfold wrap_exception in H.
    destruct (if negb (class_is (exc_type (r_exc r)) TestFailure_name)
              then get_package_context is_package_file readlines colorize
                     cescape (r_tb_first r :: r_tb_rest r) 3
              else Some []) as [package_context|]; [|discriminate].
    destruct (handler_test_log pkg context) as [test_log|]; [|discriminate].
    destruct (exc_str (r_exc r)) as [text|]; [|discriminate].
    injection H as <-. reflexivity.
Qed.

(** * The conversion bound in a package module *)

Lemma hasattr_setattr_same :
  forall m k v, hasattr (setattr m k v) k = true.
Proof.
  induction m as [|[k0 v0] m IH]; intros k v; cbn.
  - now rewrite String.eqb_refl.
  - destruct (k0 =? k) eqn:E; cbn; rewrite E; [reflexivity | apply IH].
Qed.

Lemma hasattr_setattr_keeps :
  forall m k v k', hasattr m k' = true -> hasattr (setattr m k v) k' = true.
Proof.
  induction m as [|[k0 v0] m IH]; intros k v k' H; cbn in *.
  - discriminate.
  - destruct (k0 =? k) eqn:E; cbn.
    + exact H.
    + destruct (k0 =? k'); [reflexivity|]. cbn in *. now apply IH.
Qed.

Lemma hasattr_assigned :
  forall l m k,
    In k (map fst l) ->
    hasattr (fold_left (fun m kv => setattr m (fst kv) (snd kv)) l m) k = true.
Proof.
  intros l m k H.
  assert (K : forall l m, hasattr m k = true ->
                          hasattr (fold_left
                                     (fun m kv => setattr m (fst kv) (snd kv))
                                     l m) k = true).
  { clear. induction l as [|[k0 v0] l IH]; intros m H; cbn [fold_left fst snd].
    - exact H.
    - apply IH. now apply hasattr_setattr_keeps. }
  revert m. induction l as [|[k0 v0] l IH]; intros m; [contradiction|].
  cbn [fold_left fst snd]. cbn [map fst In] in H. destruct H as [<-|H].
  - apply K. apply hasattr_setattr_same.
  - now apply IH.
Qed.

(** The [static_to_shared_library] that [_set_variables_for_single_module]
    binds in a module.  Called with a [compiler] keyword it never
    converts anything: the keyword is passed on to
    [_static_to_shared_library], which receives the compiler
    positionally already.  Called without it in a module that has just
    been set up for a package, it runs the package's C compiler wrapper,
    with the effects of [_static_to_shared_library] for the known
    keywords.  It converts only in that way: with the [compiler] keyword
    absent and the compiler read from [spack_cc] of the module. *)
Theorem static_to_shared_library_compiler :
  forall (executable : modval -> bool) (sys_platform arch : string)
         (static_lib : string) (shared_lib : pystr) (kwargs : library_kwargs),
    (forall m given,
        lk_compiler kwargs = Some given ->
        static_to_shared_library executable sys_platform arch m static_lib
          shared_lib kwargs
        = ConversionRaises)
    /\ (forall build_jobs cpu_count build_env_path std_cmake_args
               std_meson_args pkg m,
           modval_truthy (getattr m marker (MBool false)) = false ->
           lk_compiler kwargs = None ->
           let wrapper :=
             MStr (os_path.join build_env_path (mp_link_paths pkg "cc")) in
           executable wrapper = true ->
           static_to_shared_library executable sys_platform arch
             (_set_variables_for_single_module build_jobs cpu_count
                build_env_path std_cmake_args std_meson_args sys_platform
                pkg m)
             static_lib shared_lib kwargs
           = Converts wrapper
                      (_static_to_shared_library sys_platform arch static_lib
                         shared_lib (lk_known kwargs)))
    /\ (forall m compiler effects,
           static_to_shared_library executable sys_platform arch m static_lib
             shared_lib kwargs
           = Converts compiler effects ->
           lk_compiler kwargs = None
           /\ hasattr m "spack_cc" = true
           /\ compiler = getattr m "spack_cc" (MStr "")).
Proof.
  intros executable sys_platform arch static_lib shared_lib kwargs.
  split; [|split].
  - intros m given H. unfold static_to_shared_library. rewrite H.
    now destruct (negb (hasattr m "spack_cc")).
  - intros build_jobs cpu_count build_env_path std_cmake_args std_meson_args
           pkg m Hm Hk wrapper Hx.
    unfold static_to_shared_library. rewrite Hk.
    rewrite set_single_unmarked by exact Hm.
    rewrite hasattr_assigned by (cbn; tauto).
    cbn [negb].
    rewrite (getattr_assign_in _ (module_assignments_NoDup build_jobs
                                    cpu_count build_env_path std_cmake_args
                                    std_meson_args sys_platform pkg)
               m "spack_cc" wrapper) by (cbn; tauto).
    fold wrapper. now rewrite Hx.
  - intros m compiler effects H. unfold static_to_shared_library in H.
    destruct (hasattr m "spack_cc"); cbn [negb] in H; [|discriminate].
    destruct (lk_compiler kwargs); [discriminate|].
    destruct (executable (getattr m "spack_cc" (MStr ""))); [|discriminate].
    injection H as <- _. auto.
Qed.
